(** * CogniSentinel: emotion detection and response selection

    A shallow embedding of [src/emotion_detector.py] and [src/actions.py].

    - Python [str] is modelled by [string], a text being held as its UTF-8
      bytes; [str.strip] and [str.lower] work on the Unicode characters of
      the text, with the whitespace, the lower-case mapping and the
      final-sigma rule of CPython.
    - Python [float] is modelled by the binary64 numbers of [PrimFloat], so
      every comparison and every arithmetic step rounds as CPython does.
    - A Python [dict] is an association list in insertion order: the keyword
      loop of the detector depends on that order.
    - Exceptions are explicit: fallible code returns a [result], and the
      action handlers run in a state-and-exception monad over the
      dispatcher's messages and the random generator. *)

From Stdlib Require Import ZArith NArith Arith List String Ascii Bool Lia.
From Stdlib Require Import Floats.PrimFloat Floats.SpecFloat Floats.FloatAxioms.
From Stdlib Require Import Uint63.
Import ListNotations.

Set Warnings "-inexact-float,-register-all".

Open Scope string_scope.
Open Scope nat_scope.
Open Scope list_scope.

(** ** Exceptions and results *)

(** The exception classes the modelled code can meet; each is a subclass of
    [Exception], so an [except Exception] clause catches all of them. *)
Inductive exn : Type :=
| KeyError
| IndexError
| TypeError
| AttributeError
| ValueError
| RequestException
| ModelError.

Inductive result (A : Type) : Type :=
| Ok (a : A)
| Raise (e : exn).

Arguments Ok {A} a.
Arguments Raise {A} e.

Definition rbind {A B} (r : result A) (k : A -> result B) : result B :=
  match r with
  | Ok a => k a
  | Raise e => Raise e
  end.

(** [try: body except Exception: handler] for code without side effects. *)
Definition rtry {A} (body : result A) (handler : exn -> result A) : result A :=
  match body with
  | Ok a => Ok a
  | Raise e => handler e
  end.

Declare Scope result_scope.
Delimit Scope result_scope with result.
Notation "x <- c1 ;; c2" := (rbind c1 (fun x => c2))
  (at level 61, c1 at next level, right associativity) : result_scope.
Notation "' pat <- c1 ;; c2" := (rbind c1 (fun x => match x with pat => c2 end))
  (at level 61, pat pattern, c1 at next level, right associativity) : result_scope.

(** A [for] loop whose body may raise: the loop state is threaded through the
    iterations and the first exception ends the loop. *)
Fixpoint for_each {A S} (xs : list A) (body : A -> S -> result S) (s : S)
  : result S :=
  match xs with
  | [] => Ok s
  | x :: xs' =>
      match body x s with
      | Ok s' => for_each xs' body s'
      | Raise e => Raise e
      end
  end.

(** ** Python built-ins used by the program *)

Module Py.

(** *** Strings

    A [str] is a sequence of Unicode code points. The model holds it in a
    [string] as its UTF-8 bytes (a lone surrogate, which a [str] can hold,
    as the three bytes of its code point), so that the literals of the
    program read as in the source. UTF-8 is injective and
    self-synchronizing: equality, concatenation and the substring test of
    two [str] are those of their bytes. [strip] and [lower] work on the
    characters, with the character tables of Unicode 14.0, the ones of
    CPython 3.11. *)

(** The value of a byte. *)
Definition byte (b : ascii) : N := N_of_ascii b.

(** A byte [10xxxxxx], which continues a character. *)
Definition continuation (b : ascii) : bool :=
  ((0x80 <=? byte b) && (byte b <? 0xC0))%N.

(** The string goes on with a continuation byte. *)
Definition continues (s : string) : bool :=
  match s with
  | EmptyString => false
  | String b _ => continuation b
  end.

(** [list(s)]: the characters of a string, each with its bytes. A character
    starts at every byte that is not a continuation byte. *)
Fixpoint chars (s : string) : list string :=
  match s with
  | EmptyString => []
  | String b s' =>
      if continues s'
      then match chars s' with
           | c :: cs => String b c :: cs
           | [] => [String b EmptyString]
           end
      else String b EmptyString :: chars s'
  end.

(** ["".join(cs)] *)
Fixpoint join (cs : list string) : string :=
  match cs with
  | [] => EmptyString
  | c :: cs' => (c ++ join cs')%string
  end.

(** The string of a list of bytes. *)
Definition utf8 (bytes : list N) : string :=
  string_of_list_ascii (map ascii_of_N bytes).

(** [chr(n)]: the character of a code point. *)
Definition chr (n : N) : string :=
  (if n <? 0x80 then utf8 [n]
   else if n <? 0x800 then utf8 [0xC0 + n / 0x40; 0x80 + n mod 0x40]
   else if n <? 0x10000 then
     utf8 [0xE0 + n / 0x1000; 0x80 + (n / 0x40) mod 0x40; 0x80 + n mod 0x40]
   else
     utf8 [0xF0 + (n / 0x40000) mod 8; 0x80 + (n / 0x1000) mod 0x40;
           0x80 + (n / 0x40) mod 0x40; 0x80 + n mod 0x40])%N.

(** [ord(c)]: the code point of a character; [None] for bytes that are not
    the encoding of one character. *)
Definition ord (c : string) : option N :=
  let n :=
    (match map byte (list_ascii_of_string c) with
     | [b0] => b0
     | [b0; b1] => (b0 mod 0x20) * 0x40 + b1 mod 0x40
     | [b0; b1; b2] => (b0 mod 0x10) * 0x1000 + (b1 mod 0x40) * 0x40 + b2 mod 0x40
     | [b0; b1; b2; b3] =>
         (b0 mod 8) * 0x40000 + (b1 mod 0x40) * 0x1000 + (b2 mod 0x40) * 0x40
         + b3 mod 0x40
     | _ => 0x110000
     end)%N in
  if (n <? 0x110000)%N && (chr n =? c)%string then Some n else None.

(** [n] lies in one of the ranges, each given by its first and its last
    code point. *)
Definition in_ranges (n : N) (ranges : list (N * N)) : bool :=
  existsb (fun '(first, last) => (first <=? n) && (n <=? last))%N ranges.

(** The whitespace characters: those [str.isspace] and [str.strip] know,
    the ASCII ones, U+0085, U+00A0 and the Unicode spaces and line
    separators. *)
Definition whitespace : list (N * N) :=
  [ (0x09, 0x0D); (0x1C, 0x20); (0x85, 0x85); (0xA0, 0xA0); (0x1680, 0x1680);
    (0x2000, 0x200A); (0x2028, 0x2029); (0x202F, 0x202F); (0x205F, 0x205F);
    (0x3000, 0x3000) ]%N.

Fixpoint drop_while {A} (p : A -> bool) (xs : list A) : list A :=
  match xs with
  | [] => []
  | x :: xs' => if p x then drop_while p xs' else xs
  end.

(** [c.isspace()] for a character. *)
Definition isspace (c : string) : bool :=
  match ord c with
  | Some n => in_ranges n whitespace
  | None => false
  end.

(** [s.strip()]: the string without its leading and trailing whitespace. *)
Definition strip (s : string) : string :=
  join (rev (drop_while isspace (rev (drop_while isspace (chars s))))).

(** The characters with a lower case that is one other character: an entry
    [(first, last, step, target)] maps [first], [first + step], ... up to
    [last] to [target], [target + step], ... *)
Definition lower_ranges : list (N * N * N * N) :=
  [
    (0x41, 0x5A, 1, 0x61); (0xC0, 0xD6, 1, 0xE0); (0xD8, 0xDE, 1, 0xF8);
    (0x100, 0x12E, 2, 0x101); (0x132, 0x136, 2, 0x133); (0x139, 0x147, 2, 0x13A);
    (0x14A, 0x176, 2, 0x14B); (0x178, 0x178, 1, 0xFF); (0x179, 0x17D, 2, 0x17A);
    (0x181, 0x181, 1, 0x253); (0x182, 0x184, 2, 0x183); (0x186, 0x186, 1, 0x254);
    (0x187, 0x187, 1, 0x188); (0x189, 0x18A, 1, 0x256); (0x18B, 0x18B, 1, 0x18C);
    (0x18E, 0x18E, 1, 0x1DD); (0x18F, 0x18F, 1, 0x259); (0x190, 0x190, 1, 0x25B);
    (0x191, 0x191, 1, 0x192); (0x193, 0x193, 1, 0x260); (0x194, 0x194, 1, 0x263);
    (0x196, 0x196, 1, 0x269); (0x197, 0x197, 1, 0x268); (0x198, 0x198, 1, 0x199);
    (0x19C, 0x19C, 1, 0x26F); (0x19D, 0x19D, 1, 0x272); (0x19F, 0x19F, 1, 0x275);
    (0x1A0, 0x1A4, 2, 0x1A1); (0x1A6, 0x1A6, 1, 0x280); (0x1A7, 0x1A7, 1, 0x1A8);
    (0x1A9, 0x1A9, 1, 0x283); (0x1AC, 0x1AC, 1, 0x1AD); (0x1AE, 0x1AE, 1, 0x288);
    (0x1AF, 0x1AF, 1, 0x1B0); (0x1B1, 0x1B2, 1, 0x28A); (0x1B3, 0x1B5, 2, 0x1B4);
    (0x1B7, 0x1B7, 1, 0x292); (0x1B8, 0x1B8, 1, 0x1B9); (0x1BC, 0x1BC, 1, 0x1BD);
    (0x1C4, 0x1C4, 1, 0x1C6); (0x1C5, 0x1C5, 1, 0x1C6); (0x1C7, 0x1C7, 1, 0x1C9);
    (0x1C8, 0x1C8, 1, 0x1C9); (0x1CA, 0x1CA, 1, 0x1CC); (0x1CB, 0x1DB, 2, 0x1CC);
    (0x1DE, 0x1EE, 2, 0x1DF); (0x1F1, 0x1F1, 1, 0x1F3); (0x1F2, 0x1F4, 2, 0x1F3);
    (0x1F6, 0x1F6, 1, 0x195); (0x1F7, 0x1F7, 1, 0x1BF); (0x1F8, 0x21E, 2, 0x1F9);
    (0x220, 0x220, 1, 0x19E); (0x222, 0x232, 2, 0x223); (0x23A, 0x23A, 1, 0x2C65);
    (0x23B, 0x23B, 1, 0x23C); (0x23D, 0x23D, 1, 0x19A); (0x23E, 0x23E, 1, 0x2C66);
    (0x241, 0x241, 1, 0x242); (0x243, 0x243, 1, 0x180); (0x244, 0x244, 1, 0x289);
    (0x245, 0x245, 1, 0x28C); (0x246, 0x24E, 2, 0x247); (0x370, 0x372, 2, 0x371);
    (0x376, 0x376, 1, 0x377); (0x37F, 0x37F, 1, 0x3F3); (0x386, 0x386, 1, 0x3AC);
    (0x388, 0x38A, 1, 0x3AD); (0x38C, 0x38C, 1, 0x3CC); (0x38E, 0x38F, 1, 0x3CD);
    (0x391, 0x3A1, 1, 0x3B1); (0x3A3, 0x3AB, 1, 0x3C3); (0x3CF, 0x3CF, 1, 0x3D7);
    (0x3D8, 0x3EE, 2, 0x3D9); (0x3F4, 0x3F4, 1, 0x3B8); (0x3F7, 0x3F7, 1, 0x3F8);
    (0x3F9, 0x3F9, 1, 0x3F2); (0x3FA, 0x3FA, 1, 0x3FB); (0x3FD, 0x3FF, 1, 0x37B);
    (0x400, 0x40F, 1, 0x450); (0x410, 0x42F, 1, 0x430); (0x460, 0x480, 2, 0x461);
    (0x48A, 0x4BE, 2, 0x48B); (0x4C0, 0x4C0, 1, 0x4CF); (0x4C1, 0x4CD, 2, 0x4C2);
    (0x4D0, 0x52E, 2, 0x4D1); (0x531, 0x556, 1, 0x561); (0x10A0, 0x10C5, 1, 0x2D00);
    (0x10C7, 0x10C7, 1, 0x2D27); (0x10CD, 0x10CD, 1, 0x2D2D); (0x13A0, 0x13EF, 1, 0xAB70);
    (0x13F0, 0x13F5, 1, 0x13F8); (0x1C90, 0x1CBA, 1, 0x10D0); (0x1CBD, 0x1CBF, 1, 0x10FD);
    (0x1E00, 0x1E94, 2, 0x1E01); (0x1E9E, 0x1E9E, 1, 0xDF); (0x1EA0, 0x1EFE, 2, 0x1EA1);
    (0x1F08, 0x1F0F, 1, 0x1F00); (0x1F18, 0x1F1D, 1, 0x1F10); (0x1F28, 0x1F2F, 1, 0x1F20);
    (0x1F38, 0x1F3F, 1, 0x1F30); (0x1F48, 0x1F4D, 1, 0x1F40); (0x1F59, 0x1F5F, 2, 0x1F51);
    (0x1F68, 0x1F6F, 1, 0x1F60); (0x1F88, 0x1F8F, 1, 0x1F80); (0x1F98, 0x1F9F, 1, 0x1F90);
    (0x1FA8, 0x1FAF, 1, 0x1FA0); (0x1FB8, 0x1FB9, 1, 0x1FB0); (0x1FBA, 0x1FBB, 1, 0x1F70);
    (0x1FBC, 0x1FBC, 1, 0x1FB3); (0x1FC8, 0x1FCB, 1, 0x1F72); (0x1FCC, 0x1FCC, 1, 0x1FC3);
    (0x1FD8, 0x1FD9, 1, 0x1FD0); (0x1FDA, 0x1FDB, 1, 0x1F76); (0x1FE8, 0x1FE9, 1, 0x1FE0);
    (0x1FEA, 0x1FEB, 1, 0x1F7A); (0x1FEC, 0x1FEC, 1, 0x1FE5); (0x1FF8, 0x1FF9, 1, 0x1F78);
    (0x1FFA, 0x1FFB, 1, 0x1F7C); (0x1FFC, 0x1FFC, 1, 0x1FF3); (0x2126, 0x2126, 1, 0x3C9);
    (0x212A, 0x212A, 1, 0x6B); (0x212B, 0x212B, 1, 0xE5); (0x2132, 0x2132, 1, 0x214E);
    (0x2160, 0x216F, 1, 0x2170); (0x2183, 0x2183, 1, 0x2184); (0x24B6, 0x24CF, 1, 0x24D0);
    (0x2C00, 0x2C2F, 1, 0x2C30); (0x2C60, 0x2C60, 1, 0x2C61); (0x2C62, 0x2C62, 1, 0x26B);
    (0x2C63, 0x2C63, 1, 0x1D7D); (0x2C64, 0x2C64, 1, 0x27D); (0x2C67, 0x2C6B, 2, 0x2C68);
    (0x2C6D, 0x2C6D, 1, 0x251); (0x2C6E, 0x2C6E, 1, 0x271); (0x2C6F, 0x2C6F, 1, 0x250);
    (0x2C70, 0x2C70, 1, 0x252); (0x2C72, 0x2C72, 1, 0x2C73); (0x2C75, 0x2C75, 1, 0x2C76);
    (0x2C7E, 0x2C7F, 1, 0x23F); (0x2C80, 0x2CE2, 2, 0x2C81); (0x2CEB, 0x2CED, 2, 0x2CEC);
    (0x2CF2, 0x2CF2, 1, 0x2CF3); (0xA640, 0xA66C, 2, 0xA641); (0xA680, 0xA69A, 2, 0xA681);
    (0xA722, 0xA72E, 2, 0xA723); (0xA732, 0xA76E, 2, 0xA733); (0xA779, 0xA77B, 2, 0xA77A);
    (0xA77D, 0xA77D, 1, 0x1D79); (0xA77E, 0xA786, 2, 0xA77F); (0xA78B, 0xA78B, 1, 0xA78C);
    (0xA78D, 0xA78D, 1, 0x265); (0xA790, 0xA792, 2, 0xA791); (0xA796, 0xA7A8, 2, 0xA797);
    (0xA7AA, 0xA7AA, 1, 0x266); (0xA7AB, 0xA7AB, 1, 0x25C); (0xA7AC, 0xA7AC, 1, 0x261);
    (0xA7AD, 0xA7AD, 1, 0x26C); (0xA7AE, 0xA7AE, 1, 0x26A); (0xA7B0, 0xA7B0, 1, 0x29E);
    (0xA7B1, 0xA7B1, 1, 0x287); (0xA7B2, 0xA7B2, 1, 0x29D); (0xA7B3, 0xA7B3, 1, 0xAB53);
    (0xA7B4, 0xA7C2, 2, 0xA7B5); (0xA7C4, 0xA7C4, 1, 0xA794); (0xA7C5, 0xA7C5, 1, 0x282);
    (0xA7C6, 0xA7C6, 1, 0x1D8E); (0xA7C7, 0xA7C9, 2, 0xA7C8); (0xA7D0, 0xA7D0, 1, 0xA7D1);
    (0xA7D6, 0xA7D8, 2, 0xA7D7); (0xA7F5, 0xA7F5, 1, 0xA7F6); (0xFF21, 0xFF3A, 1, 0xFF41);
    (0x10400, 0x10427, 1, 0x10428); (0x104B0, 0x104D3, 1, 0x104D8); (0x10570, 0x1057A, 1, 0x10597);
    (0x1057C, 0x1058A, 1, 0x105A3); (0x1058C, 0x10592, 1, 0x105B3); (0x10594, 0x10595, 1, 0x105BB);
    (0x10C80, 0x10CB2, 1, 0x10CC0); (0x118A0, 0x118BF, 1, 0x118C0); (0x16E40, 0x16E5F, 1, 0x16E60);
    (0x1E900, 0x1E921, 1, 0x1E922) ]%N.

(** The [count] pairs of an entry, from [first] and [target] on. *)
Fixpoint upto (count : nat) (first step target : N) : list (N * N) :=
  match count with
  | O => []
  | S count' => (first, target) :: upto count' (first + step)%N step (target + step)%N
  end.

Definition expand (range : N * N * N * N) : list (N * N) :=
  let '(first, last, step, target) := range in
  upto (S (N.to_nat ((last - first) / step))) first step target.

(** The lower-case mapping, a pair for each of its 1432 characters. *)
Definition lower_table : list (N * N) :=
  Eval vm_compute in flat_map expand lower_ranges.

Fixpoint lookup (n : N) (table : list (N * N)) : option N :=
  match table with
  | [] => None
  | (k, v) :: table' => if (n =? k)%N then Some v else lookup n table'
  end.

(** The lower case of a code point: the code point itself when the mapping
    has none, and two code points for U+0130, the capital I with a dot. *)
Definition to_lower (n : N) : list N :=
  if (n =? 0x130)%N then [0x69; 0x307]%N
  else match lookup n lower_table with
       | Some m => [m]
       | None => [n]
       end.

(** The lower case of a character, but for the capital sigma. *)
Definition to_lower_full (c : string) : string :=
  match ord c with
  | Some n => join (map chr (to_lower n))
  | None => c
  end.

(** The case-ignorable characters and the cased characters, which decide
    how a capital sigma is lower-cased. *)
Definition case_ignorable_ranges : list (N * N) :=
  [
    (0x27, 0x27); (0x2E, 0x2E); (0x3A, 0x3A); (0x5E, 0x5E);
    (0x60, 0x60); (0xA8, 0xA8); (0xAD, 0xAD); (0xAF, 0xAF);
    (0xB4, 0xB4); (0xB7, 0xB8); (0x2B0, 0x36F); (0x374, 0x375);
    (0x37A, 0x37A); (0x384, 0x385); (0x387, 0x387); (0x483, 0x489);
    (0x559, 0x559); (0x55F, 0x55F); (0x591, 0x5BD); (0x5BF, 0x5BF);
    (0x5C1, 0x5C2); (0x5C4, 0x5C5); (0x5C7, 0x5C7); (0x5F4, 0x5F4);
    (0x600, 0x605); (0x610, 0x61A); (0x61C, 0x61C); (0x640, 0x640);
    (0x64B, 0x65F); (0x670, 0x670); (0x6D6, 0x6DD); (0x6DF, 0x6E8);
    (0x6EA, 0x6ED); (0x70F, 0x70F); (0x711, 0x711); (0x730, 0x74A);
    (0x7A6, 0x7B0); (0x7EB, 0x7F5); (0x7FA, 0x7FA); (0x7FD, 0x7FD);
    (0x816, 0x82D); (0x859, 0x85B); (0x888, 0x888); (0x890, 0x891);
    (0x898, 0x89F); (0x8C9, 0x902); (0x93A, 0x93A); (0x93C, 0x93C);
    (0x941, 0x948); (0x94D, 0x94D); (0x951, 0x957); (0x962, 0x963);
    (0x971, 0x971); (0x981, 0x981); (0x9BC, 0x9BC); (0x9C1, 0x9C4);
    (0x9CD, 0x9CD); (0x9E2, 0x9E3); (0x9FE, 0x9FE); (0xA01, 0xA02);
    (0xA3C, 0xA3C); (0xA41, 0xA42); (0xA47, 0xA48); (0xA4B, 0xA4D);
    (0xA51, 0xA51); (0xA70, 0xA71); (0xA75, 0xA75); (0xA81, 0xA82);
    (0xABC, 0xABC); (0xAC1, 0xAC5); (0xAC7, 0xAC8); (0xACD, 0xACD);
    (0xAE2, 0xAE3); (0xAFA, 0xAFF); (0xB01, 0xB01); (0xB3C, 0xB3C);
    (0xB3F, 0xB3F); (0xB41, 0xB44); (0xB4D, 0xB4D); (0xB55, 0xB56);
    (0xB62, 0xB63); (0xB82, 0xB82); (0xBC0, 0xBC0); (0xBCD, 0xBCD);
    (0xC00, 0xC00); (0xC04, 0xC04); (0xC3C, 0xC3C); (0xC3E, 0xC40);
    (0xC46, 0xC48); (0xC4A, 0xC4D); (0xC55, 0xC56); (0xC62, 0xC63);
    (0xC81, 0xC81); (0xCBC, 0xCBC); (0xCBF, 0xCBF); (0xCC6, 0xCC6);
    (0xCCC, 0xCCD); (0xCE2, 0xCE3); (0xD00, 0xD01); (0xD3B, 0xD3C);
    (0xD41, 0xD44); (0xD4D, 0xD4D); (0xD62, 0xD63); (0xD81, 0xD81);
    (0xDCA, 0xDCA); (0xDD2, 0xDD4); (0xDD6, 0xDD6); (0xE31, 0xE31);
    (0xE34, 0xE3A); (0xE46, 0xE4E); (0xEB1, 0xEB1); (0xEB4, 0xEBC);
    (0xEC6, 0xEC6); (0xEC8, 0xECD); (0xF18, 0xF19); (0xF35, 0xF35);
    (0xF37, 0xF37); (0xF39, 0xF39); (0xF71, 0xF7E); (0xF80, 0xF84);
    (0xF86, 0xF87); (0xF8D, 0xF97); (0xF99, 0xFBC); (0xFC6, 0xFC6);
    (0x102D, 0x1030); (0x1032, 0x1037); (0x1039, 0x103A); (0x103D, 0x103E);
    (0x1058, 0x1059); (0x105E, 0x1060); (0x1071, 0x1074); (0x1082, 0x1082);
    (0x1085, 0x1086); (0x108D, 0x108D); (0x109D, 0x109D); (0x10FC, 0x10FC);
    (0x135D, 0x135F); (0x1712, 0x1714); (0x1732, 0x1733); (0x1752, 0x1753);
    (0x1772, 0x1773); (0x17B4, 0x17B5); (0x17B7, 0x17BD); (0x17C6, 0x17C6);
    (0x17C9, 0x17D3); (0x17D7, 0x17D7); (0x17DD, 0x17DD); (0x180B, 0x180F);
    (0x1843, 0x1843); (0x1885, 0x1886); (0x18A9, 0x18A9); (0x1920, 0x1922);
    (0x1927, 0x1928); (0x1932, 0x1932); (0x1939, 0x193B); (0x1A17, 0x1A18);
    (0x1A1B, 0x1A1B); (0x1A56, 0x1A56); (0x1A58, 0x1A5E); (0x1A60, 0x1A60);
    (0x1A62, 0x1A62); (0x1A65, 0x1A6C); (0x1A73, 0x1A7C); (0x1A7F, 0x1A7F);
    (0x1AA7, 0x1AA7); (0x1AB0, 0x1ACE); (0x1B00, 0x1B03); (0x1B34, 0x1B34);
    (0x1B36, 0x1B3A); (0x1B3C, 0x1B3C); (0x1B42, 0x1B42); (0x1B6B, 0x1B73);
    (0x1B80, 0x1B81); (0x1BA2, 0x1BA5); (0x1BA8, 0x1BA9); (0x1BAB, 0x1BAD);
    (0x1BE6, 0x1BE6); (0x1BE8, 0x1BE9); (0x1BED, 0x1BED); (0x1BEF, 0x1BF1);
    (0x1C2C, 0x1C33); (0x1C36, 0x1C37); (0x1C78, 0x1C7D); (0x1CD0, 0x1CD2);
    (0x1CD4, 0x1CE0); (0x1CE2, 0x1CE8); (0x1CED, 0x1CED); (0x1CF4, 0x1CF4);
    (0x1CF8, 0x1CF9); (0x1D2C, 0x1D6A); (0x1D78, 0x1D78); (0x1D9B, 0x1DFF);
    (0x1FBD, 0x1FBD); (0x1FBF, 0x1FC1); (0x1FCD, 0x1FCF); (0x1FDD, 0x1FDF);
    (0x1FED, 0x1FEF); (0x1FFD, 0x1FFE); (0x200B, 0x200F); (0x2018, 0x2019);
    (0x2024, 0x2024); (0x2027, 0x2027); (0x202A, 0x202E); (0x2060, 0x2064);
    (0x2066, 0x206F); (0x2071, 0x2071); (0x207F, 0x207F); (0x2090, 0x209C);
    (0x20D0, 0x20F0); (0x2C7C, 0x2C7D); (0x2CEF, 0x2CF1); (0x2D6F, 0x2D6F);
    (0x2D7F, 0x2D7F); (0x2DE0, 0x2DFF); (0x2E2F, 0x2E2F); (0x3005, 0x3005);
    (0x302A, 0x302D); (0x3031, 0x3035); (0x303B, 0x303B); (0x3099, 0x309E);
    (0x30FC, 0x30FE); (0xA015, 0xA015); (0xA4F8, 0xA4FD); (0xA60C, 0xA60C);
    (0xA66F, 0xA672); (0xA674, 0xA67D); (0xA67F, 0xA67F); (0xA69C, 0xA69F);
    (0xA6F0, 0xA6F1); (0xA700, 0xA721); (0xA770, 0xA770); (0xA788, 0xA78A);
    (0xA7F2, 0xA7F4); (0xA7F8, 0xA7F9); (0xA802, 0xA802); (0xA806, 0xA806);
    (0xA80B, 0xA80B); (0xA825, 0xA826); (0xA82C, 0xA82C); (0xA8C4, 0xA8C5);
    (0xA8E0, 0xA8F1); (0xA8FF, 0xA8FF); (0xA926, 0xA92D); (0xA947, 0xA951);
    (0xA980, 0xA982); (0xA9B3, 0xA9B3); (0xA9B6, 0xA9B9); (0xA9BC, 0xA9BD);
    (0xA9CF, 0xA9CF); (0xA9E5, 0xA9E6); (0xAA29, 0xAA2E); (0xAA31, 0xAA32);
    (0xAA35, 0xAA36); (0xAA43, 0xAA43); (0xAA4C, 0xAA4C); (0xAA70, 0xAA70);
    (0xAA7C, 0xAA7C); (0xAAB0, 0xAAB0); (0xAAB2, 0xAAB4); (0xAAB7, 0xAAB8);
    (0xAABE, 0xAABF); (0xAAC1, 0xAAC1); (0xAADD, 0xAADD); (0xAAEC, 0xAAED);
    (0xAAF3, 0xAAF4); (0xAAF6, 0xAAF6); (0xAB5B, 0xAB5F); (0xAB69, 0xAB6B);
    (0xABE5, 0xABE5); (0xABE8, 0xABE8); (0xABED, 0xABED); (0xFB1E, 0xFB1E);
    (0xFBB2, 0xFBC2); (0xFE00, 0xFE0F); (0xFE13, 0xFE13); (0xFE20, 0xFE2F);
    (0xFE52, 0xFE52); (0xFE55, 0xFE55); (0xFEFF, 0xFEFF); (0xFF07, 0xFF07);
    (0xFF0E, 0xFF0E); (0xFF1A, 0xFF1A); (0xFF3E, 0xFF3E); (0xFF40, 0xFF40);
    (0xFF70, 0xFF70); (0xFF9E, 0xFF9F); (0xFFE3, 0xFFE3); (0xFFF9, 0xFFFB);
    (0x101FD, 0x101FD); (0x102E0, 0x102E0); (0x10376, 0x1037A); (0x10780, 0x10785);
    (0x10787, 0x107B0); (0x107B2, 0x107BA); (0x10A01, 0x10A03); (0x10A05, 0x10A06);
    (0x10A0C, 0x10A0F); (0x10A38, 0x10A3A); (0x10A3F, 0x10A3F); (0x10AE5, 0x10AE6);
    (0x10D24, 0x10D27); (0x10EAB, 0x10EAC); (0x10F46, 0x10F50); (0x10F82, 0x10F85);
    (0x11001, 0x11001); (0x11038, 0x11046); (0x11070, 0x11070); (0x11073, 0x11074);
    (0x1107F, 0x11081); (0x110B3, 0x110B6); (0x110B9, 0x110BA); (0x110BD, 0x110BD);
    (0x110C2, 0x110C2); (0x110CD, 0x110CD); (0x11100, 0x11102); (0x11127, 0x1112B);
    (0x1112D, 0x11134); (0x11173, 0x11173); (0x11180, 0x11181); (0x111B6, 0x111BE);
    (0x111C9, 0x111CC); (0x111CF, 0x111CF); (0x1122F, 0x11231); (0x11234, 0x11234);
    (0x11236, 0x11237); (0x1123E, 0x1123E); (0x112DF, 0x112DF); (0x112E3, 0x112EA);
    (0x11300, 0x11301); (0x1133B, 0x1133C); (0x11340, 0x11340); (0x11366, 0x1136C);
    (0x11370, 0x11374); (0x11438, 0x1143F); (0x11442, 0x11444); (0x11446, 0x11446);
    (0x1145E, 0x1145E); (0x114B3, 0x114B8); (0x114BA, 0x114BA); (0x114BF, 0x114C0);
    (0x114C2, 0x114C3); (0x115B2, 0x115B5); (0x115BC, 0x115BD); (0x115BF, 0x115C0);
    (0x115DC, 0x115DD); (0x11633, 0x1163A); (0x1163D, 0x1163D); (0x1163F, 0x11640);
    (0x116AB, 0x116AB); (0x116AD, 0x116AD); (0x116B0, 0x116B5); (0x116B7, 0x116B7);
    (0x1171D, 0x1171F); (0x11722, 0x11725); (0x11727, 0x1172B); (0x1182F, 0x11837);
    (0x11839, 0x1183A); (0x1193B, 0x1193C); (0x1193E, 0x1193E); (0x11943, 0x11943);
    (0x119D4, 0x119D7); (0x119DA, 0x119DB); (0x119E0, 0x119E0); (0x11A01, 0x11A0A);
    (0x11A33, 0x11A38); (0x11A3B, 0x11A3E); (0x11A47, 0x11A47); (0x11A51, 0x11A56);
    (0x11A59, 0x11A5B); (0x11A8A, 0x11A96); (0x11A98, 0x11A99); (0x11C30, 0x11C36);
    (0x11C38, 0x11C3D); (0x11C3F, 0x11C3F); (0x11C92, 0x11CA7); (0x11CAA, 0x11CB0);
    (0x11CB2, 0x11CB3); (0x11CB5, 0x11CB6); (0x11D31, 0x11D36); (0x11D3A, 0x11D3A);
    (0x11D3C, 0x11D3D); (0x11D3F, 0x11D45); (0x11D47, 0x11D47); (0x11D90, 0x11D91);
    (0x11D95, 0x11D95); (0x11D97, 0x11D97); (0x11EF3, 0x11EF4); (0x13430, 0x13438);
    (0x16AF0, 0x16AF4); (0x16B30, 0x16B36); (0x16B40, 0x16B43); (0x16F4F, 0x16F4F);
    (0x16F8F, 0x16F9F); (0x16FE0, 0x16FE1); (0x16FE3, 0x16FE4); (0x1AFF0, 0x1AFF3);
    (0x1AFF5, 0x1AFFB); (0x1AFFD, 0x1AFFE); (0x1BC9D, 0x1BC9E); (0x1BCA0, 0x1BCA3);
    (0x1CF00, 0x1CF2D); (0x1CF30, 0x1CF46); (0x1D167, 0x1D169); (0x1D173, 0x1D182);
    (0x1D185, 0x1D18B); (0x1D1AA, 0x1D1AD); (0x1D242, 0x1D244); (0x1DA00, 0x1DA36);
    (0x1DA3B, 0x1DA6C); (0x1DA75, 0x1DA75); (0x1DA84, 0x1DA84); (0x1DA9B, 0x1DA9F);
    (0x1DAA1, 0x1DAAF); (0x1E000, 0x1E006); (0x1E008, 0x1E018); (0x1E01B, 0x1E021);
    (0x1E023, 0x1E024); (0x1E026, 0x1E02A); (0x1E130, 0x1E13D); (0x1E2AE, 0x1E2AE);
    (0x1E2EC, 0x1E2EF); (0x1E8D0, 0x1E8D6); (0x1E944, 0x1E94B); (0x1F3FB, 0x1F3FF);
    (0xE0001, 0xE0001); (0xE0020, 0xE007F); (0xE0100, 0xE01EF) ]%N.

Definition cased_ranges : list (N * N) :=
  [
    (0x41, 0x5A); (0x61, 0x7A); (0xAA, 0xAA); (0xB5, 0xB5);
    (0xBA, 0xBA); (0xC0, 0xD6); (0xD8, 0xF6); (0xF8, 0x1BA);
    (0x1BC, 0x1BF); (0x1C4, 0x293); (0x295, 0x2B8); (0x2C0, 0x2C1);
    (0x2E0, 0x2E4); (0x345, 0x345); (0x370, 0x373); (0x376, 0x377);
    (0x37A, 0x37D); (0x37F, 0x37F); (0x386, 0x386); (0x388, 0x38A);
    (0x38C, 0x38C); (0x38E, 0x3A1); (0x3A3, 0x3F5); (0x3F7, 0x481);
    (0x48A, 0x52F); (0x531, 0x556); (0x560, 0x588); (0x10A0, 0x10C5);
    (0x10C7, 0x10C7); (0x10CD, 0x10CD); (0x10D0, 0x10FA); (0x10FD, 0x10FF);
    (0x13A0, 0x13F5); (0x13F8, 0x13FD); (0x1C80, 0x1C88); (0x1C90, 0x1CBA);
    (0x1CBD, 0x1CBF); (0x1D00, 0x1DBF); (0x1E00, 0x1F15); (0x1F18, 0x1F1D);
    (0x1F20, 0x1F45); (0x1F48, 0x1F4D); (0x1F50, 0x1F57); (0x1F59, 0x1F59);
    (0x1F5B, 0x1F5B); (0x1F5D, 0x1F5D); (0x1F5F, 0x1F7D); (0x1F80, 0x1FB4);
    (0x1FB6, 0x1FBC); (0x1FBE, 0x1FBE); (0x1FC2, 0x1FC4); (0x1FC6, 0x1FCC);
    (0x1FD0, 0x1FD3); (0x1FD6, 0x1FDB); (0x1FE0, 0x1FEC); (0x1FF2, 0x1FF4);
    (0x1FF6, 0x1FFC); (0x2071, 0x2071); (0x207F, 0x207F); (0x2090, 0x209C);
    (0x2102, 0x2102); (0x2107, 0x2107); (0x210A, 0x2113); (0x2115, 0x2115);
    (0x2119, 0x211D); (0x2124, 0x2124); (0x2126, 0x2126); (0x2128, 0x2128);
    (0x212A, 0x212D); (0x212F, 0x2134); (0x2139, 0x2139); (0x213C, 0x213F);
    (0x2145, 0x2149); (0x214E, 0x214E); (0x2160, 0x217F); (0x2183, 0x2184);
    (0x24B6, 0x24E9); (0x2C00, 0x2CE4); (0x2CEB, 0x2CEE); (0x2CF2, 0x2CF3);
    (0x2D00, 0x2D25); (0x2D27, 0x2D27); (0x2D2D, 0x2D2D); (0xA640, 0xA66D);
    (0xA680, 0xA69D); (0xA722, 0xA787); (0xA78B, 0xA78E); (0xA790, 0xA7CA);
    (0xA7D0, 0xA7D1); (0xA7D3, 0xA7D3); (0xA7D5, 0xA7D9); (0xA7F5, 0xA7F6);
    (0xA7F8, 0xA7FA); (0xAB30, 0xAB5A); (0xAB5C, 0xAB68); (0xAB70, 0xABBF);
    (0xFB00, 0xFB06); (0xFB13, 0xFB17); (0xFF21, 0xFF3A); (0xFF41, 0xFF5A);
    (0x10400, 0x1044F); (0x104B0, 0x104D3); (0x104D8, 0x104FB); (0x10570, 0x1057A);
    (0x1057C, 0x1058A); (0x1058C, 0x10592); (0x10594, 0x10595); (0x10597, 0x105A1);
    (0x105A3, 0x105B1); (0x105B3, 0x105B9); (0x105BB, 0x105BC); (0x10780, 0x10780);
    (0x10783, 0x10785); (0x10787, 0x107B0); (0x107B2, 0x107BA); (0x10C80, 0x10CB2);
    (0x10CC0, 0x10CF2); (0x118A0, 0x118DF); (0x16E40, 0x16E7F); (0x1D400, 0x1D454);
    (0x1D456, 0x1D49C); (0x1D49E, 0x1D49F); (0x1D4A2, 0x1D4A2); (0x1D4A5, 0x1D4A6);
    (0x1D4A9, 0x1D4AC); (0x1D4AE, 0x1D4B9); (0x1D4BB, 0x1D4BB); (0x1D4BD, 0x1D4C3);
    (0x1D4C5, 0x1D505); (0x1D507, 0x1D50A); (0x1D50D, 0x1D514); (0x1D516, 0x1D51C);
    (0x1D51E, 0x1D539); (0x1D53B, 0x1D53E); (0x1D540, 0x1D544); (0x1D546, 0x1D546);
    (0x1D54A, 0x1D550); (0x1D552, 0x1D6A5); (0x1D6A8, 0x1D6C0); (0x1D6C2, 0x1D6DA);
    (0x1D6DC, 0x1D6FA); (0x1D6FC, 0x1D714); (0x1D716, 0x1D734); (0x1D736, 0x1D74E);
    (0x1D750, 0x1D76E); (0x1D770, 0x1D788); (0x1D78A, 0x1D7A8); (0x1D7AA, 0x1D7C2);
    (0x1D7C4, 0x1D7CB); (0x1DF00, 0x1DF09); (0x1DF0B, 0x1DF1E); (0x1E900, 0x1E943);
    (0x1F130, 0x1F149); (0x1F150, 0x1F169); (0x1F170, 0x1F189) ]%N.

Definition case_ignorable (c : string) : bool :=
  match ord c with
  | Some n => in_ranges n case_ignorable_ranges
  | None => false
  end.

Definition cased (c : string) : bool :=
  match ord c with
  | Some n => in_ranges n cased_ranges
  | None => false
  end.

Definition capital_sigma (c : string) : bool :=
  match ord c with
  | Some n => (n =? 0x3A3)%N
  | None => false
  end.

(** A capital sigma is final when a cased character comes before it and
    none after it, case-ignorable characters apart; [before] holds the
    characters before it, the nearest first. *)
Definition final_sigma (before after : list string) : bool :=
  match drop_while case_ignorable before with
  | c :: _ => cased c
  | [] => false
  end
  && match drop_while case_ignorable after with
     | c :: _ => negb (cased c)
     | [] => true
     end.

(** The lower case of the character [c] of a string, between the
    characters before it, the nearest first, and those after it. *)
Definition lower_char (before : list string) (c : string) (after : list string)
  : string :=
  if capital_sigma c
  then if final_sigma before after then chr 0x3C2 else chr 0x3C3
  else to_lower_full c.

Fixpoint lower_chars (before cs : list string) : list string :=
  match cs with
  | [] => []
  | c :: after => lower_char before c after :: lower_chars (c :: before) after
  end.

(** [s.lower()] *)
Definition lower (s : string) : string := join (lower_chars [] (chars s)).

(** [sub in s] for two strings: [sub] occurs in [s] as a substring. On the
    bytes of two texts this is the test on their characters: a match starts
    at a byte that starts a character, and ends where one ends. *)
Fixpoint contains (sub s : string) : bool :=
  String.prefix sub s
  || match s with
     | EmptyString => false
     | String _ s' => contains sub s'
     end.

(** [not s] for a string. *)
Definition falsy (s : string) : bool := (s =? "")%string.

(** [x in xs] for a list of strings. *)
Definition in_list (x : string) (xs : list string) : bool :=
  existsb (String.eqb x) xs.

(** [min(a, b)] on floats: [b] is kept only when it is strictly smaller. *)
Definition min (a b : float) : float :=
  if PrimFloat.ltb b a then b else a.

(** [float(n)] for a non-negative integer; exact below [2^53]. *)
Definition float_of_nat (n : nat) : float :=
  PrimFloat.of_uint63 (Uint63.of_Z (Z.of_nat n)).

(** [sum(xs)] *)
Definition sum (xs : list nat) : nat := fold_left Nat.add xs 0.

End Py.

(** ** Dictionaries *)

Definition dict (V : Type) : Type := list (string * V).

Fixpoint dict_lookup {V} (d : dict V) (k : string) : option V :=
  match d with
  | [] => None
  | (k', v) :: d' => if (k =? k')%string then Some v else dict_lookup d' k
  end.

(** [k in d] *)
Definition dict_contains {V} (d : dict V) (k : string) : bool :=
  match dict_lookup d k with
  | Some _ => true
  | None => false
  end.

(** [d[k]] *)
Definition dict_getitem {V} (d : dict V) (k : string) : result V :=
  match dict_lookup d k with
  | Some v => Ok v
  | None => Raise KeyError
  end.

(** [d.get(k, default)] *)
Definition dict_get {V} (d : dict V) (k : string) (default : V) : V :=
  match dict_lookup d k with
  | Some v => v
  | None => default
  end.

(** [d[k] = v]: an existing key keeps its place, a new key goes last. *)
Fixpoint dict_setitem {V} (d : dict V) (k : string) (v : V) : dict V :=
  match d with
  | [] => [(k, v)]
  | (k', v') :: d' =>
      if (k =? k')%string then (k', v) :: d' else (k', v') :: dict_setitem d' k v
  end.

(** [d.keys()], [d.values()] *)
Definition dict_keys {V} (d : dict V) : list string := map fst d.
Definition dict_values {V} (d : dict V) : list V := map snd d.

(** [d[k] += 1] *)
Definition dict_incr (d : dict nat) (k : string) : result (dict nat) :=
  (v <- dict_getitem d k ;; Ok (dict_setitem d k (v + 1)))%result.

(** ** The emotion detector ([src/emotion_detector.py]) *)

Module EmotionDetector.

Definition EMOTION_KEYWORDS : dict (list string) :=
  [ ("joy", ["happy"; "glad"; "joy"; "excited"; "pleased"; "delighted";
             "content"; "cheerful"; "thrilled"; "wonderful"]);
    ("sadness", ["sad"; "unhappy"; "depressed"; "down"; "miserable";
                 "heartbroken"; "gloomy"; "disappointed"; "upset"; "grief"]);
    ("anger", ["angry"; "mad"; "furious"; "irritated"; "annoyed";
               "frustrated"; "outraged"; "enraged"; "hostile"; "bitter"]);
    ("fear", ["afraid"; "scared"; "frightened"; "terrified"; "anxious";
              "worried"; "nervous"; "panicked"; "stressed"; "uneasy"]);
    ("neutral", ["okay"; "fine"; "neutral"; "normal"; "average"; "so-so"]) ].

(** A label of a Flair sentence: [label.value] and [label.score]. *)
Record Label : Type := { value : string; score : float }.

(** The detector object. [emotion_model] is [None] when Flair is missing or
    the model failed to load. A loaded model is the external tagger: for a
    text, building the [Sentence], [predict] and [get_labels] either raise
    or give the ranked labels. *)
Record t : Type := { emotion_model : option (string -> result (list Label)) }.

(** The dictionary [detect_emotion] returns; [all_emotions] is the key
    that only the model path sets. *)
Record Detection : Type := {
  emotion : string;
  confidence : float;
  method : string;
  all_emotions : option (list (string * float))
}.

(** The body of the inner scoring loop of [_detect_with_keywords]:
    [if keyword in text: emotion_scores[emotion] += 1]. *)
Definition count_keyword (text emotion keyword : string)
  (emotion_scores : dict nat) : result (dict nat) :=
  if Py.contains keyword text
  then dict_incr emotion_scores emotion
  else Ok emotion_scores.

(** The scoring loops of [_detect_with_keywords], on the lower-cased text. *)
Definition count_keywords (text : string) (emotion_scores : dict nat)
  : result (dict nat) :=
  for_each EMOTION_KEYWORDS
    (fun '(emotion, keywords) emotion_scores =>
       for_each keywords (count_keyword text emotion) emotion_scores)
    emotion_scores.

(** The loop that finds the emotion with the highest score; the state is
    [(max_score, detected_emotion)]. *)
Definition highest_score (emotion_scores : dict nat) : nat * string :=
  fold_left
    (fun '(max_score, detected_emotion) '(emotion, score) =>
       if max_score <? score
       then (score, emotion)
       else (max_score, detected_emotion))
    emotion_scores (0, "neutral").

Definition _detect_with_keywords (text : string) : result (string * float) :=
  (let text := Py.lower text in
   let emotion_scores := map (fun emotion => (emotion, 0)) (dict_keys EMOTION_KEYWORDS) in
   emotion_scores <- count_keywords text emotion_scores ;;
   let '(max_score, detected_emotion) := highest_score emotion_scores in
   let total_matches := Py.sum (dict_values emotion_scores) in
   let confidence :=
     if 0 <? total_matches
     then Py.min 0.9%float
            (0.5 + (Py.float_of_nat max_score / Py.float_of_nat total_matches) * 0.4)%float
     else 0.5%float in
   Ok (detected_emotion, confidence))%result.

Definition detect_emotion (self : t) (text : string) : result Detection :=
  if Py.falsy text || (Py.strip text =? "")%string
  then Ok {| emotion := "neutral"; confidence := 0.0%float;
             method := "default"; all_emotions := None |}
  else
    (from_model <-
       match emotion_model self with
       | Some model =>
           rtry
             (labels <- model text ;;
              match labels with
              | emotion_label :: _ =>
                  Ok (Some {| emotion := Py.lower (value emotion_label);
                              confidence := score emotion_label;
                              method := "flair";
                              all_emotions :=
                                Some (map (fun label =>
                                             (Py.lower (value label), score label))
                                          labels) |})
              | [] => Ok None
              end)
             (fun _ => Ok None)
       | None => Ok None
       end ;;
     match from_model with
     | Some detection => Ok detection
     | None =>
         '(emotion, confidence) <- _detect_with_keywords text ;;
         Ok {| emotion := emotion; confidence := confidence;
               method := "keywords"; all_emotions := None |}
     end)%result.

(** What [detect_emotion] sets to work on a text: the learned model, for
    the [Sentence], [predict] and [get_labels], and the keyword scan of
    [_detect_with_keywords]. *)
Inductive Work : Type :=
| ModelRun (text : string)
| KeywordScan (text : string).

(** [detect_emotion] with the work it performs, in the order of the
    calls. *)
Definition detect_emotion_work (self : t) (text : string)
  : result Detection * list Work :=
  if Py.falsy text || (Py.strip text =? "")%string
  then (Ok {| emotion := "neutral"; confidence := 0.0%float;
              method := "default"; all_emotions := None |}, [])
  else
    let '(from_model, work) :=
      match emotion_model self with
      | Some model =>
          (rtry
             (labels <- model text ;;
              match labels with
              | emotion_label :: _ =>
                  Ok (Some {| emotion := Py.lower (value emotion_label);
                              confidence := score emotion_label;
                              method := "flair";
                              all_emotions :=
                                Some (map (fun label =>
                                             (Py.lower (value label), score label))
                                          labels) |})
              | [] => Ok None
              end)
             (fun _ => Ok None),
           [ModelRun text])%result
      | None => (Ok None, [])
      end in
    match from_model with
    | Ok (Some detection) => (Ok detection, work)
    | Ok None =>
        (('(emotion, confidence) <- _detect_with_keywords text ;;
          Ok {| emotion := emotion; confidence := confidence;
                method := "keywords"; all_emotions := None |})%result,
         work ++ [KeywordScan text])
    | Raise e => (Raise e, work)
    end.

Definition emotion_responses : dict string :=
  [ ("joy", "I'm glad to hear you're feeling positive!");
    ("happy", "It's wonderful that you're feeling happy!");
    ("sadness", "I'm sorry to hear you're feeling down. Remember that it's okay to feel sad sometimes, and I'm here to support you.");
    ("sad", "I understand you're feeling sad. Would you like to talk about what's bothering you?");
    ("anger", "I can sense you're feeling frustrated. Taking deep breaths can sometimes help manage anger. Would you like to discuss what's bothering you?");
    ("angry", "I notice you seem upset. It's okay to feel angry, but remember to be kind to yourself.");
    ("fear", "It sounds like you might be feeling anxious or scared. That's a normal human emotion, and I'm here to help you through it.");
    ("afraid", "I understand that feeling afraid can be overwhelming. Would it help to talk about what's causing this fear?");
    ("disgust", "I sense you're feeling uncomfortable about something. Would you like to talk about what's bothering you?");
    ("surprise", "That seems to have caught you off guard! Would you like to talk more about it?");
    ("neutral", "I'm here to listen and support you. How can I help you today?") ].

Definition get_response_for_emotion (emotion : string) : string :=
  dict_get emotion_responses (Py.lower emotion)
    "I'm here to listen and support you. How can I help you today?".

End EmotionDetector.

(** ** JSON values: the body of the remote API's response *)

(** What [response.json()] can return. The value of a number plays no part
    in the program, so integers stand for every JSON number. *)
Inductive json : Type :=
| JNull
| JBool (b : bool)
| JNum (n : Z)
| JStr (s : string)
| JList (items : list json)
| JObj (fields : list (string * json)).

(** [key in data] for a string [key]. *)
Definition json_contains (key : string) (data : json) : result bool :=
  match data with
  | JObj fields => Ok (dict_contains fields key)
  | JList items =>
      Ok (existsb (fun item => match item with
                               | JStr s => (s =? key)%string
                               | _ => false
                               end) items)
  | JStr s => Ok (Py.contains key s)
  | JNull | JBool _ | JNum _ => Raise TypeError
  end.

(** [data[key]] for a string [key]. *)
Definition json_getitem (data : json) (key : string) : result json :=
  match data with
  | JObj fields => dict_getitem fields key
  | _ => Raise TypeError
  end.

(** [data[0]] *)
Definition json_first (data : json) : result json :=
  match data with
  | JList (item :: _) => Ok item
  | JList [] => Raise IndexError
  | JStr (String c _) => Ok (JStr (String c EmptyString))
  | JStr EmptyString => Raise IndexError
  | JObj _ => Raise KeyError
  | JNull | JBool _ | JNum _ => Raise TypeError
  end.

(** [data.get(key, default)]: only a dictionary has the method. *)
Definition json_get (data : json) (key : string) (default : json) : result json :=
  match data with
  | JObj fields => Ok (dict_get fields key default)
  | _ => Raise AttributeError
  end.

(** What the one [requests.post] of a handler meets: the call raises
    (timeout, connection error), or a response arrives with its status code
    and what [response.json()] gives for its body. *)
Inductive api_outcome : Type :=
| PostRaises (e : exn)
| Response (status_code : Z) (body : result json).

(** ** The world of an action handler *)

(** The dispatcher collects the [text] of every [utter_message] call; the
    random generator is the tape of its future raw outputs, read as zeros
    once it is exhausted. *)
Record World : Type := { messages : list json; rng : list N }.

Definition M (A : Type) : Type := World -> result A * World.

Definition ret {A} (a : A) : M A := fun w => (Ok a, w).

Definition raise {A} (e : exn) : M A := fun w => (Raise e, w).

Definition bind {A B} (m : M A) (k : A -> M B) : M B :=
  fun w =>
    match m w with
    | (Ok a, w') => k a w'
    | (Raise e, w') => (Raise e, w')
    end.

Definition lift {A} (r : result A) : M A := fun w => (r, w).

(** [try: body except Exception: handler]: what [body] did to the world
    before it raised stays done. *)
Definition try_except {A} (body : M A) (handler : exn -> M A) : M A :=
  fun w =>
    match body w with
    | (Ok a, w') => (Ok a, w')
    | (Raise e, w') => handler e w'
    end.

Declare Scope M_scope.
Delimit Scope M_scope with M.
Notation "x <- c1 ;; c2" := (bind c1 (fun x => c2))
  (at level 61, c1 at next level, right associativity) : M_scope.
Notation "c1 ;; c2" := (bind c1 (fun _ => c2))
  (at level 61, right associativity) : M_scope.

(** [dispatcher.utter_message(text=text)] *)
Definition utter_message (text : json) : M unit :=
  fun w => (Ok tt, {| messages := messages w ++ [text]; rng := rng w |}).

Definition next_raw (w : World) : N * World :=
  match rng w with
  | [] => (0%N, w)
  | n :: tape => (n, {| messages := messages w; rng := tape |})
  end.

(** [random.random()]: a 53-bit integer over [2^53], a float in [0, 1). *)
Definition random_random : M float :=
  fun w =>
    let (n, w') := next_raw w in
    (Ok (PrimFloat.of_uint63 (Uint63.of_Z (Z.of_N (n mod 9007199254740992)))
         / 9007199254740992)%float, w').

(** [random.choice(xs)]: [IndexError] on an empty sequence, else the element
    at an index below [len(xs)]. *)
Definition random_choice {A} (xs : list A) : M A :=
  match xs with
  | [] => raise IndexError
  | x :: _ =>
      fun w =>
        let (n, w') := next_raw w in
        (Ok (nth (N.to_nat (n mod N.of_nat (List.length xs))) xs x), w')
  end.

(** ** The conversation framework's side *)

Inductive Event : Type :=
| SlotSet (key : string) (value : string).

(** The tracker; in [latest_message] and in its [intent] a key that is absent
    is [None]. *)
Module Tracker.

Record Intent : Type := {
  name : option string;
  confidence : option float
}.

Record Message : Type := {
  text : option string;
  intent : option Intent
}.

Record t : Type := {
  latest_message : Message;
  slots : dict string
}.

(** [tracker.get_slot(key)]: [None] for a slot that is not set. *)
Definition get_slot (tracker : t) (key : string) : option string :=
  dict_lookup (slots tracker) key.

End Tracker.

(** [d.get(key, default)] on a key that may be absent. *)
Definition get_or {A} (field : option A) (default : A) : A :=
  match field with
  | Some a => a
  | None => default
  end.

(** ** The action handlers ([src/actions.py]) *)

Definition nl : string := String (ascii_of_nat 10) EmptyString.

Definition THERAPY_TECHNIQUES : dict (list string) :=
  [ ("sadness",
     [ "Practice self-compassion by treating yourself with the same kindness you'd offer to a friend.";
       "Try journaling about your feelings to help process them.";
       "Engage in light physical activity like walking, which can help improve your mood.";
       "Connect with a supportive friend or family member.";
       "Remember that emotions are temporary and will pass with time." ]);
    ("anger",
     [ "Take deep breaths, counting to 10 before responding.";
       "Try the 5-4-3-2-1 grounding technique to calm your nervous system.";
       "Consider the situation from the other person's perspective.";
       "Express your feelings using 'I' statements rather than accusations.";
       "Step away from the situation temporarily if possible to cool down." ]);
    ("fear",
     [ "Practice mindful breathing to center yourself in the present moment.";
       "Challenge catastrophic thinking by examining the evidence for your fears.";
       "Break overwhelming tasks into smaller, manageable steps.";
       "Visualize yourself successfully handling the situation you fear.";
       "Remember past situations where you successfully overcame your fears." ]);
    ("joy",
     [ "Savor this positive moment by being fully present in it.";
       "Express gratitude for the good things in your life.";
       "Share your happiness with others to strengthen connections.";
       "Reflect on what contributed to this positive feeling.";
       "Use this positive energy to tackle something challenging." ]);
    ("neutral",
     [ "Practice mindfulness to become more aware of your thoughts and feelings.";
       "Set small, achievable goals to create a sense of accomplishment.";
       "Explore activities that have brought you joy in the past.";
       "Consider starting a gratitude practice to notice positive aspects of your life.";
       "Take care of your physical needs like sleep, nutrition, and exercise." ]) ].

Definition EMPATHETIC_RESPONSES : dict (list string) :=
  [ ("sadness",
     [ "I hear that you're feeling down right now. That's completely valid, and I'm here to listen.";
       "It sounds like you're going through a difficult time. Remember that it's okay to feel sad sometimes.";
       "I'm sorry you're feeling this way. Would it help to talk more about what's troubling you?";
       "When we feel sad, it can be overwhelming. Let's take it one step at a time together.";
       "I understand that sadness can feel heavy. You don't have to carry that weight alone." ]);
    ("anger",
     [ "I can sense your frustration. It's completely natural to feel angry sometimes.";
       "Your feelings are valid. Would it help to explore what's behind this anger?";
       "It sounds like this situation has really upset you, and that's understandable.";
       "Anger often comes from feeling unheard or disrespected. I'm here to listen to you.";
       "I appreciate you sharing these strong feelings with me. Let's work through this together." ]);
    ("fear",
     [ "It's okay to feel anxious or scared. These feelings are trying to protect you.";
       "I hear that you're worried. Would it help to talk about what's causing this fear?";
       "Feeling anxious can be really uncomfortable. You're brave for acknowledging these feelings.";
       "When we're afraid, our minds often focus on the worst possibilities. Let's explore this together.";
       "Your concerns are valid. Let's take a moment to breathe and think about this situation." ]);
    ("joy",
     [ "It's wonderful to hear you're feeling positive! Your happiness is important.";
       "I'm so glad things are going well for you. Would you like to share more about what's bringing you joy?";
       "That sounds really positive! It's great that you're experiencing these good feelings.";
       "I'm happy to hear that! Celebrating these positive moments is important.";
       "Your positive energy is contagious. Thank you for sharing this happy moment." ]);
    ("neutral",
     [ "I'm here to support you, whatever you might be feeling right now.";
       "How are you feeling about everything that's going on?";
       "I'm listening and here to help in any way I can.";
       "Would you like to explore any particular thoughts or feelings today?";
       "Sometimes taking a moment to check in with ourselves can be helpful. How are you really doing?" ]) ].

(** The module-level [emotion_detector] is the detector the handlers share;
    it is passed to each handler. *)

Module ActionProcessMessage.

Definition _call_fallback_api (api : api_outcome) (message emotion : string)
  : M (list Event) :=
  (u <- random_random ;;
   if PrimFloat.ltb u 0.7 && dict_contains EMPATHETIC_RESPONSES emotion
   then
     responses <- lift (dict_getitem EMPATHETIC_RESPONSES emotion) ;;
     response <- random_choice responses ;;
     response <-
       (if Py.in_list emotion ["sadness"; "anger"; "fear"]
        then
          v <- random_random ;;
          if PrimFloat.ltb v 0.5
          then
            techniques <- lift (dict_getitem THERAPY_TECHNIQUES emotion) ;;
            technique <- random_choice techniques ;;
            ret (response ++ nl ++ nl
                 ++ "Here's a technique that might help: " ++ technique)%string
          else ret response
        else ret response) ;;
     utter_message (JStr response) ;;
     ret [SlotSet "detected_emotion" emotion]
   else
     try_except
       (match api with
        | PostRaises e => raise e
        | Response status_code body =>
            data <- lift body ;;
            success <-
              (if (status_code =? 200)%Z
               then lift (json_contains "choices" data)
               else ret false) ;;
            if success
            then
              ai_response <-
                lift (choices <- json_getitem data "choices" ;;
                      choice <- json_first choices ;;
                      message <- json_getitem choice "message" ;;
                      json_getitem message "content")%result ;;
              utter_message ai_response
            else
              responses <- lift (dict_getitem EMPATHETIC_RESPONSES emotion) ;;
              fallback_response <- random_choice responses ;;
              utter_message (JStr fallback_response) ;;
              lift (json_get data "error" (JStr "Unknown error")) ;;
              ret tt
        end)
       (fun _ =>
          responses <- lift (dict_getitem EMPATHETIC_RESPONSES emotion) ;;
          fallback_response <- random_choice responses ;;
          utter_message (JStr fallback_response)) ;;
     ret [SlotSet "detected_emotion" emotion])%M.

Definition run (emotion_detector : EmotionDetector.t) (api : api_outcome)
  (tracker : Tracker.t) : M (list Event) :=
  (let latest_message := get_or (Tracker.text (Tracker.latest_message tracker)) "" in
   let intent := Tracker.intent (Tracker.latest_message tracker) in
   let intent_name := get_or (match intent with
                              | Some i => Tracker.name i
                              | None => None
                              end) "" in
   let confidence := get_or (match intent with
                             | Some i => Tracker.confidence i
                             | None => None
                             end) 0.0%float in
   emotion_data <- lift (EmotionDetector.detect_emotion emotion_detector latest_message) ;;
   let emotion := EmotionDetector.emotion emotion_data in
   let emotion_response := EmotionDetector.get_response_for_emotion emotion in
   if PrimFloat.ltb confidence 0.3
   then _call_fallback_api api latest_message emotion
   else ret [SlotSet "detected_emotion" emotion])%M.

End ActionProcessMessage.

Module ActionFallbackAPI.

Definition rephrase_message : string :=
  "I'm not sure how to respond to that. Could you rephrase or ask something else?".

Definition trouble_message : string :=
  "I'm having trouble processing your request right now. Let's try something else.".

Definition run (emotion_detector : EmotionDetector.t) (api : api_outcome)
  (tracker : Tracker.t) : M (list Event) :=
  (let latest_message := get_or (Tracker.text (Tracker.latest_message tracker)) "" in
   emotion_data <- lift (EmotionDetector.detect_emotion emotion_detector latest_message) ;;
   let emotion := EmotionDetector.emotion emotion_data in
   u <- random_random ;;
   if PrimFloat.ltb u 0.7 && dict_contains EMPATHETIC_RESPONSES emotion
   then
     responses <- lift (dict_getitem EMPATHETIC_RESPONSES emotion) ;;
     response <- random_choice responses ;;
     utter_message (JStr response) ;;
     ret [SlotSet "detected_emotion" emotion]
   else
     try_except
       (match api with
        | PostRaises e => raise e
        | Response status_code body =>
            data <- lift body ;;
            success <-
              (if (status_code =? 200)%Z
               then lift (json_contains "choices" data)
               else ret false) ;;
            if success
            then
              ai_response <-
                lift (choices <- json_getitem data "choices" ;;
                      choice <- json_first choices ;;
                      message <- json_getitem choice "message" ;;
                      json_getitem message "content")%result ;;
              utter_message ai_response
            else
              utter_message (JStr rephrase_message) ;;
              lift (json_get data "error" (JStr "Unknown error")) ;;
              ret tt
        end)
       (fun _ => utter_message (JStr trouble_message)) ;;
     ret [SlotSet "detected_emotion" emotion])%M.

End ActionFallbackAPI.

Module ActionSuggestCopingStrategy.

Definition emotion_mapping : dict string :=
  [ ("sad", "sadness"); ("angry", "anger"); ("anxious", "fear");
    ("afraid", "fear"); ("happy", "joy"); ("excited", "joy") ].

Definition run (tracker : Tracker.t) : M (list Event) :=
  (let current_emotion :=
     match Tracker.get_slot tracker "detected_emotion" with
     | Some value => if Py.falsy value then "neutral" else value
     | None => "neutral"
     end in
   let mapped_emotion := dict_get emotion_mapping current_emotion current_emotion in
   let mapped_emotion :=
     if negb (dict_contains THERAPY_TECHNIQUES mapped_emotion)
     then "neutral"
     else mapped_emotion in
   techniques <- lift (dict_getitem THERAPY_TECHNIQUES mapped_emotion) ;;
   strategy <- random_choice techniques ;;
   let intro :=
     if (mapped_emotion =? "sadness")%string
     then "When you're feeling down, it can help to:"
     else if (mapped_emotion =? "anger")%string
     then "To manage feelings of frustration or anger, you might try:"
     else if (mapped_emotion =? "fear")%string
     then "When anxiety or fear arises, this technique can be helpful:"
     else if (mapped_emotion =? "joy")%string
     then "To build on these positive feelings, consider:"
     else "Here's a helpful technique you might want to try:" in
   utter_message (JStr (intro ++ nl ++ nl ++ strategy)%string) ;;
   ret [])%M.

End ActionSuggestCopingStrategy.

(** ** The construction of the detector ([src/emotion_detector.py]) *)

Module EmotionDetectorSetup.

(** What the process offers when the detector is built: whether
    [import flair] succeeded, and what [SequenceTagger.load('en-emotion')]
    does, raise or give a model. *)
Record Environment : Type := {
  FLAIR_AVAILABLE : bool;
  load : result (string -> result (list EmotionDetector.Label))
}.

(** [EmotionDetector.__init__] *)
Definition __init__ (env : Environment) : result EmotionDetector.t :=
  let emotion_model := None in
  if FLAIR_AVAILABLE env
  then
    rtry
      (model <- load env ;;
       Ok {| EmotionDetector.emotion_model := Some model |})%result
      (fun _ => Ok {| EmotionDetector.emotion_model := emotion_model |})
  else Ok {| EmotionDetector.emotion_model := emotion_model |}.

(** [get_emotion_detector]: the module-level [_emotion_detector] is the
    state, [None] until the first call. *)
Definition get_emotion_detector (env : Environment)
  (_emotion_detector : option EmotionDetector.t)
  : result (EmotionDetector.t * option EmotionDetector.t) :=
  match _emotion_detector with
  | None =>
      (detector <- __init__ env ;;
       Ok (detector, Some detector))%result
  | Some detector => Ok (detector, Some detector)
  end.

End EmotionDetectorSetup.

(** ** The other action handlers ([src/actions.py]) *)

Module ActionGetMotivationalQuote.

(** An entry of [fallback_quotes]. *)
Record Quote : Type := { quote : string; author : string }.

Definition fallback_quotes : list Quote :=
  [ {| quote := "The only way out is through."; author := "Robert Frost" |};
    {| quote := "You are stronger than you think."; author := "Unknown" |};
    {| quote := "Every moment is a fresh beginning."; author := "T.S. Eliot" |};
    {| quote := "Believe you can and you're halfway there.";
       author := "Theodore Roosevelt" |};
    {| quote := "This too shall pass."; author := "Persian Proverb" |} ].

(** The ladder that picks the prefix of the message for an emotion. *)
Definition prefix_for (emotion : string) : string :=
  if Py.in_list emotion ["sadness"; "sad"]
  then "I understand you might be feeling down. Here's something that might help: "
  else if Py.in_list emotion ["anger"; "angry"]
  then "I can sense you're frustrated. Take a deep breath and consider this: "
  else if Py.in_list emotion ["fear"; "afraid"]
  then "It's okay to feel anxious sometimes. Remember: "
  else if Py.in_list emotion ["joy"; "happy"]
  then "I'm glad you're feeling positive! Here's more inspiration: "
  else "Here's a thought for you: ".

(** The double-quote character of the message. *)
Definition dquote : string := String (ascii_of_nat 34) EmptyString.

(** [run]. The answer of the quote service to the one [requests.get] is an
    [api_outcome], [PostRaises] standing for a request that raises. [str] is
    Python's formatting of a value inside an f-string, needed for what
    [data.get] returns: a string is formatted as itself, and the handler
    fixes nothing about the other values. *)
Definition run (str : json -> string) (emotion_detector : EmotionDetector.t)
  (api : api_outcome) (tracker : Tracker.t) : M (list Event) :=
  (let latest_message := get_or (Tracker.text (Tracker.latest_message tracker)) "" in
   emotion_data <- lift (EmotionDetector.detect_emotion emotion_detector latest_message) ;;
   let emotion := EmotionDetector.emotion emotion_data in
   let confidence := EmotionDetector.confidence emotion_data in
   let method := EmotionDetector.method emotion_data in
   chosen_quote <-
     try_except
       (match api with
        | PostRaises e => raise e
        | Response status_code body =>
            if (status_code =? 200)%Z
            then
              data <- lift body ;;
              quote <- lift (json_get data "quote" JNull) ;;
              author <- lift (json_get data "author" JNull) ;;
              ret (str quote, str author)
            else
              fallback <- random_choice fallback_quotes ;;
              ret (quote fallback, author fallback)
        end)
       (fun _ =>
          fallback <- random_choice fallback_quotes ;;
          ret (quote fallback, author fallback)) ;;
   let prefix := prefix_for emotion in
   utter_message
     (JStr (prefix ++ nl ++ dquote ++ fst chosen_quote ++ dquote ++ nl
            ++ "- " ++ snd chosen_quote)%string) ;;
   ret [SlotSet "detected_emotion" emotion])%M.

End ActionGetMotivationalQuote.

Module ActionCheckServerStatus.

(** [run]. Only the status code of the probe's response is read. *)
Definition run (api : api_outcome) (tracker : Tracker.t) : M (list Event) :=
  (connection_status <-
     try_except
       (match api with
        | PostRaises e => raise e
        | Response status_code _ =>
            if (status_code =? 200)%Z
            then ret "connected"
            else ret "disconnected"
        end)
       (fun _ => ret "disconnected") ;;
   ret [SlotSet "server_connection_status" connection_status])%M.

End ActionCheckServerStatus.

(** ** Specification-side definitions

    What the specification says in its own words, to be compared with the
    code above. *)

(** *** The classifier *)

(** A text that is empty or consists only of whitespace: each of its
    characters is a whitespace character. *)
Definition blank (s : string) : bool := forallb Py.isspace (Py.chars s).

(** The result for a blank text. *)
Definition default_detection : EmotionDetector.Detection :=
  {| EmotionDetector.emotion := "neutral";
     EmotionDetector.confidence := 0.0%float;
     EmotionDetector.method := "default";
     EmotionDetector.all_emotions := None |}.

(** The learned-model path failed on a text: no model is loaded, or the
    model raised. *)
Definition model_failed (self : EmotionDetector.t) (text : string) : bool :=
  match EmotionDetector.emotion_model self with
  | None => true
  | Some model =>
      match model text with
      | Raise _ => true
      | Ok _ => false
      end
  end.

(** How many keywords of a category occur as substrings of the lower-cased
    text. *)
Definition keyword_count (text : string) (keywords : list string) : nat :=
  List.length (filter (fun keyword => Py.contains keyword (Py.lower text)) keywords).

(** The count of every category, in the order of the keyword table. *)
Definition category_counts (text : string) : dict nat :=
  map (fun '(emotion, keywords) => (emotion, keyword_count text keywords))
      EmotionDetector.EMOTION_KEYWORDS.

(** The number of keyword matches across all categories. *)
Definition total_matches (text : string) : nat :=
  list_sum (dict_values (category_counts text)).

(** One turn of the outer scoring loop, as a function on the scores: the
    category's score grows by the number of its keywords in the text. *)
Definition add_category (text : string) (scores : dict nat)
  (entry : string * list string) : dict nat :=
  dict_setitem scores (fst entry)
    (dict_get scores (fst entry) 0 + keyword_count text (snd entry)).

(** [label] wins on [counts]: it is "neutral" when every count is zero, and
    otherwise it is the first category, in iteration order, whose count is
    the highest. *)
Definition wins (counts : dict nat) (label : string) : Prop :=
  ((forall emotion count, In (emotion, count) counts -> count = 0)
   /\ label = "neutral")
  \/ (exists before count after,
         counts = before ++ (label, count) :: after
         /\ 0 < count
         /\ (forall emotion' count', In (emotion', count') before -> count' < count)
         /\ (forall emotion' count', In (emotion', count') after -> count' <= count)).

(** The confidence formula of the keyword path. *)
Definition keyword_confidence (winning_count total : nat) : float :=
  if total =? 0
  then 0.5%float
  else Py.min 0.9%float
         (0.5 + (Py.float_of_nat winning_count / Py.float_of_nat total) * 0.4)%float.

(** The five canonical emotion labels. *)
Definition canonical_labels : list string :=
  ["joy"; "sadness"; "anger"; "fear"; "neutral"].

(** *** The turn and the world *)

(** The user's text of the turn and the framework's intent confidence, with
    the defaults of the handlers for absent keys. *)
Definition user_text (tracker : Tracker.t) : string :=
  get_or (Tracker.text (Tracker.latest_message tracker)) "".

Definition intent_confidence (tracker : Tracker.t) : float :=
  match Tracker.intent (Tracker.latest_message tracker) with
  | Some intent => get_or (Tracker.confidence intent) 0.0%float
  | None => 0.0%float
  end.

(** The float the next [random.random()] returns, the world after one raw
    output of the generator was consumed, and the element [random.choice]
    picks from a sequence. *)
Definition next_random (w : World) : float :=
  match random_random w with
  | (Ok u, _) => u
  | (Raise _, _) => 0.0%float
  end.

Definition after_draw (w : World) : World := snd (next_raw w).

Definition chosen {A} (xs : list A) (default : A) (w : World) : A :=
  nth (N.to_nat (fst (next_raw w) mod N.of_nat (List.length xs))) xs default.

(** A computation that, from every world, returns a value that satisfies
    [Q] and raises nothing. *)
Definition returns {A} (m : M A) (Q : A -> Prop) : Prop :=
  forall w, exists a w', m w = (Ok a, w') /\ Q a.

(** From the world [w] the handler returns the update of the
    "detected_emotion" slot with [emotion], and the messages it sends, at
    least one, are all [allowed]. *)
Definition emits_from (handler : M (list Event)) (w : World) (emotion : string)
  (allowed : json -> Prop) : Prop :=
  exists emitted w',
    handler w = (Ok [SlotSet "detected_emotion" emotion], w')
    /\ messages w' = messages w ++ emitted
    /\ emitted <> []
    /\ Forall allowed emitted.

(** *** The remote-fallback policy *)

(** The handler attempts the remote call: the predefined branch, taken when
    the first random float is below 0.7 and the emotion is a key of the
    empathetic table, is not taken. *)
Definition remote_attempted (w : World) (emotion : string) : bool :=
  negb (PrimFloat.ltb (next_random w) 0.7
        && dict_contains EMPATHETIC_RESPONSES emotion).

(** The remote call failed: the request raised, the body was not JSON, or
    the result was not a success, that is the status was not 200 or the body
    had no "choices". *)
Definition remote_failed (api : api_outcome) : bool :=
  match api with
  | PostRaises _ => true
  | Response _ (Raise _) => true
  | Response status_code (Ok data) =>
      negb (status_code =? 200)%Z
      || match json_contains "choices" data with
         | Ok true => false
         | _ => true
         end
  end.

(** A message is one of the predefined empathetic responses of an emotion. *)
Definition predefined_response (emotion : string) (m : json) : Prop :=
  exists responses s,
    dict_lookup EMPATHETIC_RESPONSES emotion = Some responses
    /\ m = JStr s
    /\ In s responses.

(** *** The coping-strategy handler *)

(** The synonyms the coping-strategy handler normalizes. *)
Definition synonyms : list string :=
  ["sad"; "angry"; "anxious"; "afraid"; "happy"; "excited"].

(** The emotion the coping-strategy handler works with: the stored slot,
    neutral when it is missing or empty, synonyms normalized, and neutral
    for a label that is not canonical. *)
Definition coping_emotion (slot : option string) : string :=
  match slot with
  | None => "neutral"
  | Some stored =>
      if (stored =? "sad")%string then "sadness"
      else if (stored =? "angry")%string then "anger"
      else if (stored =? "anxious")%string || (stored =? "afraid")%string then "fear"
      else if (stored =? "happy")%string || (stored =? "excited")%string then "joy"
      else if Py.in_list stored canonical_labels then stored
      else "neutral"
  end.

(** The fixed mapping from the normalized emotion to the introduction. *)
Definition coping_intro (emotion : string) : string :=
  match dict_lookup
          [ ("sadness", "When you're feeling down, it can help to:");
            ("anger", "To manage feelings of frustration or anger, you might try:");
            ("fear", "When anxiety or fear arises, this technique can be helpful:");
            ("joy", "To build on these positive feelings, consider:") ]
          emotion with
  | Some intro => intro
  | None => "Here's a helpful technique you might want to try:"
  end.

(** *** Inputs of the examples *)

(** A text of whitespace only: a space, a no-break space, an ideographic
    space and a line feed. *)
Definition blank_text : string :=
  (" " ++ Py.chr 0xA0 ++ Py.chr 0x3000 ++ nl)%string.

(** A text whose "k" is the Kelvin sign, which [str.lower] turns into the
    letter. *)
Definition kelvin_text : string :=
  ("I am heartbro" ++ Py.chr 0x212A ++ "en")%string.

(** A detector with no model loaded, one whose model always raises, and one
    whose model labels every text as a surprise, a label outside the five
    canonical ones. *)
Definition keyword_detector : EmotionDetector.t :=
  {| EmotionDetector.emotion_model := None |}.

Definition broken_detector : EmotionDetector.t :=
  {| EmotionDetector.emotion_model := Some (fun _ => Raise ModelError) |}.

Definition surprise_detector : EmotionDetector.t :=
  {| EmotionDetector.emotion_model :=
       Some (fun _ => Ok [ {| EmotionDetector.value := "Surprise";
                              EmotionDetector.score := 0.93%float |} ]) |}.

(** A detector whose model ranks three labels for every text. *)
Definition ranked_labels : list EmotionDetector.Label :=
  [ {| EmotionDetector.value := "Surprise"; EmotionDetector.score := 0.6%float |};
    {| EmotionDetector.value := "FEAR"; EmotionDetector.score := 0.3%float |};
    {| EmotionDetector.value := "joy"; EmotionDetector.score := 0.1%float |} ].

Definition ranking_detector : EmotionDetector.t :=
  {| EmotionDetector.emotion_model := Some (fun _ => Ok ranked_labels) |}.

(** Turns with the text "I am so sad": with a low intent confidence, with a
    high one, and with one that is exactly the threshold. *)
Definition sad_turn (confidence : float) (slots : dict string) : Tracker.t :=
  {| Tracker.latest_message :=
       {| Tracker.text := Some "I am so sad";
          Tracker.intent := Some {| Tracker.name := Some "mood_unhappy";
                                    Tracker.confidence := Some confidence |} |};
     Tracker.slots := slots |}.

Definition sad_tracker : Tracker.t :=
  sad_turn 0.1%float [("detected_emotion", "sad")].

Definition confident_sad_tracker : Tracker.t := sad_turn 0.95%float [].

Definition threshold_sad_tracker : Tracker.t := sad_turn 0.3%float [].

(** The detection of the text "I am so sad" by the keyword path. *)
Definition sad_detection : EmotionDetector.Detection :=
  {| EmotionDetector.emotion := "sadness";
     EmotionDetector.confidence := 0.9%float;
     EmotionDetector.method := "keywords";
     EmotionDetector.all_emotions := None |}.

(** A turn with a low intent confidence, for the surprise detector. *)
Definition surprised_tracker : Tracker.t :=
  {| Tracker.latest_message :=
       {| Tracker.text := Some "What just happened?";
          Tracker.intent := Some {| Tracker.name := Some "nlu_fallback";
                                    Tracker.confidence := Some 0.2%float |} |};
     Tracker.slots := [] |}.

(** A world whose generator first gives a float above 0.7, so that the
    remote call is attempted. *)
Definition remote_world : World :=
  {| messages := []; rng := [9007199254740000%N; 7%N; 3%N] |}.

(** *** Further specification-side definitions *)

(** The pairs (winning count, total) that the keyword path can meet when the
    text has a match: the total is at most the 46 keywords of the table, and
    the winning count is at most the total and at least a fifth of it, being
    the highest of five counts. *)
Definition matching_counts : list (nat * nat) :=
  filter (fun '(winning_count, total) =>
            (1 <=? total) && (winning_count <=? total)
            && (total <=? 5 * winning_count))
         (list_prod (seq 0 47) (seq 0 47)).

(** What the quote service served: the values under "quote" and "author" of
    a 200 answer whose body is a JSON object, [None] for a missing key;
    nothing for every other outcome. *)
Definition served_quote (api : api_outcome) : option (json * json) :=
  match api with
  | Response status_code (Ok (JObj fields)) =>
      if (status_code =? 200)%Z
      then Some (dict_get fields "quote" JNull, dict_get fields "author" JNull)
      else None
  | _ => None
  end.

(** The message of the quote handler: the prefix, the quote between double
    quotes on a line of its own, and the author after a dash. *)
Definition quote_message (prefix quote author : string) : string :=
  (prefix ++ nl ++ ActionGetMotivationalQuote.dquote ++ quote
   ++ ActionGetMotivationalQuote.dquote ++ nl ++ "- " ++ author)%string.

(** A formatting of values for the examples: a string as itself, every
    other value as "None". *)
Definition str_example (value : json) : string :=
  match value with
  | JStr s => s
  | _ => "None"
  end.

(** The content of a chat completion: the body is an object whose "choices"
    is a list that starts with an object, whose "message" is an object with
    a "content". *)
Definition completion_content (data : json) : option json :=
  match data with
  | JObj fields =>
      match dict_lookup fields "choices" with
      | Some (JList (JObj choice :: _)) =>
          match dict_lookup choice "message" with
          | Some (JObj message) => dict_lookup message "content"
          | _ => None
          end
      | _ => None
      end
  | _ => None
  end.

(** How a remote call that is attempted ends: it is answered with a content;
    it is refused (a result that is not a success) with a JSON object as
    body; it is refused with a body that is not an object, and the handler
    then fails on [data.get] after it has sent its message; or it fails
    before any message is sent (the request raises, the body is not JSON,
    the test for "choices" raises, or the answer has no content). *)
Inductive remote_path : Type :=
| Answered (content : json)
| Refused
| RefusedThenFailed
| Failed.

Definition remote_path_of (api : api_outcome) : remote_path :=
  match api with
  | PostRaises _ => Failed
  | Response _ (Raise _) => Failed
  | Response status_code (Ok data) =>
      match (if (status_code =? 200)%Z
             then json_contains "choices" data
             else Ok false) with
      | Raise _ => Failed
      | Ok true =>
          match completion_content data with
          | Some content => Answered content
          | None => Failed
          end
      | Ok false =>
          match data with
          | JObj _ => Refused
          | _ => RefusedThenFailed
          end
      end
  end.

(** The messages of the FallbackAPI handler for each end of the remote
    call. *)
Definition fallback_api_messages (path : remote_path) : list json :=
  match path with
  | Answered content => [content]
  | Refused => [JStr ActionFallbackAPI.rephrase_message]
  | RefusedThenFailed =>
      [JStr ActionFallbackAPI.rephrase_message;
       JStr ActionFallbackAPI.trouble_message]
  | Failed => [JStr ActionFallbackAPI.trouble_message]
  end.

(** The world after one predefined response was picked and sent. *)
Definition send_predefined (responses : list string) (w : World) : World :=
  {| messages := messages w ++ [JStr (chosen responses "" w)];
     rng := rng (after_draw w) |}.

(** How a failed remote call failed, in the words of the policy: by an
    exception (the request raised or timed out, the body was not JSON, or
    the test for "choices" raised), or by a result that is not a success (a
    status other than 200, or a body without "choices"), of which [data] is
    the JSON body. *)
Inductive failure : Type :=
| ByException
| NonSuccess (data : json).

Definition failure_of (api : api_outcome) : option failure :=
  match api with
  | PostRaises _ => Some ByException
  | Response _ (Raise _) => Some ByException
  | Response status_code (Ok data) =>
      if (status_code =? 200)%Z
      then match json_contains "choices" data with
           | Raise _ => Some ByException
           | Ok false => Some (NonSuccess data)
           | Ok true => None
           end
      else Some (NonSuccess data)
  end.

(** After a result that is not a success the handlers log
    [data.get('error', 'Unknown error')], once their message is sent: on a
    body that is not a JSON object this raises, and the [except] clause runs
    after the branch for the result. *)
Definition log_raises (f : failure) : bool :=
  match f with
  | ByException => false
  | NonSuccess (JObj _) => false
  | NonSuccess _ => true
  end.

(** The messages of the FallbackAPI handler after a failure: the rephrase
    message for a result that is not a success, the trouble message for an
    exception, and both, in this order, when the log statement raises. *)
Definition failure_messages (f : failure) : list json :=
  match f with
  | ByException => [JStr ActionFallbackAPI.trouble_message]
  | NonSuccess _ =>
      JStr ActionFallbackAPI.rephrase_message
      :: (if log_raises f then [JStr ActionFallbackAPI.trouble_message] else [])
  end.

(** An input of the examples: the service refuses with status 503 and a JSON
    object as body. *)
Definition service_unavailable : api_outcome :=
  Response 503 (Ok (JObj [("error", JStr "Service Unavailable")])).

(** The text that introduces a technique after an empathetic response. *)
Definition with_technique (response technique : string) : string :=
  (response ++ nl ++ nl ++ "Here's a technique that might help: " ++ technique)%string.

(** Inputs of the examples: a completion with a content, and one whose
    "choices" is empty. *)
Definition breathe_completion : json :=
  JObj [("choices",
         JList [JObj [("message",
                       JObj [("role", JStr "assistant");
                             ("content", JStr "Take a slow breath.")])]])].

Definition empty_completion : json := JObj [("choices", JList [])].

(** *** The characters of a text *)

(** The bytes after the first byte of a character are continuation bytes. *)
Fixpoint continuations (s : string) : bool :=
  match s with
  | EmptyString => true
  | String b s' => Py.continuation b && continuations s'
  end.

(** One character: a byte and its continuation bytes. *)
Definition is_char (c : string) : bool :=
  match c with
  | EmptyString => false
  | String _ r => continuations r
  end.

(** The character starts with a byte that is not a continuation byte. *)
Definition lead (c : string) : bool :=
  match c with
  | EmptyString => false
  | String b _ => negb (Py.continuation b)
  end.

(** A character that lower-casing leaves as it is, whatever is around
    it. *)
Definition settled (c : string) : bool :=
  is_char c && lead c && negb (Py.capital_sigma c)
  && (Py.to_lower_full c =? c)%string.

(** * Properties *)

(** ** Strings *)

Lemma append_empty (s : string) : (s ++ "")%string = s.
Proof. induction s as [|b s IH]; cbn; congruence. Qed.

Lemma chars_cons (b : ascii) (s : string) :
  exists r cs,
    Py.chars (String b s) = String b r :: cs
    /\ continuations r = true
    /\ Forall (fun c => is_char c = true /\ lead c = true) cs.
Proof.
  revert b. induction s as [|b' s IH]; intros b.
  - exists "", []. cbn. auto.
  - destruct (IH b') as (r' & cs' & E & Hr & Hcs).
    cbn [Py.chars Py.continues]. cbn [Py.chars] in E. rewrite E.
    destruct (Py.continuation b') eqn:Hb.
    + exists (String b' r'), cs'. cbn. rewrite Hb. auto.
    + exists "", (String b' r' :: cs'). split; [reflexivity|].
      split; [reflexivity|]. constructor; [|assumption].
      cbn. rewrite Hb. auto.
Qed.

Lemma chars_shape (s : string) :
  Forall (fun c => is_char c = true) (Py.chars s)
  /\ Forall (fun c => lead c = true) (tl (Py.chars s)).
Proof.
  destruct s as [|b s]; [cbn; auto|].
  destruct (chars_cons b s) as (r & cs & -> & Hr & Hcs). cbn [tl]. split.
  - constructor; [exact Hr|]. eapply Forall_impl; [|exact Hcs]. now intros c [].
  - eapply Forall_impl; [|exact Hcs]. now intros c [].
Qed.

Lemma join_chars (s : string) : Py.join (Py.chars s) = s.
Proof.
  induction s as [|b s IH]; [reflexivity|].
  cbn [Py.chars]. destruct (Py.continues s) eqn:Hs.
  - destruct s as [|b' s']; [discriminate|].
    destruct (chars_cons b' s') as (r & cs & E & _). rewrite E in IH |- *.
    cbn [Py.join String.append] in IH |- *. now rewrite IH.
  - cbn [Py.join String.append]. now rewrite IH.
Qed.

Lemma chars_char (c : string) : is_char c = true -> Py.chars c = [c].
Proof.
  destruct c as [|b r]; [discriminate|]. cbn [is_char]. revert b.
  induction r as [|b' r IH]; intros b H; [reflexivity|].
  cbn [continuations] in H. apply andb_prop in H as [Hb Hr].
  cbn [Py.chars Py.continues]. rewrite Hb.
  cbn [Py.chars] in IH. now rewrite (IH b' Hr).
Qed.

Lemma chars_app (a b : string) :
  Py.continues b = false -> Py.chars (a ++ b) = Py.chars a ++ Py.chars b.
Proof.
  intros Hb. induction a as [|x a IH]; [reflexivity|].
  cbn [String.append Py.chars].
  destruct a as [|y a'].
  - cbn [String.append Py.continues Py.chars]. now rewrite Hb.
  - cbn [String.append Py.continues] in *. rewrite IH.
    destruct (chars_cons y a') as (r & cs & -> & _).
    now destruct (Py.continuation y).
Qed.

Lemma lead_join (cs : list string) :
  Forall (fun c => lead c = true) cs -> Py.continues (Py.join cs) = false.
Proof.
  intros H. destruct H as [|c cs Hc _]; [reflexivity|].
  destruct c as [|b r]; [discriminate|]. cbn in *.
  now apply negb_true_iff.
Qed.

(** A list of characters is the list of the characters of its join. *)
Lemma chars_join (cs : list string) :
  Forall (fun c => is_char c = true) cs ->
  Forall (fun c => lead c = true) (tl cs) ->
  Py.chars (Py.join cs) = cs.
Proof.
  induction cs as [|c cs IH]; intros Hchar Hlead; [reflexivity|].
  inversion Hchar as [|? ? Hc Hcs]; subst. cbn [tl] in Hlead.
  cbn [Py.join]. rewrite chars_app by now apply lead_join.
  rewrite (chars_char c Hc). cbn [app]. f_equal. apply IH; [assumption|].
  destruct Hlead; cbn [tl]; auto.
Qed.

Lemma drop_while_incl {A} (p : A -> bool) (xs : list A) :
  incl (Py.drop_while p xs) xs.
Proof.
  induction xs as [|x xs IH]; cbn; [apply incl_refl|].
  destruct (p x); [now apply incl_tl | apply incl_refl].
Qed.

Lemma drop_while_all {A} (p : A -> bool) (xs : list A) :
  forallb p xs = true -> Py.drop_while p xs = [].
Proof.
  induction xs as [|x xs IH]; cbn; [reflexivity|].
  intros H. apply andb_prop in H as [-> H]. auto.
Qed.

Lemma drop_while_some {A} (p : A -> bool) (xs : list A) :
  forallb p xs = false ->
  exists x xs', Py.drop_while p xs = x :: xs' /\ p x = false.
Proof.
  induction xs as [|x xs IH]; cbn; [discriminate|].
  destruct (p x) eqn:Hx; cbn; intros H; eauto.
Qed.

Lemma forallb_rev {A} (p : A -> bool) (xs : list A) :
  forallb p (rev xs) = forallb p xs.
Proof.
  induction xs as [|x xs IH]; [reflexivity|].
  cbn [rev forallb]. rewrite forallb_app, IH. cbn. 
  rewrite andb_true_r. apply andb_comm.
Qed.

Lemma join_nonempty (cs : list string) :
  Forall (fun c => is_char c = true) cs -> cs <> [] -> Py.join cs <> "".
Proof.
  intros H Hne. destruct H as [|c cs Hc _]; [contradiction|].
  destruct c; [discriminate|]. discriminate.
Qed.

Lemma strip_blank (s : string) : blank s = true -> Py.strip s = "".
Proof.
  unfold blank, Py.strip. intros H. now rewrite (drop_while_all _ _ H).
Qed.

Lemma strip_not_blank (s : string) : blank s = false -> Py.strip s <> "".
Proof.
  unfold blank, Py.strip. intros H.
  destruct (drop_while_some _ _ H) as (c & cs & E & Hc).
  pose proof (drop_while_incl Py.isspace (Py.chars s)) as Hincl.
  rewrite E in *.
  assert (Hrev : forallb Py.isspace (rev (c :: cs)) = false).
  { rewrite forallb_rev. cbn. now rewrite Hc. }
  destruct (drop_while_some _ _ Hrev) as (d & ds & E' & _).
  pose proof (drop_while_incl Py.isspace (rev (c :: cs))) as Hincl'.
  rewrite E' in *.
  apply join_nonempty.
  - apply Forall_forall. intros x Hx. apply in_rev in Hx.
    apply Hincl', in_rev, Hincl in Hx.
    exact (proj1 (Forall_forall _ _) (proj1 (chars_shape s)) x Hx).
  - intros Hnil. apply (f_equal (@rev string)) in Hnil.
    rewrite rev_involutive in Hnil. discriminate.
Qed.

(** The guard of [detect_emotion] is the test for a blank text. *)
Lemma blank_guard (text : string) :
  Py.falsy text || (Py.strip text =? "")%string = blank text.
Proof.
  destruct (blank text) eqn:B.
  - rewrite (strip_blank _ B). simpl. apply orb_true_r.
  - apply orb_false_iff. split.
    + destruct text; [discriminate B | reflexivity].
    + apply String.eqb_neq. now apply strip_not_blank.
Qed.

Example strip_knows_unicode_whitespace :
  Py.strip (Py.chr 0xA0 ++ " so-so " ++ Py.chr 0x3000) = "so-so"
  /\ blank (Py.chr 0x85 ++ Py.chr 0x2003 ++ Py.chr 0x3000) = true
  /\ blank (Py.chr 0x200B) = false.
Proof. repeat split; vm_compute; reflexivity. Qed.

(** *** Lower case *)

(** A capital sigma becomes a final sigma at the end of a word only, and the
    capital I with a dot becomes two characters. *)
Example lower_knows_the_final_sigma :
  Py.lower (Py.join (map Py.chr [0x39F; 0x394; 0x3A3; 0x20; 0x3A3; 0x391; 0x130]%N))
  = Py.join (map Py.chr [0x3BF; 0x3B4; 0x3C2; 0x20; 0x3C3; 0x3B1; 0x69; 0x307]%N).
Proof. vm_compute. reflexivity. Qed.

Lemma lookup_in (n m : N) (table : list (N * N)) :
  Py.lookup n table = Some m -> In (n, m) table.
Proof.
  induction table as [|[k v] table IH]; cbn; [discriminate|].
  destruct (N.eqb_spec n k) as [->|_].
  - intros [= ->]. now left.
  - auto.
Qed.

Lemma ord_chr (c : string) (n : N) : Py.ord c = Some n -> Py.chr n = c.
Proof.
  unfold Py.ord.
  match goal with |- context [(?m <? 0x110000)%N] => generalize m end.
  intros m. destruct (m <? 0x110000)%N; [|discriminate]. cbn [andb].
  destruct (String.eqb_spec (Py.chr m) c); [|discriminate].
  now intros [= <-].
Qed.

Lemma lower_table_settled :
  forallb (fun '(n, m) => negb (Py.in_ranges n Py.whitespace)
                          && settled (Py.chr m)
                          && negb (Py.isspace (Py.chr m)))
          Py.lower_table = true.
Proof. vm_compute. reflexivity. Qed.

Lemma settled_lower_char (c : string) (before after : list string) :
  settled c = true -> Py.lower_char before c after = c.
Proof.
  unfold settled, Py.lower_char. intros H.
  apply andb_prop in H as [H Hlow]. apply andb_prop in H as [_ Hsigma].
  apply negb_true_iff in Hsigma. rewrite Hsigma.
  now apply String.eqb_eq.
Qed.

Lemma settled_lower_chars (cs before : list string) :
  Forall (fun c => settled c = true) cs -> Py.lower_chars before cs = cs.
Proof.
  intros H. revert before. induction H as [|c cs Hc _ IH]; intros before;
    [reflexivity|].
  cbn [Py.lower_chars]. now rewrite settled_lower_char, IH.
Qed.

(** Lower-casing one character gives characters that lower-casing leaves
    as they are, and whitespace only for whitespace. *)
Lemma lower_char_settles (c : string) (before after : list string) :
  is_char c = true ->
  exists ds,
    Py.lower_char before c after = Py.join ds
    /\ ds <> []
    /\ Forall (fun d => is_char d = true) ds
    /\ Forall (fun d => lead d = true) (tl ds)
    /\ (lead c = true -> Forall (fun d => lead d = true) ds)
    /\ Forall (fun d => forall before' after',
                        Py.lower_char before' d after' = d) ds
    /\ forallb Py.isspace ds = Py.isspace c.
Proof.
  intros Hchar.
  assert (Hsame : forall before' after',
             Py.capital_sigma c = false -> Py.to_lower_full c = (c ++ "")%string ->
             Py.lower_char before' c after' = c).
  { intros b a Hs Hl. unfold Py.lower_char. rewrite Hs, Hl. apply append_empty. }
  assert (Hkeep : Py.capital_sigma c = false ->
                  Py.to_lower_full c = (c ++ "")%string ->
                  exists ds,
                    Py.lower_char before c after = Py.join ds
                    /\ ds <> []
                    /\ Forall (fun d => is_char d = true) ds
                    /\ Forall (fun d => lead d = true) (tl ds)
                    /\ (lead c = true -> Forall (fun d => lead d = true) ds)
                    /\ Forall (fun d => forall before' after',
                                        Py.lower_char before' d after' = d) ds
                    /\ forallb Py.isspace ds = Py.isspace c).
  { intros Hs Hl. exists [c]. unfold Py.lower_char. rewrite Hs, Hl.
    split; [reflexivity|]. split; [discriminate|].
    split; [auto|]. split; [constructor|]. split; [auto|].
    split; [constructor; [|constructor]; intros; now apply Hsame|].
    cbn. apply andb_true_r. }
  assert (Hfixed : forall m,
             settled (Py.chr m) = true -> Py.isspace (Py.chr m) = false ->
             Py.isspace c = false ->
             Py.lower_char before c after = (Py.chr m ++ "")%string ->
             exists ds,
               Py.lower_char before c after = Py.join ds
               /\ ds <> []
               /\ Forall (fun d => is_char d = true) ds
               /\ Forall (fun d => lead d = true) (tl ds)
               /\ (lead c = true -> Forall (fun d => lead d = true) ds)
               /\ Forall (fun d => forall before' after',
                                   Py.lower_char before' d after' = d) ds
               /\ forallb Py.isspace ds = Py.isspace c).
  { intros m Hm Hspace Hc Hout. exists [Py.chr m].
    split; [exact Hout|]. split; [discriminate|].
    pose proof Hm as Hm'. unfold settled in Hm'.
    apply andb_prop in Hm' as [Hm' _]. apply andb_prop in Hm' as [Hm' _].
    apply andb_prop in Hm' as [Hmc Hml].
    split; [auto|]. split; [constructor|]. split; [auto|].
    split; [constructor; [|constructor]; intros; now apply settled_lower_char|].
    cbn. now rewrite Hspace, Hc. }
  unfold Py.lower_char in *. unfold Py.capital_sigma, Py.to_lower_full, Py.isspace in *.
  destruct (Py.ord c) as [n|] eqn:Hord; [|apply Hkeep; [reflexivity|]; now rewrite append_empty].
  pose proof (ord_chr _ _ Hord) as Hchr.
  destruct (N.eqb_spec n 0x3A3) as [->|Hsigma].
  { destruct (Py.final_sigma before after);
      [apply (Hfixed 0x3C2%N) | apply (Hfixed 0x3C3%N)];
      try reflexivity; now rewrite append_empty. }
  unfold Py.to_lower in *.
  destruct (N.eqb_spec n 0x130) as [->|Hdot].
  { exists [Py.chr 0x69; Py.chr 0x307]. split; [reflexivity|].
    split; [discriminate|]. split; [repeat constructor|].
    split; [repeat constructor|]. split; [repeat constructor|].
    split; [|reflexivity].
    repeat constructor; intros; now apply settled_lower_char. }
  destruct (Py.lookup n Py.lower_table) as [m|] eqn:Hlookup.
  - apply lookup_in in Hlookup.
    pose proof (proj1 (forallb_forall _ _) lower_table_settled _ Hlookup) as H.
    cbv beta iota in H. apply andb_prop in H as [H Hspace].
    apply andb_prop in H as [Hn Hm].
    apply negb_true_iff in Hn, Hspace.
    apply (Hfixed m); auto.
  - apply Hkeep; [reflexivity|]. cbn [map Py.join]. now rewrite Hchr.
Qed.

(** Lower-casing a list of characters gives, joined, a list of characters
    that lower-casing leaves as they are. *)
Lemma lower_chars_settle (cs : list string) :
  forall before,
    Forall (fun c => is_char c = true) cs ->
    Forall (fun c => lead c = true) (tl cs) ->
    exists ds,
      Py.join (Py.lower_chars before cs) = Py.join ds
      /\ Forall (fun d => is_char d = true) ds
      /\ Forall (fun d => lead d = true) (tl ds)
      /\ (Forall (fun c => lead c = true) cs ->
          Forall (fun d => lead d = true) ds)
      /\ Forall (fun d => forall before' after',
                          Py.lower_char before' d after' = d) ds
      /\ forallb Py.isspace ds = forallb Py.isspace cs.
Proof.
  induction cs as [|c cs IH]; intros before Hchar Hlead.
  - exists []. cbn. repeat split; auto.
  - inversion Hchar as [|? ? Hc Hcs]; subst. cbn [tl] in Hlead.
    destruct (lower_char_settles c before cs Hc)
      as (ds & Hout & Hne & Hds & Htl & Hhd & Hfix & Hspace).
    destruct (IH (c :: before) Hcs) as (ds' & Hout' & Hds' & _ & Hall' & Hfix' & Hspace').
    { destruct Hlead; cbn [tl]; auto. }
    specialize (Hall' Hlead).
    exists (ds ++ ds'). cbn [Py.lower_chars Py.join].
    rewrite Hout, Hout'.
    assert (Hjoin : forall xs ys, Py.join (xs ++ ys)
                                  = (Py.join xs ++ Py.join ys)%string).
    { induction xs as [|x xs IHx]; intros ys; cbn; [reflexivity|].
      rewrite IHx. 
      clear. induction x as [|b x IHb]; cbn; congruence. }
    split; [now rewrite Hjoin|].
    split; [now apply Forall_app|].
    split.
    { destruct ds as [|d ds]; [contradiction|]. cbn [tl app].
      apply Forall_app. auto. }
    split.
    { intros Hl. inversion Hl; subst. apply Forall_app. auto. }
    split; [now apply Forall_app|].
    rewrite forallb_app, Hspace, Hspace'. reflexivity.
Qed.

Lemma fixed_lower_chars (ds before : list string) :
  Forall (fun d => forall before' after', Py.lower_char before' d after' = d) ds ->
  Py.lower_chars before ds = ds.
Proof.
  intros H. revert before. induction H as [|d ds Hd _ IH]; intros before;
    [reflexivity|].
  cbn [Py.lower_chars]. now rewrite Hd, IH.
Qed.

Lemma lower_settles (s : string) :
  exists ds,
    Py.lower s = Py.join ds
    /\ Py.chars (Py.lower s) = ds
    /\ Py.lower_chars [] ds = ds
    /\ forallb Py.isspace ds = forallb Py.isspace (Py.chars s).
Proof.
  destruct (chars_shape s) as [Hchar Hlead].
  destruct (lower_chars_settle (Py.chars s) [] Hchar Hlead)
    as (ds & Hout & Hds & Htl & _ & Hfix & Hspace).
  exists ds. unfold Py.lower. rewrite Hout.
  split; [reflexivity|]. split; [now apply chars_join|].
  split; [now apply fixed_lower_chars | exact Hspace].
Qed.

Lemma lower_idempotent (s : string) : Py.lower (Py.lower s) = Py.lower s.
Proof.
  destruct (lower_settles s) as (ds & Hout & Hchars & Hfix & _).
  unfold Py.lower at 1. now rewrite Hchars, Hfix.
Qed.

Lemma blank_lower (s : string) : blank (Py.lower s) = blank s.
Proof.
  destruct (lower_settles s) as (ds & _ & Hchars & _ & Hspace).
  unfold blank. now rewrite Hchars.
Qed.

(** ** Dictionaries *)

Lemma dict_lookup_setitem_same {V} (d : dict V) (k : string) (v : V) :
  dict_lookup (dict_setitem d k v) k = Some v.
Proof.
  induction d as [|[k' v'] d IH]; simpl.
  - now rewrite String.eqb_refl.
  - destruct (k =? k')%string eqn:E; simpl; rewrite E; auto.
Qed.

Lemma dict_setitem_twice {V} (d : dict V) (k : string) (v1 v2 : V) :
  dict_setitem (dict_setitem d k v1) k v2 = dict_setitem d k v2.
Proof.
  induction d as [|[k' v'] d IH]; simpl.
  - now rewrite String.eqb_refl.
  - destruct (k =? k')%string eqn:E; simpl; rewrite E; congruence.
Qed.

Lemma dict_setitem_same {V} (d : dict V) (k : string) (v : V) :
  dict_lookup d k = Some v -> dict_setitem d k v = d.
Proof.
  induction d as [|[k' v'] d IH]; simpl; [discriminate|].
  destruct (k =? k')%string eqn:E.
  - intros [= ->]. reflexivity.
  - intros H. now rewrite IH.
Qed.

Lemma dict_contains_setitem {V} (d : dict V) (k k' : string) (v : V) :
  dict_contains d k' = true -> dict_contains (dict_setitem d k v) k' = true.
Proof.
  unfold dict_contains. induction d as [|[k0 v0] d IH]; simpl; [discriminate|].
  destruct (k =? k0)%string eqn:E; simpl.
  - destruct (k' =? k0)%string; auto.
  - destruct (k' =? k0)%string; auto.
Qed.

Lemma dict_lookup_in {V} (d : dict V) (k : string) (v : V) :
  dict_lookup d k = Some v -> In (k, v) d.
Proof.
  induction d as [|[k' v'] d IH]; simpl; [discriminate|].
  destruct (k =? k')%string eqn:E.
  - apply String.eqb_eq in E. intros [= ->]. left. congruence.
  - auto.
Qed.

Lemma dict_lookup_middle {V} (before after : dict V) (k : string) (v : V) :
  NoDup (dict_keys (before ++ (k, v) :: after)) ->
  dict_lookup (before ++ (k, v) :: after) k = Some v.
Proof.
  induction before as [|[k' v'] before IH]; simpl.
  - now rewrite String.eqb_refl.
  - intros H. inversion H as [|? ? Hnotin Hnodup]; subst.
    destruct (k =? k')%string eqn:E.
    + apply String.eqb_eq in E. subst k'. exfalso. apply Hnotin.
      unfold dict_keys. rewrite map_app. apply in_or_app. right. now left.
    + now apply IH.
Qed.

Lemma dict_contains_keys {V} (d : dict V) (k : string) :
  In k (dict_keys d) -> dict_contains d k = true.
Proof.
  unfold dict_contains. induction d as [|[k' v'] d IH]; simpl; [tauto|].
  intros [->|H].
  - now rewrite String.eqb_refl.
  - destruct (k =? k')%string; auto.
Qed.

(** ** The keyword path *)

(** The inner loop adds to the category's score the number of its keywords
    that occur in the text. *)
Lemma inner_loop_counts (text emotion : string) (keywords : list string) :
  forall (scores : dict nat) (v : nat),
    dict_lookup scores emotion = Some v ->
    for_each keywords (EmotionDetector.count_keyword (Py.lower text) emotion) scores
    = Ok (dict_setitem scores emotion (v + keyword_count text keywords)).
Proof.
  unfold keyword_count.
  induction keywords as [|keyword keywords IH]; intros scores v Hv.
  - cbn [for_each filter List.length]. rewrite Nat.add_0_r.
    now rewrite dict_setitem_same.
  - cbn [for_each filter]. unfold EmotionDetector.count_keyword at 1.
    destruct (Py.contains keyword (Py.lower text)) eqn:E.
    + unfold dict_incr, dict_getitem. rewrite Hv. cbn [rbind].
      rewrite (IH _ (v + 1)) by apply dict_lookup_setitem_same.
      rewrite dict_setitem_twice. cbn [List.length]. f_equal. f_equal. lia.
    + now apply IH.
Qed.

Lemma outer_loop_counts (text : string) (table : dict (list string)) :
  forall scores : dict nat,
    (forall emotion, In emotion (dict_keys table) ->
                     dict_contains scores emotion = true) ->
    for_each table
      (fun '(emotion, keywords) emotion_scores =>
         for_each keywords
           (EmotionDetector.count_keyword (Py.lower text) emotion) emotion_scores)
      scores
    = Ok (fold_left (add_category text) table scores).
Proof.
  induction table as [|[emotion keywords] table IH]; intros scores Hkeys;
    [reflexivity|].
  cbn [for_each fold_left].
  assert (Hin : dict_contains scores emotion = true)
    by (apply Hkeys; now left).
  unfold dict_contains in Hin.
  destruct (dict_lookup scores emotion) as [v|] eqn:Hv; [|discriminate].
  rewrite (inner_loop_counts text emotion keywords scores v Hv).
  rewrite IH.
  - f_equal. f_equal. unfold add_category. cbn [fst snd]. unfold dict_get.
    now rewrite Hv.
  - intros e He. apply dict_contains_setitem. apply Hkeys. now right.
Qed.

(** The scoring loops of the code compute the specification's counts, and
    never meet a missing key. *)
Lemma count_keywords_counts (text : string) :
  EmotionDetector.count_keywords (Py.lower text)
    (map (fun emotion => (emotion, 0))
         (dict_keys EmotionDetector.EMOTION_KEYWORDS))
  = Ok (category_counts text).
Proof.
  unfold EmotionDetector.count_keywords.
  rewrite outer_loop_counts.
  - reflexivity.
  - intros e He. apply dict_contains_keys.
    unfold dict_keys in *. rewrite map_map. cbn [fst].
    now rewrite map_id.
Qed.

Lemma sum_from (xs : list nat) :
  forall a : nat, fold_left Nat.add xs a = a + list_sum xs.
Proof.
  induction xs as [|x xs IH]; intros a; simpl.
  - lia.
  - rewrite IH. lia.
Qed.

Lemma sum_is_list_sum (xs : list nat) : Py.sum xs = list_sum xs.
Proof. unfold Py.sum. now rewrite sum_from. Qed.

Lemma all_zero_sum (counts : dict nat) :
  (forall emotion count, In (emotion, count) counts -> count = 0) ->
  list_sum (dict_values counts) = 0.
Proof.
  induction counts as [|[e c] counts IH]; intros H; simpl; [reflexivity|].
  rewrite (H e c) by now left.
  apply IH. intros e' c' Hin. apply (H e'). now right.
Qed.

(** The loop that looks for the highest score, from any starting state: it
    either keeps the state, when no score beats the starting maximum, or
    ends on the first entry that holds the highest score. *)
Lemma highest_from (scores : dict nat) :
  forall (m : nat) (d : string) (m' : nat) (d' : string),
    fold_left
      (fun '(max_score, detected_emotion) '(emotion, score) =>
         if max_score <? score
         then (score, emotion)
         else (max_score, detected_emotion))
      scores (m, d) = (m', d') ->
    (m' = m /\ d' = d /\ forall e c, In (e, c) scores -> c <= m)
    \/ (exists before count after,
           scores = before ++ (d', count) :: after
           /\ m' = count
           /\ m < count
           /\ (forall e c, In (e, c) before -> c < count)
           /\ (forall e c, In (e, c) after -> c <= count)).
Proof.
  induction scores as [|[e c] scores IH]; intros m d m' d' H.
  - simpl in H. injection H as <- <-. left. repeat split. intros ? ? [].
  - cbn [fold_left] in H. destruct (m <? c) eqn:Hlt.
    + apply Nat.ltb_lt in Hlt.
      destruct (IH _ _ _ _ H)
        as [(-> & -> & Hall) | (before & count & after & -> & -> & Hc & Hb & Ha)].
      * right. exists [], c, scores. repeat split; auto. intros ? ? [].
      * right. exists ((e, c) :: before), count, after.
        repeat split; auto; try lia.
        intros e0 c0 [[= <- <-]|Hin]; [assumption | eauto].
    + apply Nat.ltb_ge in Hlt.
      destruct (IH _ _ _ _ H)
        as [(-> & -> & Hall) | (before & count & after & -> & -> & Hc & Hb & Ha)].
      * left. repeat split.
        intros e0 c0 [[= <- <-]|Hin]; [assumption | eauto].
      * right. exists ((e, c) :: before), count, after.
        repeat split; auto.
        intros e0 c0 [[= <- <-]|Hin]; [lia | eauto].
Qed.

(** The winner of the loop, and its score. *)
Lemma highest_score_wins (scores : dict nat) (m : nat) (label : string) :
  EmotionDetector.highest_score scores = (m, label) ->
  wins scores label
  /\ (NoDup (dict_keys scores) -> 0 < list_sum (dict_values scores) ->
      dict_lookup scores label = Some m).
Proof.
  unfold EmotionDetector.highest_score. intros H.
  destruct (highest_from _ _ _ _ _ H)
    as [(-> & -> & Hall) | (before & count & after & -> & -> & Hc & Hb & Ha)].
  - split.
    + left. split; [|reflexivity].
      intros e c Hin. specialize (Hall e c Hin). lia.
    + intros _ Hsum. rewrite all_zero_sum in Hsum; [lia|].
      intros e c Hin. specialize (Hall e c Hin). lia.
  - split.
    + right. exists before, count, after. auto.
    + intros Hnodup _. now apply dict_lookup_middle.
Qed.

Lemma category_counts_keys (text : string) :
  dict_keys (category_counts text) = dict_keys EmotionDetector.EMOTION_KEYWORDS.
Proof. reflexivity. Qed.

Lemma keyword_table_keys_nodup :
  NoDup (dict_keys EmotionDetector.EMOTION_KEYWORDS).
Proof.
  unfold dict_keys. cbn [map fst EmotionDetector.EMOTION_KEYWORDS].
  repeat constructor; cbn [In]; intros H;
    repeat (destruct H as [H|H]; [discriminate H|]); exact H.
Qed.

(** What [_detect_with_keywords] returns: it never raises, its label is the
    winner of the highest-score loop on the specification's counts, and its
    confidence is the formula on the winner's count and the total. *)
Lemma detect_with_keywords_eq (text : string) :
  exists (m : nat) (label : string),
    EmotionDetector.highest_score (category_counts text) = (m, label)
    /\ EmotionDetector._detect_with_keywords text
       = Ok (label, keyword_confidence m (total_matches text)).
Proof.
  unfold EmotionDetector._detect_with_keywords.
  rewrite count_keywords_counts. cbn [rbind].
  destruct (EmotionDetector.highest_score (category_counts text)) as [m label].
  exists m, label. split; [reflexivity|].
  rewrite sum_is_list_sum. fold (total_matches text).
  unfold keyword_confidence.
  destruct (total_matches text) as [|n]; reflexivity.
Qed.

(** A category's entry in the counts comes from its entry in the keyword
    table. *)
Lemma category_counts_in (text emotion : string) (count : nat) :
  In (emotion, count) (category_counts text) ->
  exists keywords,
    In (emotion, keywords) EmotionDetector.EMOTION_KEYWORDS
    /\ count = keyword_count text keywords.
Proof.
  unfold category_counts. intros H. apply in_map_iff in H.
  destruct H as ([e ks] & [= <- <-] & Hin). eauto.
Qed.

Lemma category_counts_of (text emotion : string) (keywords : list string) :
  In (emotion, keywords) EmotionDetector.EMOTION_KEYWORDS ->
  In (emotion, keyword_count text keywords) (category_counts text).
Proof.
  intros H. unfold category_counts. apply in_map_iff.
  exists (emotion, keywords). auto.
Qed.

(** A text matches at most the 46 keywords of the table, so the conversions
    of the counts to floats are exact. *)
Lemma total_matches_bound (text : string) : total_matches text <= 46.
Proof.
  unfold total_matches, category_counts, keyword_count, dict_values,
    EmotionDetector.EMOTION_KEYWORDS.
  cbn [map snd list_sum].
  repeat match goal with
         | |- context [List.length (filter ?f ?l)] =>
             let H := fresh "H" in
             pose proof (filter_length_le f l) as H;
             cbn [List.length] in H;
             generalize dependent (List.length (filter f l)); intros
         end.
  cbn [list_sum fold_right]. lia.
Qed.

Example keyword_tie_goes_to_first_category :
  EmotionDetector._detect_with_keywords "I am unhappy" = Ok ("joy", 0.7%float).
Proof. vm_compute. reflexivity. Qed.

Example keyword_no_match_is_neutral :
  EmotionDetector._detect_with_keywords "Hello there" = Ok ("neutral", 0.5%float).
Proof. vm_compute. reflexivity. Qed.

Example keyword_single_match :
  EmotionDetector._detect_with_keywords "This makes me furious" = Ok ("anger", 0.9%float).
Proof. vm_compute. reflexivity. Qed.

Example keyword_with_a_kelvin_sign :
  Py.lower kelvin_text = "i am heartbroken"
  /\ EmotionDetector._detect_with_keywords kelvin_text = Ok ("sadness", 0.9%float).
Proof. split; vm_compute; reflexivity. Qed.

(** C5: for every text, the keyword fallback lower-cases the text, counts
    for each category the keywords that occur as substrings, and returns the
    category with the highest count; on a tie the first category in
    iteration order (joy, sadness, anger, fear, neutral) wins, and when every
    count is zero the result is "neutral". In particular a text with exactly
    one keyword of one category and none of the others gives that
    category. *)
Theorem C5_keyword_fallback_first_highest_category (text : string) :
  dict_keys (category_counts text) = ["joy"; "sadness"; "anger"; "fear"; "neutral"]
  /\ exists label confidence,
      EmotionDetector._detect_with_keywords text = Ok (label, confidence)
      /\ wins (category_counts text) label
      /\ (forall emotion keywords,
             In (emotion, keywords) EmotionDetector.EMOTION_KEYWORDS ->
             keyword_count text keywords = 1 ->
             (forall emotion' keywords',
                 In (emotion', keywords') EmotionDetector.EMOTION_KEYWORDS ->
                 emotion' <> emotion ->
                 keyword_count text keywords' = 0) ->
             label = emotion).
Proof.
  split; [reflexivity|].
  destruct (detect_with_keywords_eq text) as (m & label & Hhigh & Heq).
  exists label, (keyword_confidence m (total_matches text)).
  split; [exact Heq|].
  destruct (highest_score_wins _ _ _ Hhigh) as [Hwins _].
  split; [exact Hwins|].
  intros emotion keywords Hin Hone Hothers.
  destruct Hwins as [[Hzero _] | (before & count & after & Hsplit & Hpos & _)].
  - specialize (Hzero _ _ (category_counts_of text _ _ Hin)). lia.
  - assert (Hlabel : In (label, count) (category_counts text)).
    { rewrite Hsplit. apply in_or_app. right. now left. }
    destruct (category_counts_in _ _ _ Hlabel) as (keywords' & Hin' & ->).
    destruct (String.eqb_spec label emotion) as [E|E]; [exact E|].
    rewrite (Hothers _ _ Hin' E) in Hpos. lia.
Qed.


Example confidence_counts_3_and_1 :
  EmotionDetector._detect_with_keywords "So sad, depressed and miserable, and a bit angry"
  = Ok ("sadness", 0.8%float).
Proof. vm_compute. reflexivity. Qed.

Example confidence_scared_and_terrified :
  EmotionDetector._detect_with_keywords "I am so scared and terrified of my exam tomorrow"
  = Ok ("fear", 0.9%float).
Proof. vm_compute. reflexivity. Qed.

Lemma response_tables_cover_canonical_labels :
  forallb (fun label => dict_contains THERAPY_TECHNIQUES label
                        && dict_contains EMPATHETIC_RESPONSES label)
          canonical_labels = true.
Proof. vm_compute. reflexivity. Qed.

Lemma canonical_in_tables (label : string) :
  In label canonical_labels ->
  dict_contains THERAPY_TECHNIQUES label = true
  /\ dict_contains EMPATHETIC_RESPONSES label = true.
Proof.
  intros H.
  pose proof (proj1 (forallb_forall _ _) response_tables_cover_canonical_labels
                _ H) as Hboth.
  now apply andb_prop in Hboth.
Qed.

(** The label of the keyword path is a key of the keyword table or the
    default "neutral", hence canonical. *)
Lemma keyword_label_canonical (text label : string) (confidence : float) :
  EmotionDetector._detect_with_keywords text = Ok (label, confidence) ->
  In label canonical_labels.
Proof.
  intros H.
  destruct (detect_with_keywords_eq text) as (m & label' & Hhigh & Heq).
  rewrite Heq in H. injection H as -> _.
  destruct (highest_score_wins _ _ _ Hhigh) as [Hwins _].
  destruct Hwins as [[_ ->] | (before & count & after & Hsplit & _)].
  - unfold canonical_labels. cbn [In]. tauto.
  - change canonical_labels with (dict_keys (category_counts text)).
    rewrite Hsplit. unfold dict_keys. rewrite map_app. apply in_or_app.
    right. now left.
Qed.

(** C7: every emotion label the keyword fallback can produce (a key of
    [EMOTION_KEYWORDS], or the default "neutral") is a key of both response
    tables, [THERAPY_TECHNIQUES] and [EMPATHETIC_RESPONSES]. *)
Theorem C7_keyword_labels_are_keys_of_both_tables :
  (forall label,
      In label (dict_keys EmotionDetector.EMOTION_KEYWORDS ++ ["neutral"]) ->
      dict_contains THERAPY_TECHNIQUES label = true
      /\ dict_contains EMPATHETIC_RESPONSES label = true)
  /\ (forall text, exists label confidence,
         EmotionDetector._detect_with_keywords text = Ok (label, confidence)
         /\ dict_contains THERAPY_TECHNIQUES label = true
         /\ dict_contains EMPATHETIC_RESPONSES label = true).
Proof.
  split.
  - intros label H. apply canonical_in_tables.
    cbn in H. unfold canonical_labels. cbn [In]. tauto.
  - intros text.
    destruct (detect_with_keywords_eq text) as (m & label & _ & Heq).
    exists label, (keyword_confidence m (total_matches text)).
    split; [exact Heq|].
    apply canonical_in_tables. eapply keyword_label_canonical. exact Heq.
Qed.

(** ** [detect_emotion] *)

(** On a text that is not blank the keyword path answers whenever the model
    path gave nothing. *)
Lemma detect_emotion_keyword_path (self : EmotionDetector.t) (text : string) :
  blank text = false ->
  match EmotionDetector.emotion_model self with
  | None => True
  | Some model =>
      match model text with
      | Raise _ | Ok [] => True
      | Ok (_ :: _) => False
      end
  end ->
  exists label confidence,
    EmotionDetector._detect_with_keywords text = Ok (label, confidence)
    /\ EmotionDetector.detect_emotion self text
       = Ok {| EmotionDetector.emotion := label;
               EmotionDetector.confidence := confidence;
               EmotionDetector.method := "keywords";
               EmotionDetector.all_emotions := None |}.
Proof.
  intros Hblank Hmodel.
  destruct (detect_with_keywords_eq text) as (m & label & _ & Heq).
  exists label, (keyword_confidence m (total_matches text)).
  split; [exact Heq|].
  unfold EmotionDetector.detect_emotion. rewrite blank_guard, Hblank.
  destruct (EmotionDetector.emotion_model self) as [model|].
  - destruct (model text) as [[|l ls]|e]; try contradiction;
      cbn [rtry rbind]; rewrite Heq; reflexivity.
  - cbn [rbind]. rewrite Heq. reflexivity.
Qed.

(** The three cases of [detect_emotion]: a blank text, a model that gives
    labels, and the keyword path for everything else. *)
Lemma detect_emotion_cases (self : EmotionDetector.t) (text : string) :
  (blank text = true
   /\ EmotionDetector.detect_emotion self text = Ok default_detection)
  \/ (blank text = false
      /\ model_failed self text = false
      /\ exists detection,
          EmotionDetector.detect_emotion self text = Ok detection
          /\ (EmotionDetector.method detection = "flair"
              \/ EmotionDetector.method detection = "keywords"))
  \/ (blank text = false
      /\ model_failed self text = true
      /\ exists label confidence,
          EmotionDetector._detect_with_keywords text = Ok (label, confidence)
          /\ EmotionDetector.detect_emotion self text
             = Ok {| EmotionDetector.emotion := label;
                     EmotionDetector.confidence := confidence;
                     EmotionDetector.method := "keywords";
                     EmotionDetector.all_emotions := None |}).
Proof.
  destruct (blank text) eqn:Hblank.
  { left. split; [reflexivity|].
    unfold EmotionDetector.detect_emotion. now rewrite blank_guard, Hblank. }
  right. unfold model_failed.
  destruct (EmotionDetector.emotion_model self) as [model|] eqn:Hmodel.
  - destruct (model text) as [[|l ls]|e] eqn:Hrun.
    + left. split; [reflexivity|]. split; [reflexivity|].
      destruct (detect_emotion_keyword_path self text Hblank)
        as (label & confidence & _ & Hdet);
        [rewrite Hmodel, Hrun; exact I|].
      eexists. split; [exact Hdet | right; reflexivity].
    + left. split; [reflexivity|]. split; [reflexivity|].
      eexists. split.
      { unfold EmotionDetector.detect_emotion.
        rewrite blank_guard, Hblank, Hmodel, Hrun. reflexivity. }
      left. reflexivity.
    + right. split; [reflexivity|]. split; [reflexivity|].
      apply (detect_emotion_keyword_path self text Hblank).
      rewrite Hmodel, Hrun. exact I.
  - right. split; [reflexivity|]. split; [reflexivity|].
    apply (detect_emotion_keyword_path self text Hblank).
    rewrite Hmodel. exact I.
Qed.

Lemma detect_emotion_returns (self : EmotionDetector.t) (text : string) :
  exists detection, EmotionDetector.detect_emotion self text = Ok detection.
Proof.
  destruct (detect_emotion_cases self text)
    as [[_ H] | [(_ & _ & detection & H & _) | (_ & _ & l & c & _ & H)]];
    eauto.
Qed.

(** C2: for every text [detect_emotion] never raises and returns a result
    with an emotion label, a confidence and a method tag; when the
    learned-model path fails (no model loaded, or the model raises) the
    result is the one of the keyword path. *)
Theorem C2_detect_emotion_never_raises (self : EmotionDetector.t) (text : string) :
  exists detection,
    EmotionDetector.detect_emotion self text = Ok detection
    /\ In (EmotionDetector.method detection) ["default"; "flair"; "keywords"]
    /\ (blank text = false -> model_failed self text = true ->
        exists label confidence,
          EmotionDetector._detect_with_keywords text = Ok (label, confidence)
          /\ detection
             = {| EmotionDetector.emotion := label;
                  EmotionDetector.confidence := confidence;
                  EmotionDetector.method := "keywords";
                  EmotionDetector.all_emotions := None |}).
Proof.
  destruct (detect_emotion_cases self text)
    as [[Hblank Hdet]
       | [(Hblank & Hmodel & detection & Hdet & Hmethod)
         | (Hblank & Hmodel & label & confidence & Hkw & Hdet)]].
  - exists default_detection. split; [exact Hdet|]. split.
    + cbn. tauto.
    + intros Hnot. rewrite Hblank in Hnot. discriminate.
  - exists detection. split; [exact Hdet|]. split.
    + cbn [In]. destruct Hmethod as [-> | ->]; tauto.
    + intros _ Hfailed. rewrite Hmodel in Hfailed. discriminate.
  - eexists. split; [exact Hdet|]. split.
    + cbn. tauto.
    + intros _ _. exists label, confidence. split; [exact Hkw | reflexivity].
Qed.

Example broken_model_falls_through :
  EmotionDetector.detect_emotion broken_detector "I feel anxious"
  = Ok {| EmotionDetector.emotion := "fear";
          EmotionDetector.confidence := 0.9%float;
          EmotionDetector.method := "keywords";
          EmotionDetector.all_emotions := None |}.
Proof. vm_compute. reflexivity. Qed.

(** The recorded run of [detect_emotion] gives the result of
    [detect_emotion]. *)
Lemma detect_emotion_work_result (self : EmotionDetector.t) (text : string) :
  fst (EmotionDetector.detect_emotion_work self text)
  = EmotionDetector.detect_emotion self text.
Proof.
  unfold EmotionDetector.detect_emotion_work, EmotionDetector.detect_emotion.
  destruct (Py.falsy text || (Py.strip text =? "")%string); [reflexivity|].
  destruct (EmotionDetector.emotion_model self) as [model|].
  - destruct (model text) as [[|l ls]|e]; reflexivity.
  - reflexivity.
Qed.

(** A text that is not blank sets the model or the keyword scan to work. *)
Lemma detect_emotion_work_not_blank (self : EmotionDetector.t) (text : string) :
  blank text = false ->
  exists work works,
    snd (EmotionDetector.detect_emotion_work self text) = work :: works
    /\ (work = EmotionDetector.ModelRun text
        \/ work = EmotionDetector.KeywordScan text).
Proof.
  intros Hblank. unfold EmotionDetector.detect_emotion_work.
  rewrite blank_guard, Hblank.
  destruct (EmotionDetector.emotion_model self) as [model|].
  - destruct (model text) as [[|l ls]|e]; cbn; eauto.
  - cbn. eauto.
Qed.

(** C4: for every text that is empty or holds only whitespace, also
    whitespace outside ASCII, [detect_emotion] returns exactly neutral, 0.0,
    "default", whatever the detector, and performs no processing: the run
    sets neither the model nor the keyword scan to work, which it does for
    every other text. *)
Theorem C4_blank_text_gives_default (self : EmotionDetector.t) (text : string) :
  (blank text = true ->
   EmotionDetector.detect_emotion self text = Ok default_detection
   /\ EmotionDetector.detect_emotion_work self text = (Ok default_detection, []))
  /\ fst (EmotionDetector.detect_emotion_work self text)
     = EmotionDetector.detect_emotion self text
  /\ (snd (EmotionDetector.detect_emotion_work self text) = []
      <-> blank text = true).
Proof.
  assert (Hdefault : blank text = true ->
                     EmotionDetector.detect_emotion_work self text
                     = (Ok default_detection, [])).
  { intros Hblank. unfold EmotionDetector.detect_emotion_work.
    now rewrite blank_guard, Hblank. }
  split; [|split].
  - intros Hblank. split; [|now apply Hdefault].
    rewrite <- detect_emotion_work_result. now rewrite Hdefault.
  - apply detect_emotion_work_result.
  - split.
    + intros Hnone. destruct (blank text) eqn:Hblank; [reflexivity|].
      destruct (detect_emotion_work_not_blank self text Hblank)
        as (work & works & Hwork & _).
      rewrite Hwork in Hnone. discriminate.
    + intros Hblank. now rewrite Hdefault.
Qed.

Lemma C4_blank_text_witness :
  blank blank_text = true
  /\ EmotionDetector.detect_emotion broken_detector blank_text
     = Ok default_detection
  /\ EmotionDetector.detect_emotion_work broken_detector blank_text
     = (Ok default_detection, []).
Proof.
  split; [reflexivity|].
  apply (proj1 (C4_blank_text_gives_default broken_detector blank_text)).
  reflexivity.
Defined.

Example text_sets_the_model_to_work :
  EmotionDetector.detect_emotion_work broken_detector "I feel anxious"
  = (Ok {| EmotionDetector.emotion := "fear";
           EmotionDetector.confidence := 0.9%float;
           EmotionDetector.method := "keywords";
           EmotionDetector.all_emotions := None |},
     [EmotionDetector.ModelRun "I feel anxious";
      EmotionDetector.KeywordScan "I feel anxious"]).
Proof. vm_compute. reflexivity. Qed.

(** ** Floats *)

Lemma SFleb_not_SFltb (x y : spec_float) :
  SFleb x y = true -> SFltb y x = false.
Proof.
  unfold SFleb, SFltb.
  destruct x as [sx| sx | |sx mx ex], y as [sy|sy| |sy my ey]; cbn;
    try discriminate; try reflexivity;
    try (destruct sx; try destruct sy; cbn; (discriminate || reflexivity)).
  all: try (destruct sy; cbn; (discriminate || reflexivity)).
  all: destruct sx, sy; cbn; try discriminate; try reflexivity.
  all: rewrite (Z.compare_antisym ey ex);
      destruct (ey ?= ex)%Z eqn:E; cbn; try discriminate; try reflexivity.
  all: assert (Hc : Pos.compare_cont Eq mx my = CompOpp (Pos.compare_cont Eq my mx))
      by (rewrite Pos.compare_cont_antisym; reflexivity);
    rewrite Hc; destruct (Pos.compare_cont Eq my mx); cbn;
    (discriminate || reflexivity).
Qed.

(** [a <= c] excludes [c < a], for all binary64 numbers. *)
Lemma leb_not_ltb (a c : float) :
  PrimFloat.leb a c = true -> PrimFloat.ltb c a = false.
Proof.
  rewrite FloatAxioms.leb_spec, FloatAxioms.ltb_spec. apply SFleb_not_SFltb.
Qed.

(** ** The handlers' monad *)

Lemma messages_after_draw (w : World) : messages (after_draw w) = messages w.
Proof.
  unfold after_draw, next_raw. destruct (rng w); reflexivity.
Qed.

Lemma random_random_run (w : World) :
  random_random w = (Ok (next_random w), after_draw w).
Proof.
  unfold next_random, after_draw, random_random.
  destruct (next_raw w); reflexivity.
Qed.

Lemma random_choice_run {A} (x : A) (xs : list A) (w : World) :
  random_choice (x :: xs) w = (Ok (chosen (x :: xs) x w), after_draw w).
Proof.
  unfold random_choice, chosen, after_draw. destruct (next_raw w); reflexivity.
Qed.

Lemma chosen_in {A} (x : A) (xs : list A) (w : World) :
  In (chosen (x :: xs) x w) (x :: xs).
Proof.
  unfold chosen. apply nth_In.
  set (len := List.length (x :: xs)).
  assert (Hlen : N.of_nat len <> 0%N) by (subst len; cbn; lia).
  pose proof (N.mod_upper_bound (fst (next_raw w)) _ Hlen). lia.
Qed.

(** Every element of a sequence can be picked by [random.choice]: it picks
    the element at index [i] when the generator gives [i]. *)
Lemma random_choice_any {A} (xs : list A) (i : nat) (d : A) (sent : list json) :
  i < List.length xs ->
  fst (random_choice xs {| messages := sent; rng := [N.of_nat i] |})
  = Ok (nth i xs d).
Proof.
  intros Hi. destruct xs as [|x xs]; [cbn in Hi; lia|].
  rewrite random_choice_run. unfold chosen. cbn [fst next_raw rng].
  rewrite N.mod_small by lia. rewrite Nat2N.id.
  f_equal. now apply nth_indep.
Qed.

Lemma returns_ret {A} (a : A) (Q : A -> Prop) : Q a -> returns (ret a) Q.
Proof. intros H w. exists a, w. auto. Qed.

Lemma returns_bind {A B} (m : M A) (k : A -> M B) (P : A -> Prop)
  (Q : B -> Prop) :
  returns m P -> (forall a, P a -> returns (k a) Q) -> returns (bind m k) Q.
Proof.
  intros Hm Hk w. destruct (Hm w) as (a & w1 & E & Ha).
  destruct (Hk a Ha w1) as (b & w2 & E' & Hb).
  exists b, w2. unfold bind. rewrite E. auto.
Qed.

Lemma returns_lift {A} (a : A) (Q : A -> Prop) : Q a -> returns (lift (Ok a)) Q.
Proof. intros H w. exists a, w. auto. Qed.

Lemma returns_utter (text : json) : returns (utter_message text) (fun _ => True).
Proof. intros w. eexists _, _. split; [reflexivity | exact I]. Qed.

Lemma returns_random : returns random_random (fun _ => True).
Proof. intros w. rewrite random_random_run. eauto. Qed.

Lemma returns_choice {A} (xs : list A) :
  xs <> [] -> returns (random_choice xs) (fun x => In x xs).
Proof.
  intros Hne w. destruct xs as [|x xs]; [contradiction|].
  rewrite random_choice_run. eexists _, _. split; [reflexivity|].
  apply chosen_in.
Qed.

(** A [try] whose handler always returns, returns. *)
Lemma returns_try (body : M unit) (handler : exn -> M unit) :
  (forall e, returns (handler e) (fun _ => True)) ->
  returns (try_except body handler) (fun _ => True).
Proof.
  intros Hh w. unfold try_except.
  destruct (body w) as [[a|e] w1].
  - exists a, w1. auto.
  - apply Hh.
Qed.

Lemma returns_weaken {A} (m : M A) (P Q : A -> Prop) :
  returns m P -> (forall a, P a -> Q a) -> returns m Q.
Proof.
  intros Hm HPQ w. destruct (Hm w) as (a & w' & E & Ha). eauto.
Qed.

Lemma returns_choice_any {A} (xs : list A) :
  xs <> [] -> returns (random_choice xs) (fun _ => True).
Proof.
  intros Hne. eapply returns_weaken; [now apply returns_choice | auto].
Qed.

Create HintDb returns.
#[local] Hint Resolve returns_ret returns_lift returns_utter returns_random
  returns_choice_any : returns.

(** One step of a sequence whose first computation returns: what it returns
    is named and the rest of the sequence is left to prove. *)
Ltac returns_step :=
  apply (returns_bind _ _ (fun _ => True)); [auto with returns | intros ? _].

(** ** The response tables *)

Lemma therapy_lists_nonempty (emotion : string) (techniques : list string) :
  dict_lookup THERAPY_TECHNIQUES emotion = Some techniques -> techniques <> [].
Proof.
  unfold THERAPY_TECHNIQUES. cbn [dict_lookup].
  repeat match goal with
         | |- context [(emotion =? ?k)%string] => destruct (emotion =? k)%string
         end;
    intros [= <-]; discriminate.
Qed.

Lemma empathetic_lists_nonempty (emotion : string) (responses : list string) :
  dict_lookup EMPATHETIC_RESPONSES emotion = Some responses -> responses <> [].
Proof.
  unfold EMPATHETIC_RESPONSES. cbn [dict_lookup].
  repeat match goal with
         | |- context [(emotion =? ?k)%string] => destruct (emotion =? k)%string
         end;
    intros [= <-]; discriminate.
Qed.

Lemma dict_contains_lookup {V} (d : dict V) (k : string) :
  dict_contains d k = true -> exists v, dict_lookup d k = Some v.
Proof.
  unfold dict_contains. destruct (dict_lookup d k); [eauto | discriminate].
Qed.

(** ** [ActionProcessMessage.run] with a confident intent *)

Lemma process_message_confident (detector : EmotionDetector.t)
  (api : api_outcome) (tracker : Tracker.t) (w : World)
  (detection : EmotionDetector.Detection) :
  EmotionDetector.detect_emotion detector (user_text tracker) = Ok detection ->
  PrimFloat.ltb (intent_confidence tracker) 0.3 = false ->
  ActionProcessMessage.run detector api tracker w
  = (Ok [SlotSet "detected_emotion" (EmotionDetector.emotion detection)], w).
Proof.
  intros Hdet Hconf. unfold ActionProcessMessage.run.
  fold (user_text tracker). rewrite Hdet.
  unfold bind, lift.
  replace (get_or match Tracker.intent (Tracker.latest_message tracker) with
                  | Some i => Tracker.confidence i
                  | None => None
                  end 0.0%float)
    with (intent_confidence tracker)
    by (unfold intent_confidence;
        destruct (Tracker.intent (Tracker.latest_message tracker)); reflexivity).
  rewrite Hconf. reflexivity.
Qed.

(** C8: in every turn whose intent confidence is at least 0.3 the
    ProcessMessage handler emits no message and returns exactly one event,
    the update of the "detected_emotion" slot with the detected emotion;
    the dispatcher and the random generator are left as they were. *)
Theorem C8_confident_intent_only_sets_slot (detector : EmotionDetector.t)
  (api : api_outcome) (tracker : Tracker.t) (w : World) :
  PrimFloat.leb 0.3 (intent_confidence tracker) = true ->
  exists detection,
    EmotionDetector.detect_emotion detector (user_text tracker) = Ok detection
    /\ ActionProcessMessage.run detector api tracker w
       = (Ok [SlotSet "detected_emotion" (EmotionDetector.emotion detection)], w).
Proof.
  intros Hconf.
  destruct (detect_emotion_returns detector (user_text tracker))
    as (detection & Hdet).
  exists detection. split; [exact Hdet|].
  apply process_message_confident; [exact Hdet|].
  now apply leb_not_ltb.
Qed.

Lemma C8_confident_intent_witness :
  PrimFloat.leb 0.3 (intent_confidence confident_sad_tracker) = true
  /\ exists detection,
      EmotionDetector.detect_emotion keyword_detector
        (user_text confident_sad_tracker) = Ok detection
      /\ ActionProcessMessage.run keyword_detector
           (PostRaises RequestException) confident_sad_tracker remote_world
         = (Ok [SlotSet "detected_emotion" (EmotionDetector.emotion detection)],
            remote_world).
Proof.
  split; [reflexivity|].
  apply (C8_confident_intent_only_sets_slot keyword_detector
           (PostRaises RequestException) confident_sad_tracker remote_world).
  reflexivity.
Defined.

Example process_message_at_the_threshold :
  ActionProcessMessage.run keyword_detector (PostRaises RequestException)
    threshold_sad_tracker remote_world
  = (Ok [SlotSet "detected_emotion" "sadness"], remote_world).
Proof. vm_compute. reflexivity. Qed.

(** ** [ActionSuggestCopingStrategy.run] *)

Lemma coping_emotion_canonical (slot : option string) :
  In (coping_emotion slot) canonical_labels.
Proof.
  unfold coping_emotion, canonical_labels.
  destruct slot as [stored|]; [|cbn; tauto].
  repeat match goal with
         | |- context [if ?b then _ else _] => destruct b eqn:?
         end; try (cbn; tauto).
  match goal with
  | H : Py.in_list stored _ = true |- _ =>
      unfold Py.in_list in H; apply existsb_exists in H;
      destruct H as (x & Hin & Heq)
  end.
  apply String.eqb_eq in Heq. now subst x.
Qed.

(** The normalization of the code is the specification's. *)
Lemma coping_normalization (slot : option string) :
  (let current_emotion :=
     match slot with
     | Some value => if Py.falsy value then "neutral" else value
     | None => "neutral"
     end in
   let mapped_emotion :=
     dict_get ActionSuggestCopingStrategy.emotion_mapping
       current_emotion current_emotion in
   if negb (dict_contains THERAPY_TECHNIQUES mapped_emotion)
   then "neutral"
   else mapped_emotion)
  = coping_emotion slot.
Proof.
  destruct slot as [stored|]; [|reflexivity].
  cbv zeta. unfold Py.falsy.
  destruct (String.eqb_spec stored "") as [->|_]; [reflexivity|].
  unfold coping_emotion, dict_get, dict_contains, Py.in_list,
    ActionSuggestCopingStrategy.emotion_mapping, THERAPY_TECHNIQUES,
    canonical_labels.
  cbn [dict_lookup existsb].
  repeat match goal with
         | |- context [(stored =? ?k)%string] =>
             destruct (String.eqb_spec stored k) as [->|?]; [reflexivity|]
         end.
  reflexivity.
Qed.

Lemma coping_intro_ladder (emotion : string) :
  (if (emotion =? "sadness")%string
   then "When you're feeling down, it can help to:"
   else if (emotion =? "anger")%string
   then "To manage feelings of frustration or anger, you might try:"
   else if (emotion =? "fear")%string
   then "When anxiety or fear arises, this technique can be helpful:"
   else if (emotion =? "joy")%string
   then "To build on these positive feelings, consider:"
   else "Here's a helpful technique you might want to try:")
  = coping_intro emotion.
Proof.
  unfold coping_intro. cbn [dict_lookup].
  repeat match goal with
         | |- context [(emotion =? ?k)%string] => destruct (emotion =? k)%string
         end; reflexivity.
Qed.

(** What the handler does, for every tracker and world. *)
Lemma suggest_coping_strategy_run (tracker : Tracker.t) (w : World) :
  exists technique techniques,
    dict_lookup THERAPY_TECHNIQUES
      (coping_emotion (Tracker.get_slot tracker "detected_emotion"))
    = Some (technique :: techniques)
    /\ ActionSuggestCopingStrategy.run tracker w
       = (Ok [],
          {| messages :=
               messages w
               ++ [JStr (coping_intro
                           (coping_emotion (Tracker.get_slot tracker "detected_emotion"))
                         ++ nl ++ nl
                         ++ chosen (technique :: techniques) technique w)%string];
             rng := rng (after_draw w) |}).
Proof.
  set (slot := Tracker.get_slot tracker "detected_emotion").
  destruct (canonical_in_tables _ (coping_emotion_canonical slot)) as [Hth _].
  destruct (dict_contains_lookup _ _ Hth) as (techniques & Hlookup).
  destruct techniques as [|technique techniques];
    [now apply therapy_lists_nonempty in Hlookup|].
  exists technique, techniques. split; [exact Hlookup|].
  unfold ActionSuggestCopingStrategy.run. fold slot.
  pose proof (coping_normalization slot) as Hnorm. cbv zeta in Hnorm |- *.
  rewrite Hnorm. rewrite coping_intro_ladder.
  unfold bind, lift, dict_getitem. rewrite Hlookup.
  rewrite random_choice_run. unfold utter_message, ret.
  rewrite messages_after_draw. reflexivity.
Qed.

(** C9: synonym normalization in the coping-strategy handler is total. Every
    synonym (sad, angry, anxious, afraid, happy, excited) maps to a label
    that is a key of both response tables; a missing slot and an
    unrecognized label give neutral; and for every stored slot value the
    handler raises nothing and emits one message, the introduction fixed by
    the normalized emotion followed by one technique of that emotion's
    list. *)
Theorem C9_coping_strategy_normalization_total :
  (forall synonym, In synonym synonyms ->
     exists label,
       dict_lookup ActionSuggestCopingStrategy.emotion_mapping synonym = Some label
       /\ coping_emotion (Some synonym) = label
       /\ dict_contains THERAPY_TECHNIQUES label = true
       /\ dict_contains EMPATHETIC_RESPONSES label = true)
  /\ coping_emotion None = "neutral"
  /\ (forall stored, ~ In stored (synonyms ++ canonical_labels) ->
        coping_emotion (Some stored) = "neutral")
  /\ (forall (tracker : Tracker.t) (w : World),
        exists techniques technique w',
          let emotion := coping_emotion (Tracker.get_slot tracker "detected_emotion") in
          dict_lookup THERAPY_TECHNIQUES emotion = Some techniques
          /\ In technique techniques
          /\ ActionSuggestCopingStrategy.run tracker w = (Ok [], w')
          /\ messages w'
             = messages w
               ++ [JStr (coping_intro emotion ++ nl ++ nl ++ technique)%string]).
Proof.
  split; [|split; [|split]].
  - intros synonym H. cbn in H.
    repeat (destruct H as [<-|H]; [eexists; repeat split; reflexivity|]).
    contradiction.
  - reflexivity.
  - intros stored Hnot. unfold coping_emotion, Py.in_list, canonical_labels.
    cbn [existsb].
    repeat match goal with
           | |- context [(stored =? ?k)%string] =>
               destruct (String.eqb_spec stored k) as [->|?];
               [exfalso; apply Hnot; cbn; tauto|]
           end.
    reflexivity.
  - intros tracker w.
    destruct (suggest_coping_strategy_run tracker w)
      as (technique & techniques & Hlookup & Hrun).
    eexists _, _, _. cbv zeta.
    split; [exact Hlookup|]. split; [apply chosen_in|].
    split; [exact Hrun|]. reflexivity.
Qed.

Example coping_strategy_for_sad_slot :
  ActionSuggestCopingStrategy.run sad_tracker remote_world
  = (Ok [],
     {| messages :=
          [JStr ("When you're feeling down, it can help to:" ++ nl ++ nl
                 ++ "Practice self-compassion by treating yourself with the same kindness you'd offer to a friend.")%string];
        rng := [7%N; 3%N] |}).
Proof. vm_compute. reflexivity. Qed.

(** C10: for every stored slot value the SuggestCopingStrategy handler
    returns the empty event list: it sends its message through the
    dispatcher and updates no slot, so the normalized emotion is never
    written back to "detected_emotion". *)
Theorem C10_coping_strategy_returns_no_event (tracker : Tracker.t) (w : World) :
  fst (ActionSuggestCopingStrategy.run tracker w) = Ok []
  /\ forall key value events,
      fst (ActionSuggestCopingStrategy.run tracker w) = Ok events ->
      ~ In (SlotSet key value) events.
Proof.
  destruct (suggest_coping_strategy_run tracker w)
    as (technique & techniques & _ & Hrun).
  rewrite Hrun. split; [reflexivity|].
  intros key value events [= <-] [].
Qed.

(** ** The remote-fallback policy *)

(** The fallback of [_call_fallback_api]: one predefined response of the
    emotion is chosen and sent. *)
Lemma emit_fallback_run (emotion response : string) (responses : list string)
  (w : World) :
  dict_lookup EMPATHETIC_RESPONSES emotion = Some (response :: responses) ->
  bind (lift (dict_getitem EMPATHETIC_RESPONSES emotion))
    (fun responses =>
       bind (random_choice responses)
         (fun fallback_response => utter_message (JStr fallback_response))) w
  = (Ok tt,
     {| messages := messages w ++ [JStr (chosen (response :: responses) response w)];
        rng := rng (after_draw w) |}).
Proof.
  intros Hlookup. unfold bind, lift, dict_getitem. rewrite Hlookup.
  rewrite random_choice_run. unfold utter_message.
  now rewrite messages_after_draw.
Qed.

Lemma returns_emit_fallback (emotion : string) :
  dict_contains EMPATHETIC_RESPONSES emotion = true ->
  returns
    (bind (lift (dict_getitem EMPATHETIC_RESPONSES emotion))
       (fun responses =>
          bind (random_choice responses)
            (fun fallback_response => utter_message (JStr fallback_response))))
    (fun _ => True).
Proof.
  intros Hin w. destruct (dict_contains_lookup _ _ Hin) as (responses & Hlookup).
  destruct responses as [|response responses];
    [now apply empathetic_lists_nonempty in Hlookup|].
  rewrite (emit_fallback_run _ _ _ _ Hlookup). eauto.
Qed.

(** For an emotion of the empathetic table, every branch of
    [_call_fallback_api] returns the slot update and raises nothing. *)
Lemma call_fallback_api_returns (api : api_outcome) (message emotion : string) :
  dict_contains EMPATHETIC_RESPONSES emotion = true ->
  returns (ActionProcessMessage._call_fallback_api api message emotion)
    (fun events => events = [SlotSet "detected_emotion" emotion]).
Proof.
  intros Hin. unfold ActionProcessMessage._call_fallback_api.
  returns_step. rewrite Hin, andb_true_r.
  destruct (PrimFloat.ltb _ 0.7).
  - destruct (dict_contains_lookup _ _ Hin) as (responses & Hlookup).
    pose proof (empathetic_lists_nonempty _ _ Hlookup) as Hne.
    unfold dict_getitem at 1. rewrite Hlookup.
    apply (returns_bind _ _ (fun a => a = responses)); [auto with returns|].
    intros ? ->. returns_step.
    apply (returns_bind _ _ (fun _ => True)).
    + destruct (Py.in_list emotion ["sadness"; "anger"; "fear"]) eqn:Hnegative;
        [|auto with returns].
      returns_step. destruct (PrimFloat.ltb _ 0.5); [|auto with returns].
      assert (Hth : dict_contains THERAPY_TECHNIQUES emotion = true).
      { apply canonical_in_tables. unfold Py.in_list in Hnegative.
        apply existsb_exists in Hnegative.
        destruct Hnegative as (x & Hx & Heq). apply String.eqb_eq in Heq.
        rewrite Heq. unfold canonical_labels. cbn [In] in Hx |- *. tauto. }
      destruct (dict_contains_lookup _ _ Hth) as (techniques & Hlookup').
      pose proof (therapy_lists_nonempty _ _ Hlookup') as Hne'.
      unfold dict_getitem. rewrite Hlookup'.
      apply (returns_bind _ _ (fun a => a = techniques)); [auto with returns|].
      intros ? ->. returns_step. auto with returns.
    + intros response' _. returns_step. auto with returns.
  - apply (returns_bind _ _ (fun _ => True)).
    + apply returns_try. intros _. now apply returns_emit_fallback.
    + intros _ _. auto with returns.
Qed.

Lemma else_branch_run (emotion response : string) (responses : list string)
  (data : json) (w : World) :
  dict_lookup EMPATHETIC_RESPONSES emotion = Some (response :: responses) ->
  bind (lift (dict_getitem EMPATHETIC_RESPONSES emotion))
    (fun responses =>
       bind (random_choice responses)
         (fun fallback_response =>
            bind (utter_message (JStr fallback_response))
              (fun _ =>
                 bind (lift (json_get data "error" (JStr "Unknown error")))
                   (fun _ => ret tt)))) w
  = (match data with
     | JObj _ => Ok tt
     | _ => Raise AttributeError
     end,
     {| messages := messages w ++ [JStr (chosen (response :: responses) response w)];
        rng := rng (after_draw w) |}).
Proof.
  intros Hlookup. unfold bind, lift, dict_getitem. rewrite Hlookup.
  rewrite random_choice_run. unfold utter_message.
  rewrite messages_after_draw. destruct data; reflexivity.
Qed.

(** The low-confidence path of [ActionProcessMessage.run] is
    [_call_fallback_api] on the user's text and the detected emotion. *)
Lemma process_message_unsure (detector : EmotionDetector.t)
  (api : api_outcome) (tracker : Tracker.t) (w : World)
  (detection : EmotionDetector.Detection) :
  EmotionDetector.detect_emotion detector (user_text tracker) = Ok detection ->
  PrimFloat.ltb (intent_confidence tracker) 0.3 = true ->
  ActionProcessMessage.run detector api tracker w
  = ActionProcessMessage._call_fallback_api api (user_text tracker)
      (EmotionDetector.emotion detection) w.
Proof.
  intros Hdet Hconf. unfold ActionProcessMessage.run.
  fold (user_text tracker). rewrite Hdet.
  unfold bind at 1, lift at 1.
  replace (get_or match Tracker.intent (Tracker.latest_message tracker) with
                  | Some i => Tracker.confidence i
                  | None => None
                  end 0.0%float)
    with (intent_confidence tracker)
    by (unfold intent_confidence;
        destruct (Tracker.intent (Tracker.latest_message tracker)); reflexivity).
  rewrite Hconf. reflexivity.
Qed.

(** For an emotion of the empathetic table, every branch of
    [ActionProcessMessage.run] returns the slot update. *)
Lemma process_message_returns (detector : EmotionDetector.t)
  (api : api_outcome) (tracker : Tracker.t) (w : World)
  (detection : EmotionDetector.Detection) :
  EmotionDetector.detect_emotion detector (user_text tracker) = Ok detection ->
  dict_contains EMPATHETIC_RESPONSES (EmotionDetector.emotion detection) = true ->
  fst (ActionProcessMessage.run detector api tracker w)
  = Ok [SlotSet "detected_emotion" (EmotionDetector.emotion detection)].
Proof.
  intros Hdet Hin.
  destruct (PrimFloat.ltb (intent_confidence tracker) 0.3) eqn:Hconf.
  - rewrite (process_message_unsure _ _ _ _ _ Hdet Hconf).
    destruct (call_fallback_api_returns api (user_text tracker) _ Hin w)
      as (events & w' & -> & ->).
    reflexivity.
  - now rewrite (process_message_confident _ _ _ _ _ Hdet Hconf).
Qed.

(** Every branch of [ActionFallbackAPI.run] returns the slot update, for
    every emotion. *)
Lemma fallback_api_returns (detector : EmotionDetector.t)
  (api : api_outcome) (tracker : Tracker.t)
  (detection : EmotionDetector.Detection) :
  EmotionDetector.detect_emotion detector (user_text tracker) = Ok detection ->
  returns (ActionFallbackAPI.run detector api tracker)
    (fun events =>
       events = [SlotSet "detected_emotion" (EmotionDetector.emotion detection)]).
Proof.
  intros Hdet. unfold ActionFallbackAPI.run. fold (user_text tracker).
  rewrite Hdet.
  apply (returns_bind _ _ (fun a => a = detection)); [auto with returns|].
  intros ? ->. returns_step.
  destruct (PrimFloat.ltb _ 0.7
            && dict_contains EMPATHETIC_RESPONSES (EmotionDetector.emotion detection))
    eqn:Hpredefined.
  - apply andb_prop in Hpredefined as [_ Hin].
    destruct (dict_contains_lookup _ _ Hin) as (responses & Hlookup).
    pose proof (empathetic_lists_nonempty _ _ Hlookup) as Hne.
    unfold dict_getitem. rewrite Hlookup.
    apply (returns_bind _ _ (fun a => a = responses)); [auto with returns|].
    intros ? ->. returns_step. returns_step. auto with returns.
  - apply (returns_bind _ _ (fun _ => True)).
    + apply returns_try. intros _. apply returns_utter.
    + intros _ _. auto with returns.
Qed.

(** For an emotion outside the empathetic table a failed remote call ends in
    a [KeyError]: the fallback of the [try] body and the one of the
    [except] clause both index the table with the emotion. *)
Lemma call_fallback_api_unrecognized (api : api_outcome)
  (message emotion : string) (w : World) :
  dict_contains EMPATHETIC_RESPONSES emotion = false ->
  remote_failed api = true ->
  fst (ActionProcessMessage._call_fallback_api api message emotion w)
  = Raise KeyError.
Proof.
  intros Hout Hfail.
  assert (Hlookup : dict_getitem EMPATHETIC_RESPONSES emotion = Raise KeyError).
  { unfold dict_getitem. unfold dict_contains in Hout.
    destruct (dict_lookup EMPATHETIC_RESPONSES emotion);
      [discriminate | reflexivity]. }
  unfold ActionProcessMessage._call_fallback_api.
  unfold bind at 1. rewrite random_random_run, Hout, andb_false_r.
  unfold bind at 1. unfold try_except. rewrite Hlookup.
  destruct api as [e | status_code [data | e]].
  - reflexivity.
  - unfold bind at 1, lift at 1.
    destruct (status_code =? 200)%Z eqn:Hstatus;
      [destruct (json_contains "choices" data) as [[|]|e] eqn:Hchoices|].
    + unfold remote_failed in Hfail. rewrite Hstatus, Hchoices in Hfail.
      discriminate.
    + reflexivity.
    + reflexivity.
    + reflexivity.
  - reflexivity.
Qed.

(** For each canonical label every branch of [_call_fallback_api] completes
    and raises nothing. *)
Corollary call_fallback_api_canonical (api : api_outcome)
  (message emotion : string) :
  In emotion canonical_labels ->
  returns (ActionProcessMessage._call_fallback_api api message emotion)
    (fun events => events = [SlotSet "detected_emotion" emotion]).
Proof.
  intros H. apply call_fallback_api_returns. now apply canonical_in_tables.
Qed.

(** C1 (the code does not meet the claim): the learned model can give a
    label outside the five canonical ones, here "surprise"; when the remote
    call then fails, [_call_fallback_api] does not fall back to the neutral
    table: it indexes [EMPATHETIC_RESPONSES] with the label and the
    [KeyError] leaves the handler. *)
Theorem C1_fallback_api_raises_on_unrecognized_label :
  (exists detection,
      EmotionDetector.detect_emotion surprise_detector
        (user_text surprised_tracker) = Ok detection
      /\ EmotionDetector.emotion detection = "surprise")
  /\ ~ In "surprise" canonical_labels
  /\ (forall (api : api_outcome) (message : string) (w : World),
         remote_failed api = true ->
         fst (ActionProcessMessage._call_fallback_api api message "surprise" w)
         = Raise KeyError)
  /\ (forall w : World,
         fst (ActionProcessMessage.run surprise_detector
                (PostRaises RequestException) surprised_tracker w)
         = Raise KeyError).
Proof.
  split; [eexists; split; reflexivity|].
  split.
  { cbn. intros H. repeat (destruct H as [H|H]; [discriminate H|]). exact H. }
  split.
  - intros api message w Hfail.
    now apply call_fallback_api_unrecognized.
  - intros w.
    rewrite (process_message_unsure surprise_detector _ surprised_tracker w
               _ eq_refl eq_refl).
    now apply call_fallback_api_unrecognized.
Qed.

(** *** The remote call, end by end *)

(** The subscripts [data["choices"][0]["message"]["content"]] succeed
    exactly on a completion with a content. *)
Lemma completion_subscripts (data : json) :
  match completion_content data with
  | Some content =>
      (choices <- json_getitem data "choices" ;;
       choice <- json_first choices ;;
       message <- json_getitem choice "message" ;;
       json_getitem message "content")%result = Ok content
  | None =>
      exists e,
        (choices <- json_getitem data "choices" ;;
         choice <- json_first choices ;;
         message <- json_getitem choice "message" ;;
         json_getitem message "content")%result = Raise e
  end.
Proof.
  unfold completion_content.
  destruct data as [| | | |items|fields]; cbn [json_getitem rbind];
    try (eexists; reflexivity).
  unfold dict_getitem.
  destruct (dict_lookup fields "choices") as [choices|]; cbn [rbind];
    [|eexists; reflexivity].
  destruct choices as [| | |s|items|fields']; cbn [json_first rbind];
    try (eexists; reflexivity).
  - destruct s; cbn [rbind json_getitem]; eexists; reflexivity.
  - destruct items as [|choice items]; cbn [rbind]; [eexists; reflexivity|].
    destruct choice as [| | | |items'|choice]; cbn [json_getitem rbind];
      try (eexists; reflexivity).
    unfold dict_getitem.
    destruct (dict_lookup choice "message") as [message|]; cbn [rbind];
      [|eexists; reflexivity].
    destruct message as [| | | |items'|message]; cbn [json_getitem];
      try (eexists; reflexivity).
    unfold dict_getitem.
    destruct (dict_lookup message "content"); [reflexivity|].
    eexists; reflexivity.
Qed.

Lemma random_random_attempt (w : World) (emotion : string) :
  remote_attempted w emotion = true ->
  PrimFloat.ltb (next_random w) 0.7
  && dict_contains EMPATHETIC_RESPONSES emotion = false.
Proof. unfold remote_attempted. apply negb_true_iff. Qed.

(** The FallbackAPI handler when it attempts the remote call: one random
    draw, and the messages of the end the call took. *)
Lemma fallback_api_attempted_run (detector : EmotionDetector.t)
  (api : api_outcome) (tracker : Tracker.t) (w : World)
  (detection : EmotionDetector.Detection) :
  EmotionDetector.detect_emotion detector (user_text tracker) = Ok detection ->
  remote_attempted w (EmotionDetector.emotion detection) = true ->
  ActionFallbackAPI.run detector api tracker w
  = (Ok [SlotSet "detected_emotion" (EmotionDetector.emotion detection)],
     {| messages := messages w ++ fallback_api_messages (remote_path_of api);
        rng := rng (after_draw w) |}).
Proof.
  intros Hdet Hattempt. apply random_random_attempt in Hattempt.
  unfold ActionFallbackAPI.run. fold (user_text tracker). rewrite Hdet.
  unfold bind at 1, lift at 1.
  unfold bind at 1. rewrite random_random_run, Hattempt.
  unfold bind at 1. unfold try_except.
  rewrite <- (messages_after_draw w). set (w1 := after_draw w).
  destruct api as [e | status_code [data | e]]; [reflexivity| |reflexivity].
  unfold remote_path_of. unfold bind at 1, lift at 1.
  destruct (status_code =? 200)%Z;
    [destruct (json_contains "choices" data) as [[|]|e]|].
  - unfold bind at 1, lift at 1. unfold bind at 1, lift at 1.
    pose proof (completion_subscripts data) as Hcontent.
    destruct (completion_content data) as [content|].
    + rewrite Hcontent. reflexivity.
    + destruct Hcontent as [e He]. rewrite He. reflexivity.
  - unfold bind, lift, ret, utter_message.
    destruct data; cbn [json_get fallback_api_messages messages rng];
      rewrite <- ?app_assoc; reflexivity.
  - reflexivity.
  - unfold bind, lift, ret, utter_message.
    destruct data; cbn [json_get fallback_api_messages messages rng];
      rewrite <- ?app_assoc; reflexivity.
Qed.

Lemma chosen_default {A} (x : A) (xs : list A) (d d' : A) (w : World) :
  chosen (x :: xs) d w = chosen (x :: xs) d' w.
Proof.
  unfold chosen. apply nth_indep.
  pose proof (N.mod_upper_bound (fst (next_raw w))
                (N.of_nat (List.length (x :: xs))) ltac:(cbn; lia)).
  lia.
Qed.

(** One predefined response picked and sent, as a step of the monad. *)
Lemma send_predefined_run (emotion : string) (responses : list string)
  (w : World) :
  dict_lookup EMPATHETIC_RESPONSES emotion = Some responses ->
  bind (lift (dict_getitem EMPATHETIC_RESPONSES emotion))
    (fun responses =>
       bind (random_choice responses)
         (fun fallback_response => utter_message (JStr fallback_response))) w
  = (Ok tt, send_predefined responses w).
Proof.
  intros Hlookup.
  destruct responses as [|response responses];
    [now apply empathetic_lists_nonempty in Hlookup|].
  rewrite (emit_fallback_run _ _ _ _ Hlookup). unfold send_predefined.
  now rewrite (chosen_default response responses response "").
Qed.

(** The FallbackAPI handler on its predefined branch: two random draws and
    one predefined response; the remote call is not made. *)
Lemma fallback_api_predefined_run (detector : EmotionDetector.t)
  (api : api_outcome) (tracker : Tracker.t) (w : World)
  (detection : EmotionDetector.Detection) (responses : list string) :
  EmotionDetector.detect_emotion detector (user_text tracker) = Ok detection ->
  PrimFloat.ltb (next_random w) 0.7 = true ->
  dict_lookup EMPATHETIC_RESPONSES (EmotionDetector.emotion detection)
  = Some responses ->
  ActionFallbackAPI.run detector api tracker w
  = (Ok [SlotSet "detected_emotion" (EmotionDetector.emotion detection)],
     send_predefined responses (after_draw w)).
Proof.
  intros Hdet Hfloat Hlookup.
  unfold ActionFallbackAPI.run. fold (user_text tracker). rewrite Hdet.
  unfold bind at 1, lift at 1.
  unfold bind at 1. rewrite random_random_run, Hfloat.
  assert (Hin : dict_contains EMPATHETIC_RESPONSES
                  (EmotionDetector.emotion detection) = true)
    by (unfold dict_contains; now rewrite Hlookup).
  rewrite Hin. cbn [andb].
  pose proof (send_predefined_run _ _ (after_draw w) Hlookup) as Hsend.
  unfold bind in Hsend |- *. unfold lift in Hsend |- *.
  destruct (dict_getitem EMPATHETIC_RESPONSES (EmotionDetector.emotion detection))
    as [responses'|e]; [|discriminate Hsend].
  destruct (random_choice responses' (after_draw w)) as [[response|e] w2];
    [|discriminate Hsend].
  destruct (utter_message (JStr response) w2) as [[[]|e] w3];
    [|discriminate Hsend].
  injection Hsend as <-. reflexivity.
Qed.

Lemma else_branch_send (emotion : string) (responses : list string)
  (data : json) (w : World) :
  dict_lookup EMPATHETIC_RESPONSES emotion = Some responses ->
  bind (lift (dict_getitem EMPATHETIC_RESPONSES emotion))
    (fun responses =>
       bind (random_choice responses)
         (fun fallback_response =>
            bind (utter_message (JStr fallback_response))
              (fun _ =>
                 bind (lift (json_get data "error" (JStr "Unknown error")))
                   (fun _ => ret tt)))) w
  = (match data with
     | JObj _ => Ok tt
     | _ => Raise AttributeError
     end, send_predefined responses w).
Proof.
  intros Hlookup.
  destruct responses as [|response responses];
    [now apply empathetic_lists_nonempty in Hlookup|].
  rewrite (else_branch_run _ _ _ _ _ Hlookup). unfold send_predefined.
  now rewrite (chosen_default response responses response "").
Qed.

(** [_call_fallback_api] when it attempts the remote call, for each end of
    the call: an answer is passed on, for every emotion; every other end
    is answered from the predefined responses of the emotion, once, or
    twice when the handler fails after its first message. *)
Lemma call_fallback_api_attempted_run (api : api_outcome)
  (message emotion : string) (w : World) :
  remote_attempted w emotion = true ->
  match remote_path_of api with
  | Answered content =>
      ActionProcessMessage._call_fallback_api api message emotion w
      = (Ok [SlotSet "detected_emotion" emotion],
         {| messages := messages w ++ [content]; rng := rng (after_draw w) |})
  | RefusedThenFailed =>
      forall responses,
        dict_lookup EMPATHETIC_RESPONSES emotion = Some responses ->
        ActionProcessMessage._call_fallback_api api message emotion w
        = (Ok [SlotSet "detected_emotion" emotion],
           send_predefined responses
             (send_predefined responses (after_draw w)))
  | Refused | Failed =>
      forall responses,
        dict_lookup EMPATHETIC_RESPONSES emotion = Some responses ->
        ActionProcessMessage._call_fallback_api api message emotion w
        = (Ok [SlotSet "detected_emotion" emotion],
           send_predefined responses (after_draw w))
  end.
Proof.
  intros Hattempt. apply random_random_attempt in Hattempt.
  assert (Henter :
            forall api,
              ActionProcessMessage._call_fallback_api api message emotion w
              = bind
                  (try_except
                     (match api with
                      | PostRaises e => raise e
                      | Response status_code body =>
                          bind (lift body)
                            (fun data =>
                               bind (if (status_code =? 200)%Z
                                     then lift (json_contains "choices" data)
                                     else ret false)
                                 (fun success =>
                                    if success
                                    then
                                      bind
                                        (lift
                                           (choices <- json_getitem data "choices" ;;
                                            choice <- json_first choices ;;
                                            message <- json_getitem choice "message" ;;
                                            json_getitem message "content")%result)
                                        (fun ai_response => utter_message ai_response)
                                    else
                                      bind (lift (dict_getitem EMPATHETIC_RESPONSES emotion))
                                        (fun responses =>
                                           bind (random_choice responses)
                                             (fun fallback_response =>
                                                bind (utter_message (JStr fallback_response))
                                                  (fun _ =>
                                                     bind (lift (json_get data "error"
                                                                   (JStr "Unknown error")))
                                                       (fun _ => ret tt))))))
                      end)
                     (fun _ =>
                        bind (lift (dict_getitem EMPATHETIC_RESPONSES emotion))
                          (fun responses =>
                             bind (random_choice responses)
                               (fun fallback_response =>
                                  utter_message (JStr fallback_response)))))
                  (fun _ => ret [SlotSet "detected_emotion" emotion])
                  (after_draw w)).
  { intros api0. unfold ActionProcessMessage._call_fallback_api.
    unfold bind at 1. now rewrite random_random_run, Hattempt. }
  set (w1 := after_draw w) in *.
  destruct api as [e | status_code [data | e]]; cbn [remote_path_of].
  - intros responses Hlookup. rewrite Henter.
    unfold bind at 1. unfold try_except, raise.
    now rewrite (send_predefined_run _ _ _ Hlookup).
  - destruct (status_code =? 200)%Z eqn:Hstatus;
      [destruct (json_contains "choices" data) as [[|]|e] eqn:Hchoices|].
    + pose proof (completion_subscripts data) as Hcontent.
      destruct (completion_content data) as [content|].
      * rewrite Henter. unfold bind at 1. unfold try_except.
        unfold bind at 1, lift at 1. rewrite Hstatus, Hchoices.
        unfold bind at 1, lift at 1. unfold bind at 1, lift at 1.
        rewrite Hcontent. unfold utter_message, ret. subst w1.
        now rewrite messages_after_draw.
      * destruct Hcontent as [e He]. intros responses Hlookup.
        rewrite Henter. unfold bind at 1. unfold try_except.
        unfold bind at 1, lift at 1. rewrite Hstatus, Hchoices.
        unfold bind at 1, lift at 1. unfold bind at 1, lift at 1.
        rewrite He. now rewrite (send_predefined_run _ _ _ Hlookup).
    + destruct data; intros responses Hlookup;
        rewrite Henter; unfold bind at 1; unfold try_except;
        unfold bind at 1, lift at 1; rewrite Hstatus, Hchoices;
        unfold bind at 1, lift at 1;
        rewrite (else_branch_send _ _ _ _ Hlookup);
        try rewrite (send_predefined_run _ _ _ Hlookup); reflexivity.
    + intros responses Hlookup.
      rewrite Henter. unfold bind at 1. unfold try_except.
      unfold bind at 1, lift at 1. rewrite Hstatus, Hchoices.
      unfold bind at 1, lift at 1.
      now rewrite (send_predefined_run _ _ _ Hlookup).
    + destruct data; intros responses Hlookup;
        rewrite Henter; unfold bind at 1; unfold try_except;
        unfold bind at 1, lift at 1; rewrite Hstatus;
        unfold bind at 1, ret at 1;
        rewrite (else_branch_send _ _ _ _ Hlookup);
        try rewrite (send_predefined_run _ _ _ Hlookup); reflexivity.
  - intros responses Hlookup. rewrite Henter.
    unfold bind at 1. unfold try_except. unfold bind at 1, lift at 1.
    now rewrite (send_predefined_run _ _ _ Hlookup).
Qed.

(** A call fails exactly when it fails by an exception or by a result that
    is not a success, and then it takes the matching end. *)
Lemma failure_of_failed (api : api_outcome) :
  remote_failed api = true ->
  exists f,
    failure_of api = Some f
    /\ remote_path_of api
       = match f with
         | ByException => Failed
         | NonSuccess _ => if log_raises f then RefusedThenFailed else Refused
         end.
Proof.
  unfold remote_failed, failure_of, remote_path_of.
  destruct api as [e | status_code [data | e]]; intros Hfail;
    [eexists; split; reflexivity | | eexists; split; reflexivity].
  destruct (status_code =? 200)%Z;
    [destruct (json_contains "choices" data) as [[|]|e]|];
    try discriminate Hfail.
  - eexists. split; [reflexivity|]. now destruct data.
  - eexists. split; reflexivity.
  - eexists. split; [reflexivity|]. now destruct data.
Qed.



Example fallback_api_on_a_refusal :
  ActionFallbackAPI.run keyword_detector service_unavailable sad_tracker
    remote_world
  = (Ok [SlotSet "detected_emotion" "sadness"],
     {| messages := [JStr ActionFallbackAPI.rephrase_message]; rng := [7%N; 3%N] |}).
Proof. vm_compute. reflexivity. Qed.

Example fallback_api_on_a_timeout :
  ActionFallbackAPI.run keyword_detector (PostRaises RequestException)
    sad_tracker remote_world
  = (Ok [SlotSet "detected_emotion" "sadness"],
     {| messages := [JStr ActionFallbackAPI.trouble_message]; rng := [7%N; 3%N] |}).
Proof. vm_compute. reflexivity. Qed.

Example process_message_timeout_on_sadness :
  ActionProcessMessage.run keyword_detector (PostRaises RequestException)
    sad_tracker remote_world
  = (Ok [SlotSet "detected_emotion" "sadness"],
     {| messages :=
          [JStr "I'm sorry you're feeling this way. Would it help to talk more about what's troubling you?"];
        rng := [3%N] |}).
Proof. vm_compute. reflexivity. Qed.


(** * Further properties of the code *)

(** ** The classifier *)

Lemma canonical_labels_lower (label : string) :
  In label canonical_labels -> Py.lower label = label.
Proof.
  unfold canonical_labels. cbn [In].
  intros H. repeat (destruct H as [<-|H]; [reflexivity|]). contradiction.
Qed.

(** The result of the model path. *)
Lemma detect_emotion_flair_path (self : EmotionDetector.t)
  (model : string -> result (list EmotionDetector.Label)) (text : string)
  (label : EmotionDetector.Label) (labels : list EmotionDetector.Label) :
  blank text = false ->
  EmotionDetector.emotion_model self = Some model ->
  model text = Ok (label :: labels) ->
  EmotionDetector.detect_emotion self text
  = Ok {| EmotionDetector.emotion := Py.lower (EmotionDetector.value label);
          EmotionDetector.confidence := EmotionDetector.score label;
          EmotionDetector.method := "flair";
          EmotionDetector.all_emotions :=
            Some (map (fun l => (Py.lower (EmotionDetector.value l),
                                 EmotionDetector.score l))
                      (label :: labels)) |}.
Proof.
  intros Hblank Hmodel Hrun. unfold EmotionDetector.detect_emotion.
  rewrite blank_guard, Hblank, Hmodel, Hrun. reflexivity.
Qed.

(** The model path, when the model gives labels: the result is tagged
    "flair", carries the lower-cased value and the score of the first label,
    and lists every label of the model, in the model's order, each with its
    lower-cased value and its score; the first entry of the list is the
    result's own emotion and confidence. *)
Theorem flair_labels_give_the_flair_result (self : EmotionDetector.t)
  (model : string -> result (list EmotionDetector.Label)) (text : string)
  (label : EmotionDetector.Label) (labels : list EmotionDetector.Label) :
  blank text = false ->
  EmotionDetector.emotion_model self = Some model ->
  model text = Ok (label :: labels) ->
  exists detection ranked,
    EmotionDetector.detect_emotion self text = Ok detection
    /\ EmotionDetector.method detection = "flair"
    /\ EmotionDetector.emotion detection
       = Py.lower (EmotionDetector.value label)
    /\ EmotionDetector.confidence detection = EmotionDetector.score label
    /\ EmotionDetector.all_emotions detection = Some ranked
    /\ map fst ranked
       = map (fun l => Py.lower (EmotionDetector.value l)) (label :: labels)
    /\ map snd ranked = map EmotionDetector.score (label :: labels)
    /\ hd_error ranked
       = Some (EmotionDetector.emotion detection,
               EmotionDetector.confidence detection)
    /\ Forall (fun entry => Py.lower (fst entry) = fst entry) ranked.
Proof.
  intros Hblank Hmodel Hrun.
  eexists _, _. split.
  { exact (detect_emotion_flair_path self model text label labels
             Hblank Hmodel Hrun). }
  cbn [EmotionDetector.method EmotionDetector.emotion
       EmotionDetector.confidence EmotionDetector.all_emotions].
  repeat split.
  - now rewrite map_map.
  - now rewrite map_map.
  - apply Forall_forall. intros entry Hin. apply in_map_iff in Hin.
    destruct Hin as (l & <- & _). cbn [fst]. apply lower_idempotent.
Qed.

Lemma flair_labels_witness :
  exists detection ranked,
    EmotionDetector.detect_emotion ranking_detector "What just happened?"
    = Ok detection
    /\ EmotionDetector.method detection = "flair"
    /\ EmotionDetector.emotion detection = "surprise"
    /\ EmotionDetector.confidence detection = 0.6%float
    /\ EmotionDetector.all_emotions detection = Some ranked
    /\ map fst ranked = ["surprise"; "fear"; "joy"]
    /\ map snd ranked = [0.6%float; 0.3%float; 0.1%float]
    /\ hd_error ranked
       = Some (EmotionDetector.emotion detection,
               EmotionDetector.confidence detection)
    /\ Forall (fun entry => Py.lower (fst entry) = fst entry) ranked.
Proof.
  exact (flair_labels_give_the_flair_result ranking_detector
           (fun _ => Ok ranked_labels)
           "What just happened?" _ _ eq_refl eq_refl eq_refl).
Defined.

(** A loaded model that finds no label leaves the answer to the keyword
    path, like a model that fails. *)
Theorem model_without_labels_falls_through (self : EmotionDetector.t)
  (model : string -> result (list EmotionDetector.Label)) (text : string) :
  blank text = false ->
  EmotionDetector.emotion_model self = Some model ->
  model text = Ok [] ->
  EmotionDetector.detect_emotion self text
  = EmotionDetector.detect_emotion keyword_detector text
  /\ exists detection,
      EmotionDetector.detect_emotion self text = Ok detection
      /\ EmotionDetector.method detection = "keywords"
      /\ EmotionDetector.all_emotions detection = None.
Proof.
  intros Hblank Hmodel Hrun.
  destruct (detect_emotion_keyword_path self text Hblank)
    as (label & confidence & Hkw & Hdet);
    [rewrite Hmodel, Hrun; exact I|].
  destruct (detect_emotion_keyword_path keyword_detector text Hblank)
    as (label' & confidence' & Hkw' & Hdet'); [exact I|].
  rewrite Hkw in Hkw'. injection Hkw' as <- <-.
  split; [now rewrite Hdet, Hdet'|].
  eexists. split; [exact Hdet|]. split; reflexivity.
Qed.

Lemma model_without_labels_witness :
  EmotionDetector.detect_emotion
    {| EmotionDetector.emotion_model := Some (fun _ => Ok []) |} "I feel anxious"
  = EmotionDetector.detect_emotion keyword_detector "I feel anxious"
  /\ exists detection,
      EmotionDetector.detect_emotion
        {| EmotionDetector.emotion_model := Some (fun _ => Ok []) |}
        "I feel anxious" = Ok detection
      /\ EmotionDetector.method detection = "keywords"
      /\ EmotionDetector.all_emotions detection = None.
Proof.
  exact (model_without_labels_falls_through
           {| EmotionDetector.emotion_model := Some (fun _ => Ok []) |}
           (fun _ => Ok []) "I feel anxious" eq_refl eq_refl eq_refl).
Defined.

(** The path a detection took, as a case analysis that keeps the model's
    answer. *)
Lemma detect_emotion_paths (self : EmotionDetector.t) (text : string) :
  (blank text = true
   /\ EmotionDetector.detect_emotion self text = Ok default_detection)
  \/ (blank text = false
      /\ exists model label labels detection,
          EmotionDetector.emotion_model self = Some model
          /\ model text = Ok (label :: labels)
          /\ EmotionDetector.detect_emotion self text = Ok detection
          /\ EmotionDetector.method detection = "flair"
          /\ EmotionDetector.emotion detection
             = Py.lower (EmotionDetector.value label))
  \/ (blank text = false
      /\ (forall model label labels,
             EmotionDetector.emotion_model self = Some model ->
             model text <> Ok (label :: labels))
      /\ exists label confidence,
          EmotionDetector._detect_with_keywords text = Ok (label, confidence)
          /\ EmotionDetector.detect_emotion self text
             = Ok {| EmotionDetector.emotion := label;
                     EmotionDetector.confidence := confidence;
                     EmotionDetector.method := "keywords";
                     EmotionDetector.all_emotions := None |}).
Proof.
  destruct (blank text) eqn:Hblank.
  { left. split; [reflexivity|].
    unfold EmotionDetector.detect_emotion. now rewrite blank_guard, Hblank. }
  right.
  destruct (EmotionDetector.emotion_model self) as [model|] eqn:Hmodel.
  - destruct (model text) as [[|l ls]|e] eqn:Hrun.
    + right. split; [reflexivity|]. split.
      { intros model' l' ls' [= <-]. congruence. }
      apply (detect_emotion_keyword_path self text Hblank).
      rewrite Hmodel, Hrun. exact I.
    + left. split; [reflexivity|].
      pose proof (detect_emotion_flair_path self model text l ls
                    Hblank Hmodel Hrun) as Hdet.
      eexists model, l, ls, _.
      split; [reflexivity|]. split; [exact Hrun|]. split; [exact Hdet|].
      split; reflexivity.
    + right. split; [reflexivity|]. split.
      { intros model' l' ls' [= <-]. congruence. }
      apply (detect_emotion_keyword_path self text Hblank).
      rewrite Hmodel, Hrun. exact I.
  - right. split; [reflexivity|]. split; [discriminate|].
    apply (detect_emotion_keyword_path self text Hblank).
    rewrite Hmodel. exact I.
Qed.

(** The emotion label of every detection is lower-case, whatever the case of
    the model's labels: the keys of the response tables are lower-case. *)
Theorem detected_emotion_is_lower_case (self : EmotionDetector.t) (text : string) :
  exists detection,
    EmotionDetector.detect_emotion self text = Ok detection
    /\ Py.lower (EmotionDetector.emotion detection)
       = EmotionDetector.emotion detection.
Proof.
  destruct (detect_emotion_paths self text)
    as [[_ Hdet]
       | [(_ & model & l & ls & detection & _ & _ & Hdet & _ & Hemotion)
         | (_ & _ & label & confidence & Hkw & Hdet)]].
  - exists default_detection. split; [exact Hdet | reflexivity].
  - exists detection. split; [exact Hdet|].
    rewrite Hemotion. apply lower_idempotent.
  - eexists. split; [exact Hdet|].
    cbn [EmotionDetector.emotion]. apply canonical_labels_lower.
    eapply keyword_label_canonical. exact Hkw.
Qed.

(** The method tag of a detection tells the path that produced it:
    "default" exactly for a blank text, "flair" exactly when the text is not
    blank and the loaded model gave at least one label, "keywords" in every
    other case. *)
Theorem method_tag_tells_the_path (self : EmotionDetector.t) (text : string) :
  exists detection,
    EmotionDetector.detect_emotion self text = Ok detection
    /\ (EmotionDetector.method detection = "default" <-> blank text = true)
    /\ (EmotionDetector.method detection = "flair"
        <-> blank text = false
            /\ exists model label labels,
                EmotionDetector.emotion_model self = Some model
                /\ model text = Ok (label :: labels))
    /\ (EmotionDetector.method detection = "keywords"
        <-> blank text = false
            /\ forall model label labels,
                EmotionDetector.emotion_model self = Some model ->
                model text <> Ok (label :: labels)).
Proof.
  destruct (detect_emotion_paths self text)
    as [[Hblank Hdet]
       | [(Hblank & model & l & ls & detection & Hmodel & Hrun & Hdet
           & Hmethod & _)
         | (Hblank & Hnone & label & confidence & _ & Hdet)]].
  - exists default_detection. split; [exact Hdet|].
    cbn [EmotionDetector.method default_detection]. rewrite Hblank.
    repeat split; try discriminate; auto; intros [? _]; discriminate.
  - exists detection. split; [exact Hdet|]. rewrite Hmethod, Hblank.
    repeat split; try discriminate; auto.
    + eauto.
    + intros [_ H]. exfalso. exact (H _ _ _ Hmodel Hrun).
  - eexists. split; [exact Hdet|].
    cbn [EmotionDetector.method]. rewrite Hblank.
    repeat split; try discriminate; auto.
    intros [_ (model & l & ls & Hmodel & Hrun)].
    exfalso. exact (Hnone _ _ _ Hmodel Hrun).
Qed.

(** The keyword path does not see the case of the text: two texts with the
    same lower-casing get the same label and confidence, and so do a text
    and its lower-casing, also through [detect_emotion] when no model is
    loaded. *)
Theorem keyword_detection_ignores_case :
  (forall text text',
      Py.lower text = Py.lower text' ->
      EmotionDetector._detect_with_keywords text
      = EmotionDetector._detect_with_keywords text')
  /\ (forall text,
         EmotionDetector._detect_with_keywords (Py.lower text)
         = EmotionDetector._detect_with_keywords text)
  /\ (forall text,
         EmotionDetector.detect_emotion keyword_detector (Py.lower text)
         = EmotionDetector.detect_emotion keyword_detector text).
Proof.
  assert (Hsame : forall text text',
             Py.lower text = Py.lower text' ->
             EmotionDetector._detect_with_keywords text
             = EmotionDetector._detect_with_keywords text').
  { intros text text' H. unfold EmotionDetector._detect_with_keywords.
    cbv zeta. now rewrite H. }
  split; [exact Hsame|]. split.
  - intros text. apply Hsame. apply lower_idempotent.
  - intros text. unfold EmotionDetector.detect_emotion.
    rewrite !blank_guard, blank_lower.
    destruct (blank text); [reflexivity|].
    cbn [EmotionDetector.emotion_model keyword_detector rbind].
    now rewrite (Hsame (Py.lower text) text (lower_idempotent text)).
Qed.

Example shouting_is_heard_the_same :
  EmotionDetector.detect_emotion keyword_detector "I AM SO ANGRY AND FURIOUS"
  = EmotionDetector.detect_emotion keyword_detector "i am so angry and furious".
Proof. vm_compute. reflexivity. Qed.

(** The highest score bounds every score and is at most their sum. *)
Lemma highest_score_bounds (scores : dict nat) (m : nat) (label : string) :
  EmotionDetector.highest_score scores = (m, label) ->
  (forall e c, In (e, c) scores -> c <= m)
  /\ m <= list_sum (dict_values scores).
Proof.
  unfold EmotionDetector.highest_score. intros H.
  destruct (highest_from _ _ _ _ _ H)
    as [(-> & -> & Hall) | (before & count & after & -> & -> & Hc & Hb & Ha)].
  - split; [exact Hall | lia].
  - split.
    + intros e c Hin. apply in_app_or in Hin.
      destruct Hin as [Hin | [[= <- <-] | Hin]].
      * specialize (Hb _ _ Hin). lia.
      * lia.
      * exact (Ha _ _ Hin).
    + unfold dict_values. rewrite map_app, list_sum_app. cbn. lia.
Qed.

Lemma sum_at_most_length_times_bound (scores : dict nat) (m : nat) :
  (forall e c, In (e, c) scores -> c <= m) ->
  list_sum (dict_values scores) <= List.length scores * m.
Proof.
  induction scores as [|[e c] scores IH]; intros H; [cbn; lia|].
  pose proof (H e c (or_introl eq_refl)) as Hc.
  assert (Hrest : list_sum (dict_values scores) <= List.length scores * m)
    by (apply IH; intros e' c' Hin; apply (H e'); now right).
  change (dict_values ((e, c) :: scores)) with (c :: dict_values scores).
  cbn [list_sum fold_right List.length]. fold (list_sum (dict_values scores)).
  lia.
Qed.

Lemma matching_counts_complete (winning_count total : nat) :
  0 < total -> total <= 46 -> winning_count <= total ->
  total <= 5 * winning_count ->
  In (winning_count, total) matching_counts.
Proof.
  intros Hpos Hmax Hle Hfifth. unfold matching_counts.
  apply filter_In. split.
  - apply in_prod; apply in_seq; lia.
  - apply andb_true_intro. split; [apply andb_true_intro; split|];
      apply Nat.leb_le; lia.
Qed.

Lemma matching_counts_confidence :
  forallb (fun '(winning_count, total) =>
             PrimFloat.leb 0.58 (keyword_confidence winning_count total)
             && PrimFloat.leb (keyword_confidence winning_count total) 0.9)
          matching_counts = true.
Proof. vm_compute. reflexivity. Qed.

Lemma matched_confidence_bounds (text : string) (m : nat) (label : string) :
  EmotionDetector.highest_score (category_counts text) = (m, label) ->
  0 < total_matches text ->
  PrimFloat.leb 0.58 (keyword_confidence m (total_matches text)) = true
  /\ PrimFloat.leb (keyword_confidence m (total_matches text)) 0.9 = true.
Proof.
  intros Hhigh Hpos.
  destruct (highest_score_bounds _ _ _ Hhigh) as [Hall Hle].
  pose proof (sum_at_most_length_times_bound _ _ Hall) as Hfifth.
  fold (total_matches text) in Hle, Hfifth.
  change (List.length (category_counts text)) with 5 in Hfifth.
  pose proof (total_matches_bound text) as Hmax.
  pose proof (matching_counts_complete m (total_matches text)
                Hpos Hmax Hle ltac:(lia)) as Hin.
  pose proof (proj1 (forallb_forall _ _) matching_counts_confidence _ Hin)
    as Hrange.
  cbv beta iota in Hrange. now apply andb_prop in Hrange.
Qed.

(** The confidence of the keyword path is 0.5 when the text has no keyword,
    and lies between 0.58 and 0.9 when it has one: the winning category
    holds at least a fifth of the matches. *)
Theorem keyword_confidence_range (text : string) :
  exists label confidence,
    EmotionDetector._detect_with_keywords text = Ok (label, confidence)
    /\ (total_matches text = 0 -> confidence = 0.5%float)
    /\ (0 < total_matches text ->
        PrimFloat.leb 0.58 confidence = true
        /\ PrimFloat.leb confidence 0.9 = true).
Proof.
  destruct (detect_with_keywords_eq text) as (m & label & Hhigh & Heq).
  exists label, (keyword_confidence m (total_matches text)).
  split; [exact Heq|]. split.
  - intros ->. reflexivity.
  - intros Hpos. now apply (matched_confidence_bounds text m label).
Qed.

(** ** The construction of the detector *)

(** Building the detector never fails: without Flair, or when loading the
    model raises, the detector has no model and answers every text that is
    not blank by the keyword path; a model that loads is the detector's
    model. *)
Theorem detector_construction_degrades_to_keywords
  (env : EmotionDetectorSetup.Environment) :
  exists detector,
    EmotionDetectorSetup.__init__ env = Ok detector
    /\ (EmotionDetector.emotion_model detector = None
        <-> EmotionDetectorSetup.FLAIR_AVAILABLE env = false
            \/ exists e, EmotionDetectorSetup.load env = Raise e)
    /\ (forall model,
           EmotionDetectorSetup.FLAIR_AVAILABLE env = true ->
           EmotionDetectorSetup.load env = Ok model ->
           EmotionDetector.emotion_model detector = Some model)
    /\ (EmotionDetector.emotion_model detector = None ->
        forall text, blank text = false ->
          exists label confidence,
            EmotionDetector._detect_with_keywords text = Ok (label, confidence)
            /\ EmotionDetector.detect_emotion detector text
               = Ok {| EmotionDetector.emotion := label;
                       EmotionDetector.confidence := confidence;
                       EmotionDetector.method := "keywords";
                       EmotionDetector.all_emotions := None |}).
Proof.
  unfold EmotionDetectorSetup.__init__.
  destruct (EmotionDetectorSetup.FLAIR_AVAILABLE env) eqn:Hflair;
    [destruct (EmotionDetectorSetup.load env) as [model|e] eqn:Hload|];
    cbn [rtry rbind]; eexists; (split; [reflexivity|]);
    cbn [EmotionDetector.emotion_model].
  - split; [|split].
    + split; [discriminate | intros [H | [e H]]; discriminate].
    + intros model' _ [= <-]. reflexivity.
    + discriminate.
  - split; [|split].
    + split; [eauto | reflexivity].
    + intros model _ H. discriminate.
    + intros _ text Hblank.
      now apply (detect_emotion_keyword_path _ text Hblank).
  - split; [|split].
    + split; [auto | reflexivity].
    + discriminate.
    + intros _ text Hblank.
      now apply (detect_emotion_keyword_path _ text Hblank).
Qed.

(** [get_emotion_detector] builds the detector once: a call never fails and
    leaves the detector it returns in the module's variable; later calls
    return that same detector whatever the environment has become, and an
    existing detector is never replaced. *)
Theorem detector_is_built_once
  (env env' : EmotionDetectorSetup.Environment)
  (stored : option EmotionDetector.t) :
  exists detector,
    EmotionDetectorSetup.get_emotion_detector env stored
    = Ok (detector, Some detector)
    /\ EmotionDetectorSetup.get_emotion_detector env' (Some detector)
       = Ok (detector, Some detector)
    /\ (forall existing, stored = Some existing -> detector = existing)
    /\ (stored = None -> EmotionDetectorSetup.__init__ env = Ok detector).
Proof.
  destruct stored as [existing|].
  - exists existing. repeat split; try reflexivity.
    + now intros ? [= <-].
    + discriminate.
  - unfold EmotionDetectorSetup.get_emotion_detector,
      EmotionDetectorSetup.__init__.
    destruct (EmotionDetectorSetup.FLAIR_AVAILABLE env);
      [destruct (EmotionDetectorSetup.load env)|];
      cbn [rtry rbind]; eexists; repeat split; discriminate.
Qed.

(** ** [ActionCheckServerStatus.run] *)

(** The status probe never raises, sends no message and draws no random
    number; its one event sets "server_connection_status" to "connected"
    exactly when the probe was answered with status 200, and to
    "disconnected" otherwise. *)
Theorem server_status_is_connected_only_on_200 (api : api_outcome)
  (tracker : Tracker.t) (w : World) :
  exists status,
    ActionCheckServerStatus.run api tracker w
    = (Ok [SlotSet "server_connection_status" status], w)
    /\ (status = "connected" <-> exists body, api = Response 200 body)
    /\ (status <> "connected" -> status = "disconnected").
Proof.
  unfold ActionCheckServerStatus.run, bind, try_except, raise, ret.
  destruct api as [e | status_code body].
  - eexists. split; [reflexivity|]. split; [|auto].
    split; [discriminate | intros [? ?]; discriminate].
  - destruct (status_code =? 200)%Z eqn:Hstatus.
    + apply Z.eqb_eq in Hstatus. subst status_code.
      eexists. split; [reflexivity|]. split; [|intros H; now elim H].
      split; eauto.
    + apply Z.eqb_neq in Hstatus.
      eexists. split; [reflexivity|]. split; [|auto].
      split; [discriminate | intros [? [= ? _]]; contradiction].
Qed.

(** ** [ActionGetMotivationalQuote.run] *)

(** The run of the handler: what the service served is shown as it is, and
    every other outcome is answered from the fallback list, with one random
    draw. *)
Lemma motivational_quote_run (str : json -> string)
  (detector : EmotionDetector.t) (api : api_outcome) (tracker : Tracker.t)
  (w : World) (detection : EmotionDetector.Detection) :
  EmotionDetector.detect_emotion detector (user_text tracker) = Ok detection ->
  let emotion := EmotionDetector.emotion detection in
  let prefix := ActionGetMotivationalQuote.prefix_for emotion in
  ActionGetMotivationalQuote.run str detector api tracker w
  = (Ok [SlotSet "detected_emotion" emotion],
     match served_quote api with
     | Some (quote, author) =>
         {| messages :=
              messages w ++ [JStr (quote_message prefix (str quote) (str author))];
            rng := rng w |}
     | None =>
         let fallback :=
           chosen ActionGetMotivationalQuote.fallback_quotes
             {| ActionGetMotivationalQuote.quote := "The only way out is through.";
                ActionGetMotivationalQuote.author := "Robert Frost" |} w in
         {| messages :=
              messages w
              ++ [JStr (quote_message prefix
                          (ActionGetMotivationalQuote.quote fallback)
                          (ActionGetMotivationalQuote.author fallback))];
            rng := rng (after_draw w) |}
     end).
Proof.
  intros Hdet emotion prefix.
  unfold ActionGetMotivationalQuote.run. fold (user_text tracker).
  rewrite Hdet. unfold bind at 1, lift at 1.
  fold emotion. fold prefix.
  assert (Hfallback :
            forall w0,
              bind (random_choice ActionGetMotivationalQuote.fallback_quotes)
                (fun fallback =>
                   ret (ActionGetMotivationalQuote.quote fallback,
                        ActionGetMotivationalQuote.author fallback)) w0
              = (Ok (ActionGetMotivationalQuote.quote
                       (chosen ActionGetMotivationalQuote.fallback_quotes
                          {| ActionGetMotivationalQuote.quote :=
                               "The only way out is through.";
                             ActionGetMotivationalQuote.author := "Robert Frost" |}
                          w0),
                     ActionGetMotivationalQuote.author
                       (chosen ActionGetMotivationalQuote.fallback_quotes
                          {| ActionGetMotivationalQuote.quote :=
                               "The only way out is through.";
                             ActionGetMotivationalQuote.author := "Robert Frost" |}
                          w0)),
                 after_draw w0)).
  { intros w0. unfold bind, ActionGetMotivationalQuote.fallback_quotes.
    rewrite random_choice_run. reflexivity. }
  unfold bind at 1. unfold try_except.
  destruct api as [e | status_code [data | e]].
  - unfold raise. rewrite Hfallback. cbn [served_quote].
    unfold bind, utter_message, ret, quote_message. cbn [fst snd messages rng].
    now rewrite messages_after_draw.
  - cbn [served_quote].
    destruct (status_code =? 200)%Z.
    + destruct data; unfold bind at 1, lift at 1; cbn [json_get];
        unfold bind at 1, lift at 1;
        try (rewrite Hfallback;
             unfold bind, utter_message, ret, quote_message;
             cbn [fst snd messages rng];
             now rewrite messages_after_draw).
      unfold bind, lift, ret, utter_message, quote_message. reflexivity.
    + rewrite Hfallback.
      destruct data;
        unfold bind, utter_message, ret, quote_message;
        cbn [fst snd messages rng];
        now rewrite messages_after_draw.
  - cbn [served_quote].
    destruct (status_code =? 200)%Z.
    + unfold bind at 1, lift at 1. rewrite Hfallback.
      unfold bind, utter_message, ret, quote_message. cbn [fst snd messages rng].
      now rewrite messages_after_draw.
    + rewrite Hfallback.
      unfold bind, utter_message, ret, quote_message. cbn [fst snd messages rng].
      now rewrite messages_after_draw.
Qed.

(** The quote handler answers every turn: for every detector, label,
    outcome of the quote service and formatting of values it raises
    nothing, sends exactly one message, which starts with the prefix of the
    detected emotion, and returns the update of the "detected_emotion"
    slot. *)
Theorem motivational_quote_always_answers (str : json -> string)
  (detector : EmotionDetector.t) (api : api_outcome) (tracker : Tracker.t)
  (w : World) :
  exists detection rest w',
    EmotionDetector.detect_emotion detector (user_text tracker) = Ok detection
    /\ ActionGetMotivationalQuote.run str detector api tracker w
       = (Ok [SlotSet "detected_emotion" (EmotionDetector.emotion detection)], w')
    /\ messages w'
       = messages w
         ++ [JStr (ActionGetMotivationalQuote.prefix_for
                     (EmotionDetector.emotion detection) ++ rest)%string].
Proof.
  destruct (detect_emotion_returns detector (user_text tracker))
    as (detection & Hdet).
  pose proof (motivational_quote_run str detector api tracker w detection Hdet)
    as Hrun.
  cbv zeta in Hrun. exists detection.
  destruct (served_quote api) as [[quote author]|];
    eexists _, _; (split; [exact Hdet|]); (split; [exact Hrun|]);
    reflexivity.
Qed.

(** When the quote service does not answer 200 with a JSON object (the
    request raises, the status is another one, the body is not JSON or is
    not an object), the handler shows one entry of its fallback list, the
    quote with its own author, picked with one random draw. *)
Theorem motivational_quote_falls_back_to_its_list (str : json -> string)
  (detector : EmotionDetector.t) (api : api_outcome) (tracker : Tracker.t)
  (w : World) (detection : EmotionDetector.Detection) :
  EmotionDetector.detect_emotion detector (user_text tracker) = Ok detection ->
  (forall fields, api <> Response 200 (Ok (JObj fields))) ->
  exists fallback,
    In fallback ActionGetMotivationalQuote.fallback_quotes
    /\ ActionGetMotivationalQuote.run str detector api tracker w
       = (Ok [SlotSet "detected_emotion" (EmotionDetector.emotion detection)],
          {| messages :=
               messages w
               ++ [JStr (quote_message
                           (ActionGetMotivationalQuote.prefix_for
                              (EmotionDetector.emotion detection))
                           (ActionGetMotivationalQuote.quote fallback)
                           (ActionGetMotivationalQuote.author fallback))];
             rng := rng (after_draw w) |}).
Proof.
  intros Hdet Hnot.
  pose proof (motivational_quote_run str detector api tracker w detection Hdet)
    as Hrun.
  cbv zeta in Hrun.
  assert (Hserved : served_quote api = None).
  { destruct api as [e | status_code [data | e]]; try reflexivity.
    destruct data; try reflexivity. cbn [served_quote].
    destruct (status_code =? 200)%Z eqn:Hstatus; [|reflexivity].
    apply Z.eqb_eq in Hstatus. subst. now elim (Hnot fields). }
  rewrite Hserved in Hrun.
  eexists. split; [|exact Hrun].
  unfold ActionGetMotivationalQuote.fallback_quotes. apply chosen_in.
Qed.

Lemma motivational_quote_fallback_witness :
  exists fallback,
    In fallback ActionGetMotivationalQuote.fallback_quotes
    /\ ActionGetMotivationalQuote.run str_example keyword_detector
         (Response 503 (Raise ValueError)) sad_tracker remote_world
       = (Ok [SlotSet "detected_emotion" "sadness"],
          {| messages :=
               [JStr (quote_message
                        "I understand you might be feeling down. Here's something that might help: "
                        (ActionGetMotivationalQuote.quote fallback)
                        (ActionGetMotivationalQuote.author fallback))];
             rng := [7%N; 3%N] |}).
Proof.
  exact (motivational_quote_falls_back_to_its_list str_example keyword_detector
           (Response 503 (Raise ValueError)) sad_tracker remote_world
           sad_detection eq_refl
           (fun fields H => ltac:(discriminate H))).
Defined.

(** A 200 answer with a JSON object is shown as it is and no random number
    is drawn; a key the object does not have is formatted from [None], the
    fallback list is not used for it. *)
Theorem motivational_quote_shows_what_was_served (str : json -> string)
  (detector : EmotionDetector.t) (fields : list (string * json))
  (tracker : Tracker.t) (w : World) :
  exists detection quote author,
    EmotionDetector.detect_emotion detector (user_text tracker) = Ok detection
    /\ ActionGetMotivationalQuote.run str detector
         (Response 200 (Ok (JObj fields))) tracker w
       = (Ok [SlotSet "detected_emotion" (EmotionDetector.emotion detection)],
          {| messages :=
               messages w
               ++ [JStr (quote_message
                           (ActionGetMotivationalQuote.prefix_for
                              (EmotionDetector.emotion detection))
                           (str quote) (str author))];
             rng := rng w |})
    /\ (forall value, dict_lookup fields "quote" = Some value -> quote = value)
    /\ (dict_lookup fields "quote" = None -> quote = JNull)
    /\ (forall value, dict_lookup fields "author" = Some value -> author = value)
    /\ (dict_lookup fields "author" = None -> author = JNull).
Proof.
  destruct (detect_emotion_returns detector (user_text tracker))
    as (detection & Hdet).
  pose proof (motivational_quote_run str detector
                (Response 200 (Ok (JObj fields))) tracker w detection Hdet)
    as Hrun.
  cbv zeta in Hrun. cbn [served_quote Z.eqb Pos.eqb] in Hrun.
  exists detection, (dict_get fields "quote" JNull),
    (dict_get fields "author" JNull).
  split; [exact Hdet|]. split; [exact Hrun|].
  unfold dict_get.
  destruct (dict_lookup fields "quote"), (dict_lookup fields "author");
    repeat split; intros; congruence.
Qed.

Example quote_service_answers_an_empty_object :
  ActionGetMotivationalQuote.run str_example keyword_detector
    (Response 200 (Ok (JObj []))) sad_tracker remote_world
  = (Ok [SlotSet "detected_emotion" "sadness"],
     {| messages :=
          [JStr (quote_message
                   "I understand you might be feeling down. Here's something that might help: "
                   "None" "None")];
        rng := rng remote_world |}).
Proof. vm_compute. reflexivity. Qed.

(** The prefix of the quote handler follows the normalization of the
    coping-strategy handler, except for the synonyms "anxious" and
    "excited": the quote handler does not know them and gives them the
    generic prefix, not the one of fear and joy. *)
Theorem quote_prefix_follows_the_normalization_but_for_two_synonyms :
  (forall emotion,
      emotion <> "anxious" -> emotion <> "excited" ->
      ActionGetMotivationalQuote.prefix_for emotion
      = ActionGetMotivationalQuote.prefix_for (coping_emotion (Some emotion)))
  /\ coping_emotion (Some "anxious") = "fear"
  /\ ActionGetMotivationalQuote.prefix_for "anxious"
     = "Here's a thought for you: "
  /\ ActionGetMotivationalQuote.prefix_for "anxious"
     <> ActionGetMotivationalQuote.prefix_for "fear"
  /\ coping_emotion (Some "excited") = "joy"
  /\ ActionGetMotivationalQuote.prefix_for "excited"
     = "Here's a thought for you: "
  /\ ActionGetMotivationalQuote.prefix_for "excited"
     <> ActionGetMotivationalQuote.prefix_for "joy".
Proof.
  split; [|repeat split; discriminate].
  intros emotion Hanxious Hexcited.
  unfold coping_emotion, ActionGetMotivationalQuote.prefix_for, Py.in_list,
    canonical_labels.
  cbn [existsb].
  repeat match goal with
         | |- context [(emotion =? ?k)%string] =>
             destruct (String.eqb_spec emotion k) as [->|?];
             [first [reflexivity | contradiction]|]
         end.
  reflexivity.
Qed.

(** ** The remote call of ProcessMessage and FallbackAPI, branch by branch *)

(** [_call_fallback_api] on its predefined branch: the remote call is not
    made; one message is sent, a predefined response of the emotion, followed
    by a technique of the emotion only for sadness, anger and fear, and then
    only when the draw for it is below 0.5. *)
Lemma call_fallback_api_predefined_run (api : api_outcome)
  (message emotion : string) (responses : list string) (w : World) :
  PrimFloat.ltb (next_random w) 0.7 = true ->
  dict_lookup EMPATHETIC_RESPONSES emotion = Some responses ->
  exists response text w',
    In response responses
    /\ ActionProcessMessage._call_fallback_api api message emotion w
       = (Ok [SlotSet "detected_emotion" emotion], w')
    /\ messages w' = messages w ++ [JStr text]
    /\ (Py.in_list emotion ["sadness"; "anger"; "fear"] = false ->
        text = response)
    /\ (text = response
        \/ exists techniques technique,
            Py.in_list emotion ["sadness"; "anger"; "fear"] = true
            /\ dict_lookup THERAPY_TECHNIQUES emotion = Some techniques
            /\ In technique techniques
            /\ text = with_technique response technique).
Proof.
  intros Hfloat Hlookup.
  assert (Hin : dict_contains EMPATHETIC_RESPONSES emotion = true)
    by (unfold dict_contains; now rewrite Hlookup).
  destruct responses as [|response responses];
    [now apply empathetic_lists_nonempty in Hlookup|].
  unfold ActionProcessMessage._call_fallback_api.
  unfold bind at 1. rewrite random_random_run, Hfloat, Hin. cbn [andb].
  unfold bind at 1, lift at 1, dict_getitem at 1. rewrite Hlookup.
  unfold bind at 1. rewrite random_choice_run.
  set (w1 := after_draw w). set (w2 := after_draw w1).
  set (picked := chosen (response :: responses) response w1).
  assert (Hpicked : In picked (response :: responses)) by apply chosen_in.
  exists picked.
  destruct (Py.in_list emotion ["sadness"; "anger"; "fear"]) eqn:Hnegative.
  - unfold bind at 1. unfold bind at 1. rewrite random_random_run.
    destruct (PrimFloat.ltb (next_random w2) 0.5).
    + assert (Hth : dict_contains THERAPY_TECHNIQUES emotion = true).
      { apply canonical_in_tables. unfold Py.in_list in Hnegative.
        apply existsb_exists in Hnegative.
        destruct Hnegative as (x & Hx & Heq). apply String.eqb_eq in Heq.
        rewrite Heq. unfold canonical_labels. cbn [In] in Hx |- *. tauto. }
      destruct (dict_contains_lookup _ _ Hth) as (techniques & Hlookup').
      destruct techniques as [|technique techniques];
        [now apply therapy_lists_nonempty in Hlookup'|].
      unfold bind at 1, lift at 1, dict_getitem at 1. rewrite Hlookup'.
      unfold bind at 1. rewrite random_choice_run.
      unfold ret at 1. unfold bind, utter_message, ret.
      eexists _, _. split; [exact Hpicked|]. split; [reflexivity|].
      cbn [messages]. subst w2 w1. rewrite !messages_after_draw.
      split; [reflexivity|]. split; [discriminate|].
      right. eexists (technique :: techniques), _.
      split; [reflexivity|]. split; [reflexivity|].
      split; [apply chosen_in | reflexivity].
    + unfold ret at 1. unfold bind, utter_message, ret.
      eexists _, _. split; [exact Hpicked|]. split; [reflexivity|].
      cbn [messages]. subst w2 w1. rewrite !messages_after_draw.
      split; [reflexivity|]. split; [discriminate|]. now left.
  - unfold bind at 1. unfold ret at 1. unfold bind, utter_message, ret.
    eexists _, _. split; [exact Hpicked|]. split; [reflexivity|].
    cbn [messages]. subst w2 w1. rewrite !messages_after_draw.
    split; [reflexivity|]. split; [reflexivity|]. now left.
Qed.

Lemma answered_path (data content : json) :
  completion_content data = Some content ->
  remote_path_of (Response 200 (Ok data)) = Answered content.
Proof.
  intros H. unfold remote_path_of. cbn [Z.eqb Pos.eqb].
  assert (Hchoices : json_contains "choices" data = Ok true).
  { unfold completion_content in H. destruct data; try discriminate.
    cbn [json_contains]. unfold dict_contains.
    destruct (dict_lookup fields "choices"); [reflexivity | discriminate]. }
  now rewrite Hchoices, H.
Qed.

Lemma malformed_path (data : json) :
  json_contains "choices" data = Ok true ->
  completion_content data = None ->
  remote_path_of (Response 200 (Ok data)) = Failed.
Proof.
  intros Hchoices H. unfold remote_path_of. cbn [Z.eqb Pos.eqb].
  now rewrite Hchoices, H.
Qed.

Lemma send_predefined_sends (responses : list string) (w : World) :
  responses <> [] ->
  exists response,
    In response responses
    /\ send_predefined responses w
       = {| messages := messages w ++ [JStr response];
            rng := rng (after_draw w) |}.
Proof.
  intros Hne. destruct responses as [|response responses]; [contradiction|].
  exists (chosen (response :: responses) "" w). split; [|reflexivity].
  rewrite (chosen_default response responses "" response). apply chosen_in.
Qed.

(** An answer of the remote service is passed on as it is: when a handler
    attempts the remote call and a completion with a content arrives, the
    handler sends exactly that content and returns the slot update, also
    for an emotion that is not a key of the response tables. *)
Theorem remote_answer_is_passed_on (detector : EmotionDetector.t)
  (tracker : Tracker.t) (w : World) (detection : EmotionDetector.Detection)
  (data content : json) :
  EmotionDetector.detect_emotion detector (user_text tracker) = Ok detection ->
  remote_attempted w (EmotionDetector.emotion detection) = true ->
  completion_content data = Some content ->
  let answered :=
    (Ok [SlotSet "detected_emotion" (EmotionDetector.emotion detection)],
     {| messages := messages w ++ [content]; rng := rng (after_draw w) |}) in
  ActionFallbackAPI.run detector (Response 200 (Ok data)) tracker w = answered
  /\ (PrimFloat.ltb (intent_confidence tracker) 0.3 = true ->
      ActionProcessMessage.run detector (Response 200 (Ok data)) tracker w
      = answered).
Proof.
  intros Hdet Hattempt Hcontent answered. subst answered.
  pose proof (answered_path _ _ Hcontent) as Hpath. split.
  - rewrite (fallback_api_attempted_run _ _ _ _ _ Hdet Hattempt), Hpath.
    reflexivity.
  - intros Hconf. rewrite (process_message_unsure _ _ _ _ _ Hdet Hconf).
    pose proof (call_fallback_api_attempted_run (Response 200 (Ok data))
                  (user_text tracker) _ w Hattempt) as Hrun.
    rewrite Hpath in Hrun. exact Hrun.
Qed.

Lemma remote_answer_witness :
  ActionFallbackAPI.run surprise_detector (Response 200 (Ok breathe_completion))
    surprised_tracker remote_world
  = (Ok [SlotSet "detected_emotion" "surprise"],
     {| messages := [JStr "Take a slow breath."]; rng := [7%N; 3%N] |})
  /\ ActionProcessMessage.run surprise_detector
       (Response 200 (Ok breathe_completion)) surprised_tracker remote_world
     = (Ok [SlotSet "detected_emotion" "surprise"],
        {| messages := [JStr "Take a slow breath."]; rng := [7%N; 3%N] |}).
Proof.
  destruct (remote_answer_is_passed_on surprise_detector surprised_tracker
              remote_world _ breathe_completion (JStr "Take a slow breath.")
              eq_refl eq_refl eq_refl) as [Hfallback Hprocess].
  split; [exact Hfallback | exact (Hprocess eq_refl)].
Defined.

(** A 200 answer that has "choices" but no content (an empty list of
    choices, a choice without message) counts as a failure: FallbackAPI sends
    its message for an exception, and ProcessMessage, for an emotion of the
    empathetic table, sends one predefined response of the emotion. *)
Theorem answer_without_content_is_a_failure (detector : EmotionDetector.t)
  (tracker : Tracker.t) (w : World) (detection : EmotionDetector.Detection)
  (data : json) :
  EmotionDetector.detect_emotion detector (user_text tracker) = Ok detection ->
  remote_attempted w (EmotionDetector.emotion detection) = true ->
  json_contains "choices" data = Ok true ->
  completion_content data = None ->
  ActionFallbackAPI.run detector (Response 200 (Ok data)) tracker w
  = (Ok [SlotSet "detected_emotion" (EmotionDetector.emotion detection)],
     {| messages := messages w ++ [JStr ActionFallbackAPI.trouble_message];
        rng := rng (after_draw w) |})
  /\ (PrimFloat.ltb (intent_confidence tracker) 0.3 = true ->
      forall responses,
        dict_lookup EMPATHETIC_RESPONSES (EmotionDetector.emotion detection)
        = Some responses ->
        exists response,
          In response responses
          /\ ActionProcessMessage.run detector (Response 200 (Ok data)) tracker w
             = (Ok [SlotSet "detected_emotion" (EmotionDetector.emotion detection)],
                {| messages := messages w ++ [JStr response];
                   rng := rng (after_draw (after_draw w)) |})).
Proof.
  intros Hdet Hattempt Hchoices Hcontent.
  pose proof (malformed_path _ Hchoices Hcontent) as Hpath. split.
  - rewrite (fallback_api_attempted_run _ _ _ _ _ Hdet Hattempt), Hpath.
    reflexivity.
  - intros Hconf responses Hlookup.
    rewrite (process_message_unsure _ _ _ _ _ Hdet Hconf).
    pose proof (call_fallback_api_attempted_run (Response 200 (Ok data))
                  (user_text tracker) _ w Hattempt) as Hrun.
    rewrite Hpath in Hrun. rewrite (Hrun responses Hlookup).
    destruct (send_predefined_sends responses (after_draw w)
                (empathetic_lists_nonempty _ _ Hlookup))
      as (response & Hin & Hsend).
    exists response. split; [exact Hin|]. rewrite Hsend.
    now rewrite messages_after_draw.
Qed.

Lemma answer_without_content_witness :
  ActionFallbackAPI.run keyword_detector (Response 200 (Ok empty_completion))
    sad_tracker remote_world
  = (Ok [SlotSet "detected_emotion" "sadness"],
     {| messages := [JStr ActionFallbackAPI.trouble_message];
        rng := [7%N; 3%N] |}).
Proof.
  exact (proj1 (answer_without_content_is_a_failure keyword_detector sad_tracker
                  remote_world sad_detection empty_completion
                  eq_refl eq_refl eq_refl eq_refl)).
Defined.

Lemma call_fallback_api_predefined_ignores_api (message emotion : string)
  (w : World) :
  PrimFloat.ltb (next_random w) 0.7 = true ->
  dict_contains EMPATHETIC_RESPONSES emotion = true ->
  exists result,
    forall api,
      ActionProcessMessage._call_fallback_api api message emotion w = result.
Proof.
  intros Hfloat Hcontains. eexists. intros api.
  unfold ActionProcessMessage._call_fallback_api.
  unfold bind at 1. rewrite random_random_run, Hfloat, Hcontains.
  cbn [andb]. reflexivity.
Qed.

(** The predefined branch of ProcessMessage: with a low intent confidence, a
    first random float below 0.7 and an emotion of the empathetic table,
    the handler does not look at the remote service; it sends one message, a
    predefined response of the emotion, to which a technique of the emotion
    is appended only for sadness, anger and fear. *)
Theorem process_message_predefined_branch (detector : EmotionDetector.t)
  (api : api_outcome) (tracker : Tracker.t) (w : World)
  (detection : EmotionDetector.Detection) (responses : list string) :
  EmotionDetector.detect_emotion detector (user_text tracker) = Ok detection ->
  PrimFloat.ltb (intent_confidence tracker) 0.3 = true ->
  PrimFloat.ltb (next_random w) 0.7 = true ->
  dict_lookup EMPATHETIC_RESPONSES (EmotionDetector.emotion detection)
  = Some responses ->
  let emotion := EmotionDetector.emotion detection in
  exists response text w',
    In response responses
    /\ (forall api',
           ActionProcessMessage.run detector api' tracker w
           = (Ok [SlotSet "detected_emotion" emotion], w'))
    /\ messages w' = messages w ++ [JStr text]
    /\ (Py.in_list emotion ["sadness"; "anger"; "fear"] = false ->
        text = response)
    /\ (text = response
        \/ exists techniques technique,
            Py.in_list emotion ["sadness"; "anger"; "fear"] = true
            /\ dict_lookup THERAPY_TECHNIQUES emotion = Some techniques
            /\ In technique techniques
            /\ text = with_technique response technique).
Proof.
  intros Hdet Hconf Hfloat Hlookup emotion. subst emotion.
  set (emotion := EmotionDetector.emotion detection) in *.
  destruct (call_fallback_api_predefined_run api (user_text tracker) emotion
              responses w Hfloat Hlookup)
    as (response & text & w' & Hin & Hrun & Hmsgs & Hplain & Hshape).
  exists response, text, w'. split; [exact Hin|]. split.
  - intros api'. rewrite (process_message_unsure _ _ _ _ _ Hdet Hconf).
    assert (Hcontains : dict_contains EMPATHETIC_RESPONSES emotion = true)
      by (unfold dict_contains; now rewrite Hlookup).
    destruct (call_fallback_api_predefined_ignores_api (user_text tracker)
                emotion w Hfloat Hcontains) as (result & Hsame).
    fold emotion. rewrite (Hsame api'). rewrite <- (Hsame api). exact Hrun.
  - auto.
Qed.

Lemma process_message_predefined_witness :
  exists response text w',
    In response
      (dict_get EMPATHETIC_RESPONSES "sadness" [])
    /\ (forall api',
           ActionProcessMessage.run keyword_detector api' sad_tracker
             {| messages := []; rng := [1%N; 0%N; 3%N; 4%N] |}
           = (Ok [SlotSet "detected_emotion" "sadness"], w'))
    /\ messages w' = [JStr text]
    /\ (Py.in_list "sadness" ["sadness"; "anger"; "fear"] = false ->
        text = response)
    /\ (text = response
        \/ exists techniques technique,
            Py.in_list "sadness" ["sadness"; "anger"; "fear"] = true
            /\ dict_lookup THERAPY_TECHNIQUES "sadness" = Some techniques
            /\ In technique techniques
            /\ text = with_technique response technique).
Proof.
  exact (process_message_predefined_branch keyword_detector
           (PostRaises RequestException) sad_tracker
           {| messages := []; rng := [1%N; 0%N; 3%N; 4%N] |}
           sad_detection _ eq_refl eq_refl eq_refl eq_refl).
Defined.

(** The predefined branch of FallbackAPI: with a first random float below
    0.7 and an emotion of the empathetic table, the handler sends exactly
    one predefined response of the emotion, never a technique, whatever the
    remote service would have answered. *)
Theorem fallback_api_predefined_branch (detector : EmotionDetector.t)
  (tracker : Tracker.t) (w : World) (detection : EmotionDetector.Detection)
  (responses : list string) :
  EmotionDetector.detect_emotion detector (user_text tracker) = Ok detection ->
  PrimFloat.ltb (next_random w) 0.7 = true ->
  dict_lookup EMPATHETIC_RESPONSES (EmotionDetector.emotion detection)
  = Some responses ->
  exists response,
    In response responses
    /\ forall api,
        ActionFallbackAPI.run detector api tracker w
        = (Ok [SlotSet "detected_emotion" (EmotionDetector.emotion detection)],
           {| messages := messages w ++ [JStr response];
              rng := rng (after_draw (after_draw w)) |}).
Proof.
  intros Hdet Hfloat Hlookup.
  destruct (send_predefined_sends responses (after_draw w)
              (empathetic_lists_nonempty _ _ Hlookup))
    as (response & Hin & Hsend).
  exists response. split; [exact Hin|]. intros api.
  rewrite (fallback_api_predefined_run _ api _ _ _ _ Hdet Hfloat Hlookup).
  rewrite Hsend. now rewrite messages_after_draw.
Qed.

Lemma fallback_api_predefined_witness :
  exists response,
    In response (dict_get EMPATHETIC_RESPONSES "sadness" [])
    /\ forall api,
        ActionFallbackAPI.run keyword_detector api sad_tracker
          {| messages := []; rng := [1%N; 2%N] |}
        = (Ok [SlotSet "detected_emotion" "sadness"],
           {| messages := [JStr response]; rng := [] |}).
Proof.
  exact (fallback_api_predefined_branch keyword_detector sad_tracker
           {| messages := []; rng := [1%N; 2%N] |} sad_detection _
           eq_refl eq_refl eq_refl).
Defined.

(** The messages of FallbackAPI for each way the remote call can fail: its
    message for an exception when the request raises, the body is not JSON
    or the test for "choices" raises; its message for a refusal when the
    result is not a success and the body is a JSON object; and both, one
    after the other, when the result is not a success and the body is JSON
    but not an object. *)
Theorem fallback_api_failure_messages (detector : EmotionDetector.t)
  (tracker : Tracker.t) (w : World) (detection : EmotionDetector.Detection) :
  EmotionDetector.detect_emotion detector (user_text tracker) = Ok detection ->
  remote_attempted w (EmotionDetector.emotion detection) = true ->
  let sends api texts :=
    ActionFallbackAPI.run detector api tracker w
    = (Ok [SlotSet "detected_emotion" (EmotionDetector.emotion detection)],
       {| messages := messages w ++ map JStr texts;
          rng := rng (after_draw w) |}) in
  (forall e, sends (PostRaises e) [ActionFallbackAPI.trouble_message])
  /\ (forall status_code e,
         sends (Response status_code (Raise e))
           [ActionFallbackAPI.trouble_message])
  /\ (forall data e,
         json_contains "choices" data = Raise e ->
         sends (Response 200 (Ok data)) [ActionFallbackAPI.trouble_message])
  /\ (forall status_code fields,
         status_code <> 200%Z \/ dict_contains fields "choices" = false ->
         sends (Response status_code (Ok (JObj fields)))
           [ActionFallbackAPI.rephrase_message])
  /\ (forall status_code data,
         status_code <> 200%Z \/ json_contains "choices" data = Ok false ->
         (forall fields, data <> JObj fields) ->
         sends (Response status_code (Ok data))
           [ActionFallbackAPI.rephrase_message;
            ActionFallbackAPI.trouble_message]).
Proof.
  intros Hdet Hattempt sends. subst sends. cbv beta.
  assert (Hrun := fun api =>
            fallback_api_attempted_run detector api tracker w detection
              Hdet Hattempt).
  assert (Htest : forall status_code data,
             status_code <> 200%Z \/ json_contains "choices" data = Ok false ->
             (if (status_code =? 200)%Z
              then json_contains "choices" data
              else Ok false) = Ok false).
  { intros status_code data [Hstatus | Hchoices].
    - apply Z.eqb_neq in Hstatus. now rewrite Hstatus.
    - rewrite Hchoices. now destruct (status_code =? 200)%Z. }
  split; [|split; [|split; [|split]]].
  - intros e. now rewrite Hrun.
  - intros status_code e. now rewrite Hrun.
  - intros data e Hchoices. rewrite Hrun. unfold remote_path_of.
    cbn [Z.eqb Pos.eqb]. now rewrite Hchoices.
  - intros status_code fields Hrefused. rewrite Hrun. unfold remote_path_of.
    rewrite (Htest status_code (JObj fields)); [reflexivity|].
    destruct Hrefused as [H | H]; [now left | right].
    cbn [json_contains]. now rewrite H.
  - intros status_code data Hrefused Hnot. rewrite Hrun. unfold remote_path_of.
    rewrite (Htest status_code data Hrefused).
    destruct data; try reflexivity. now elim (Hnot fields).
Qed.

Lemma fallback_api_failure_witness :
  ActionFallbackAPI.run keyword_detector (Response 500 (Ok (JStr "Bad gateway")))
    sad_tracker remote_world
  = (Ok [SlotSet "detected_emotion" "sadness"],
     {| messages := [JStr ActionFallbackAPI.rephrase_message;
                     JStr ActionFallbackAPI.trouble_message];
        rng := [7%N; 3%N] |}).
Proof.
  destruct (fallback_api_failure_messages keyword_detector sad_tracker
              remote_world sad_detection eq_refl eq_refl)
    as (_ & _ & _ & _ & Htwice).
  apply (Htwice 500%Z (JStr "Bad gateway")).
  - left. discriminate.
  - intros fields. discriminate.
Defined.

Lemma rng_after_draw (w : World) : rng (after_draw w) = tl (rng w).
Proof.
  unfold after_draw, next_raw.
  destruct (rng w) eqn:E; cbn [snd rng tl]; [exact E | reflexivity].
Qed.

(** ProcessMessage and a refusal of the remote service (a status other than
    200, or a body without "choices"), for an emotion of the empathetic
    table: with a JSON object as body the handler sends one predefined
    response; with a body that is JSON but not an object it sends two, the
    second from the [except] clause that catches the failure of
    [data.get]. *)
Theorem process_message_answers_twice_to_a_refusal_without_object
  (detector : EmotionDetector.t) (tracker : Tracker.t) (w : World)
  (detection : EmotionDetector.Detection) (responses : list string)
  (status_code : Z) (data : json) :
  EmotionDetector.detect_emotion detector (user_text tracker) = Ok detection ->
  PrimFloat.ltb (intent_confidence tracker) 0.3 = true ->
  remote_attempted w (EmotionDetector.emotion detection) = true ->
  dict_lookup EMPATHETIC_RESPONSES (EmotionDetector.emotion detection)
  = Some responses ->
  status_code <> 200%Z \/ json_contains "choices" data = Ok false ->
  ((exists fields, data = JObj fields) ->
   exists response,
     In response responses
     /\ ActionProcessMessage.run detector (Response status_code (Ok data))
          tracker w
        = (Ok [SlotSet "detected_emotion" (EmotionDetector.emotion detection)],
           {| messages := messages w ++ [JStr response];
              rng := rng (after_draw (after_draw w)) |}))
  /\ ((forall fields, data <> JObj fields) ->
      exists first second,
        In first responses /\ In second responses
        /\ ActionProcessMessage.run detector (Response status_code (Ok data))
             tracker w
           = (Ok [SlotSet "detected_emotion" (EmotionDetector.emotion detection)],
              {| messages := messages w ++ [JStr first; JStr second];
                 rng := rng (after_draw (after_draw (after_draw w))) |})).
Proof.
  intros Hdet Hconf Hattempt Hlookup Hrefused.
  pose proof (empathetic_lists_nonempty _ _ Hlookup) as Hne.
  rewrite (process_message_unsure _ _ _ _ _ Hdet Hconf).
  pose proof (call_fallback_api_attempted_run (Response status_code (Ok data))
                (user_text tracker) _ w Hattempt) as Hrun.
  unfold remote_path_of in Hrun.
  assert (Htest : (if (status_code =? 200)%Z
                   then json_contains "choices" data
                   else Ok false) = Ok false).
  { destruct Hrefused as [Hstatus | Hchoices].
    - apply Z.eqb_neq in Hstatus. now rewrite Hstatus.
    - rewrite Hchoices. now destruct (status_code =? 200)%Z. }
  rewrite Htest in Hrun.
  destruct (send_predefined_sends responses (after_draw w) Hne)
    as (first & Hfirst & Hsend).
  split.
  - intros [fields ->]. rewrite (Hrun responses Hlookup).
    exists first. split; [exact Hfirst|]. rewrite Hsend.
    now rewrite messages_after_draw.
  - intros Hnot.
    assert (Htwice :
              ActionProcessMessage._call_fallback_api
                (Response status_code (Ok data)) (user_text tracker)
                (EmotionDetector.emotion detection) w
              = (Ok [SlotSet "detected_emotion"
                       (EmotionDetector.emotion detection)],
                 send_predefined responses
                   (send_predefined responses (after_draw w)))).
    { destruct data; try exact (Hrun responses Hlookup).
      now elim (Hnot fields). }
    rewrite Htwice.
    destruct (send_predefined_sends responses
                (send_predefined responses (after_draw w)) Hne)
      as (second & Hsecond & Hsend').
    exists first, second. split; [exact Hfirst|]. split; [exact Hsecond|].
    rewrite Hsend', Hsend. cbn [messages rng].
    rewrite messages_after_draw, <- app_assoc. cbn [app].
    f_equal. f_equal.
    rewrite (rng_after_draw (after_draw (after_draw w))).
    rewrite (rng_after_draw {| messages := _; rng := _ |}).
    reflexivity.
Qed.

Lemma process_message_answers_twice_witness :
  exists first second,
    In first (dict_get EMPATHETIC_RESPONSES "sadness" [])
    /\ In second (dict_get EMPATHETIC_RESPONSES "sadness" [])
    /\ ActionProcessMessage.run keyword_detector
         (Response 500 (Ok (JStr "Bad gateway"))) sad_tracker remote_world
       = (Ok [SlotSet "detected_emotion" (EmotionDetector.emotion sad_detection)],
          {| messages := messages remote_world ++ [JStr first; JStr second];
             rng := rng (after_draw (after_draw (after_draw remote_world))) |}).
Proof.
  refine (proj2 (process_message_answers_twice_to_a_refusal_without_object
                   keyword_detector sad_tracker remote_world sad_detection
                   (dict_get EMPATHETIC_RESPONSES "sadness" [])
                   500%Z (JStr "Bad gateway") eq_refl eq_refl eq_refl eq_refl
                   (or_introl _)) _).
  - discriminate.
  - intros fields. discriminate.
Defined.

(** Without a model answer ProcessMessage never fails: when the text is
    blank, no model is loaded or the model raises, the detected emotion is
    one of the five canonical labels and, for every outcome of the remote
    call and every world, the handler returns the slot update. *)
Theorem process_message_never_fails_without_a_model
  (detector : EmotionDetector.t) (tracker : Tracker.t) :
  blank (user_text tracker) = true
  \/ model_failed detector (user_text tracker) = true ->
  exists detection,
    EmotionDetector.detect_emotion detector (user_text tracker) = Ok detection
    /\ In (EmotionDetector.emotion detection) canonical_labels
    /\ forall api w,
        fst (ActionProcessMessage.run detector api tracker w)
        = Ok [SlotSet "detected_emotion" (EmotionDetector.emotion detection)].
Proof.
  intros Hno_model.
  assert (Hcanonical :
            exists detection,
              EmotionDetector.detect_emotion detector (user_text tracker)
              = Ok detection
              /\ In (EmotionDetector.emotion detection) canonical_labels).
  { destruct (detect_emotion_cases detector (user_text tracker))
      as [[Hblank Hdet]
         | [(Hblank & Hmodel & _)
           | (Hblank & Hmodel & label & confidence & Hkw & Hdet)]].
    - exists default_detection. split; [exact Hdet|].
      unfold canonical_labels. cbn. tauto.
    - destruct Hno_model as [H | H]; congruence.
    - eexists. split; [exact Hdet|]. cbn [EmotionDetector.emotion].
      eapply keyword_label_canonical. exact Hkw. }
  destruct Hcanonical as (detection & Hdet & Hin).
  exists detection. split; [exact Hdet|]. split; [exact Hin|].
  intros api w. apply process_message_returns; [exact Hdet|].
  now apply canonical_in_tables.
Qed.

Lemma process_message_without_model_witness :
  exists detection,
    EmotionDetector.detect_emotion broken_detector (user_text sad_tracker)
    = Ok detection
    /\ In (EmotionDetector.emotion detection) canonical_labels
    /\ forall api w,
        fst (ActionProcessMessage.run broken_detector api sad_tracker w)
        = Ok [SlotSet "detected_emotion" (EmotionDetector.emotion detection)].
Proof.
  exact (process_message_never_fails_without_a_model broken_detector
           sad_tracker (or_intror eq_refl)).
Defined.

(** FallbackAPI answers every turn: for every detector, label, outcome of
    the remote call and world it raises nothing, returns the slot update and
    sends one message, or two. *)
Theorem fallback_api_always_answers (detector : EmotionDetector.t)
  (api : api_outcome) (tracker : Tracker.t) (w : World) :
  exists detection emitted w',
    EmotionDetector.detect_emotion detector (user_text tracker) = Ok detection
    /\ ActionFallbackAPI.run detector api tracker w
       = (Ok [SlotSet "detected_emotion" (EmotionDetector.emotion detection)], w')
    /\ messages w' = messages w ++ emitted
    /\ 1 <= List.length emitted <= 2.
Proof.
  destruct (detect_emotion_returns detector (user_text tracker))
    as (detection & Hdet).
  exists detection.
  destruct (remote_attempted w (EmotionDetector.emotion detection)) eqn:Hattempt.
  - eexists _, _. split; [exact Hdet|]. split.
    { exact (fallback_api_attempted_run _ api _ _ _ Hdet Hattempt). }
    split; [reflexivity|].
    destruct (remote_path_of api); cbn; lia.
  - unfold remote_attempted in Hattempt. apply negb_false_iff in Hattempt.
    apply andb_prop in Hattempt as [Hfloat Hin].
    destruct (dict_contains_lookup _ _ Hin) as (responses & Hlookup).
    destruct (send_predefined_sends responses (after_draw w)
                (empathetic_lists_nonempty _ _ Hlookup))
      as (response & _ & Hsend).
    exists [JStr response]. eexists. split; [exact Hdet|]. split.
    { exact (fallback_api_predefined_run _ api _ _ _ _ Hdet Hfloat Hlookup). }
    split; [|cbn; lia].
    rewrite Hsend. cbn [messages]. now rewrite messages_after_draw.
Qed.

(** The coping-strategy handler treats a synonym as its emotion: two stored
    values with the same normalized emotion get, in the same world, the same
    message and the same (empty) event list. *)
Theorem coping_strategy_treats_synonyms_as_their_emotion
  (tracker tracker' : Tracker.t) (w : World) :
  coping_emotion (Tracker.get_slot tracker "detected_emotion")
  = coping_emotion (Tracker.get_slot tracker' "detected_emotion") ->
  ActionSuggestCopingStrategy.run tracker w
  = ActionSuggestCopingStrategy.run tracker' w.
Proof.
  intros Hsame.
  destruct (suggest_coping_strategy_run tracker w)
    as (technique & techniques & Hlookup & Hrun).
  destruct (suggest_coping_strategy_run tracker' w)
    as (technique' & techniques' & Hlookup' & Hrun').
  rewrite Hrun, Hrun'. rewrite <- Hsame in Hlookup' |- *.
  rewrite Hlookup in Hlookup'. injection Hlookup' as <- <-. reflexivity.
Qed.

Lemma coping_strategy_synonym_witness :
  ActionSuggestCopingStrategy.run
    {| Tracker.latest_message := Tracker.latest_message sad_tracker;
       Tracker.slots := [("detected_emotion", "sad")] |} remote_world
  = ActionSuggestCopingStrategy.run
      {| Tracker.latest_message := Tracker.latest_message sad_tracker;
         Tracker.slots := [("detected_emotion", "sadness")] |} remote_world.
Proof.
  exact (coping_strategy_treats_synonyms_as_their_emotion _ _ remote_world
           eq_refl).
Defined.

(** ** Keywords inside longer words *)

Lemma prefix_app (k b : string) : String.prefix k (k ++ b) = true.
Proof.
  induction k as [|c k IH]; cbn [String.prefix String.append].
  - now destruct b.
  - destruct (ascii_dec c c) as [_|Hne]; [exact IH | now elim Hne].
Qed.

Lemma contains_inside (k a b : string) : Py.contains k (a ++ k ++ b) = true.
Proof.
  induction a as [|c a IH].
  - cbn [String.append].
    destruct (k ++ b)%string eqn:E;
      cbn [Py.contains]; rewrite <- E, prefix_app; reflexivity.
  - cbn [String.append Py.contains]. rewrite IH. apply orb_true_r.
Qed.

Lemma keyword_count_positive (text keyword : string) (keywords : list string) :
  In keyword keywords ->
  Py.contains keyword (Py.lower text) = true ->
  1 <= keyword_count text keywords.
Proof.
  intros Hin Hcontains. unfold keyword_count.
  induction keywords as [|k keywords IH]; [contradiction|].
  cbn [filter]. destruct Hin as [-> | Hin].
  - rewrite Hcontains. cbn [List.length]. lia.
  - destruct (Py.contains k (Py.lower text)); cbn [List.length];
      specialize (IH Hin); lia.
Qed.

Lemma count_at_most_total (text emotion : string) (keywords : list string) :
  In (emotion, keywords) EmotionDetector.EMOTION_KEYWORDS ->
  keyword_count text keywords <= total_matches text.
Proof.
  intros Hin. unfold total_matches.
  pose proof (category_counts_of text _ _ Hin) as Hcount.
  generalize dependent (category_counts text). intros counts Hcount.
  induction counts as [|[e c] counts IH]; [contradiction|].
  change (dict_values ((e, c) :: counts)) with (c :: dict_values counts).
  cbn [list_sum fold_right]. fold (list_sum (dict_values counts)).
  destruct Hcount as [[= _ ->] | Hcount]; [lia|].
  specialize (IH Hcount). lia.
Qed.

(** Keywords are matched as substrings of the lower-cased text: a text that
    holds a keyword anywhere, in any case and also inside a longer word, has
    a match for the keyword's category, and its confidence is at least
    0.58, never the 0.5 of a text without keyword. *)
Theorem keyword_inside_a_word_is_a_match (text emotion keyword before after : string)
  (keywords : list string) :
  In (emotion, keywords) EmotionDetector.EMOTION_KEYWORDS ->
  In keyword keywords ->
  Py.lower text = (before ++ keyword ++ after)%string ->
  exists label confidence,
    EmotionDetector._detect_with_keywords text = Ok (label, confidence)
    /\ 1 <= keyword_count text keywords
    /\ dict_lookup (category_counts text) emotion
       = Some (keyword_count text keywords)
    /\ PrimFloat.leb 0.58 confidence = true.
Proof.
  intros Hcategory Hkeyword Htext.
  assert (Hcontains : Py.contains keyword (Py.lower text) = true)
    by (rewrite Htext; apply contains_inside).
  pose proof (keyword_count_positive text keyword keywords Hkeyword Hcontains)
    as Hcount.
  pose proof (count_at_most_total text emotion keywords Hcategory) as Htotal.
  destruct (detect_with_keywords_eq text) as (m & label & Hhigh & Heq).
  exists label, (keyword_confidence m (total_matches text)).
  split; [exact Heq|]. split; [exact Hcount|]. split.
  - pose proof (category_counts_of text _ _ Hcategory) as Hin.
    apply in_split in Hin. destruct Hin as (l1 & l2 & Hsplit).
    rewrite Hsplit. apply dict_lookup_middle. rewrite <- Hsplit.
    rewrite category_counts_keys. apply keyword_table_keys_nodup.
  - apply (matched_confidence_bounds text m label Hhigh). lia.
Qed.

Lemma keyword_inside_a_word_witness :
  exists label confidence,
    EmotionDetector._detect_with_keywords "I am UNHAPPY" = Ok (label, confidence)
    /\ 1 <= keyword_count "I am UNHAPPY"
              ["happy"; "glad"; "joy"; "excited"; "pleased"; "delighted";
               "content"; "cheerful"; "thrilled"; "wonderful"]
    /\ dict_lookup (category_counts "I am UNHAPPY") "joy"
       = Some (keyword_count "I am UNHAPPY"
                 ["happy"; "glad"; "joy"; "excited"; "pleased"; "delighted";
                  "content"; "cheerful"; "thrilled"; "wonderful"])
    /\ PrimFloat.leb 0.58 confidence = true.
Proof.
  refine (keyword_inside_a_word_is_a_match "I am UNHAPPY" "joy" "happy"
            "i am un" "" _ (or_introl eq_refl) (or_introl eq_refl) eq_refl).
Defined.

(** ** [get_response_for_emotion] *)

(** [get_response_for_emotion] does not see the case of the label, has a
    sentence of its own for each canonical label, answers a label outside
    its table with the sentence for neutral, and never gives an empty
    sentence. *)
Theorem response_for_emotion_defaults_to_neutral :
  (forall emotion,
      EmotionDetector.get_response_for_emotion (Py.lower emotion)
      = EmotionDetector.get_response_for_emotion emotion)
  /\ (forall emotion,
         In emotion canonical_labels ->
         dict_lookup EmotionDetector.emotion_responses emotion
         = Some (EmotionDetector.get_response_for_emotion emotion))
  /\ (forall emotion,
         dict_contains EmotionDetector.emotion_responses (Py.lower emotion)
         = false ->
         EmotionDetector.get_response_for_emotion emotion
         = EmotionDetector.get_response_for_emotion "neutral")
  /\ (forall emotion,
         EmotionDetector.get_response_for_emotion emotion <> "").
Proof.
  split; [|split; [|split]].
  - intros emotion. unfold EmotionDetector.get_response_for_emotion.
    now rewrite lower_idempotent.
  - intros emotion Hin. unfold canonical_labels in Hin. cbn [In] in Hin.
    repeat (destruct Hin as [<-|Hin]; [reflexivity|]). contradiction.
  - intros emotion Hout. unfold EmotionDetector.get_response_for_emotion,
      dict_get. unfold dict_contains in Hout.
    destruct (dict_lookup EmotionDetector.emotion_responses (Py.lower emotion));
      [discriminate | reflexivity].
  - intros emotion. unfold EmotionDetector.get_response_for_emotion, dict_get,
      EmotionDetector.emotion_responses.
    cbn [dict_lookup].
    repeat match goal with
           | |- context [(Py.lower emotion =? ?k)%string] =>
               destruct (Py.lower emotion =? k)%string; [discriminate|]
           end.
    discriminate.
Qed.

(** ** ProcessMessage and a label outside the response tables *)

Lemma call_fallback_api_unrecognized_run (api : api_outcome)
  (message emotion : string) (w : World) :
  dict_contains EMPATHETIC_RESPONSES emotion = false ->
  (forall content, remote_path_of api <> Answered content) ->
  ActionProcessMessage._call_fallback_api api message emotion w
  = (Raise KeyError, after_draw w).
Proof.
  intros Hout Hnot.
  assert (Hlookup : dict_getitem EMPATHETIC_RESPONSES emotion = Raise KeyError).
  { unfold dict_getitem. unfold dict_contains in Hout.
    destruct (dict_lookup EMPATHETIC_RESPONSES emotion);
      [discriminate | reflexivity]. }
  unfold ActionProcessMessage._call_fallback_api.
  unfold bind at 1. rewrite random_random_run, Hout, andb_false_r.
  unfold bind at 1. unfold try_except. rewrite Hlookup.
  destruct api as [e | status_code [data | e]]; [reflexivity| |reflexivity].
  unfold remote_path_of in Hnot. unfold bind at 1, lift at 1.
  destruct (status_code =? 200)%Z;
    [destruct (json_contains "choices" data) as [[|]|e]|];
    try reflexivity.
  unfold bind at 1, lift at 1. unfold bind at 1, lift at 1.
  pose proof (completion_subscripts data) as Hcontent.
  destruct (completion_content data) as [content|].
  - now elim (Hnot content).
  - destruct Hcontent as [e He]. rewrite He. reflexivity.
Qed.

(** What ProcessMessage does, on its low-confidence path, with a detected
    emotion that is not a key of the empathetic table: it always attempts
    the remote call; an answer with a content is passed on; every other end
    of the call leaves the handler with a [KeyError], after one random draw
    and without any message. *)
Theorem unrecognized_emotion_needs_the_remote_answer
  (detector : EmotionDetector.t) (api : api_outcome) (tracker : Tracker.t)
  (w : World) (detection : EmotionDetector.Detection) :
  EmotionDetector.detect_emotion detector (user_text tracker) = Ok detection ->
  PrimFloat.ltb (intent_confidence tracker) 0.3 = true ->
  dict_contains EMPATHETIC_RESPONSES (EmotionDetector.emotion detection) = false ->
  remote_attempted w (EmotionDetector.emotion detection) = true
  /\ ((exists content,
          remote_path_of api = Answered content
          /\ ActionProcessMessage.run detector api tracker w
             = (Ok [SlotSet "detected_emotion" (EmotionDetector.emotion detection)],
                {| messages := messages w ++ [content];
                   rng := rng (after_draw w) |}))
      \/ ((forall content, remote_path_of api <> Answered content)
          /\ ActionProcessMessage.run detector api tracker w
             = (Raise KeyError, after_draw w)
          /\ messages (after_draw w) = messages w)).
Proof.
  intros Hdet Hconf Hout.
  assert (Hattempt : remote_attempted w (EmotionDetector.emotion detection) = true)
    by (unfold remote_attempted; now rewrite Hout, andb_false_r).
  split; [exact Hattempt|].
  rewrite (process_message_unsure _ _ _ _ _ Hdet Hconf).
  pose proof (call_fallback_api_attempted_run api (user_text tracker) _ w
                Hattempt) as Hrun.
  destruct (remote_path_of api) as [content| | |] eqn:Hpath.
  - left. exists content. split; [reflexivity | exact Hrun].
  - right. split; [discriminate|]. split; [|apply messages_after_draw].
    apply call_fallback_api_unrecognized_run; [exact Hout|].
    rewrite Hpath. discriminate.
  - right. split; [discriminate|]. split; [|apply messages_after_draw].
    apply call_fallback_api_unrecognized_run; [exact Hout|].
    rewrite Hpath. discriminate.
  - right. split; [discriminate|]. split; [|apply messages_after_draw].
    apply call_fallback_api_unrecognized_run; [exact Hout|].
    rewrite Hpath. discriminate.
Qed.

Lemma unrecognized_emotion_witness :
  remote_attempted remote_world "surprise" = true
  /\ ((exists content,
          remote_path_of (Response 200 (Ok empty_completion)) = Answered content
          /\ ActionProcessMessage.run surprise_detector
               (Response 200 (Ok empty_completion)) surprised_tracker remote_world
             = (Ok [SlotSet "detected_emotion" "surprise"],
                {| messages := messages remote_world ++ [content];
                   rng := rng (after_draw remote_world) |}))
      \/ ((forall content,
              remote_path_of (Response 200 (Ok empty_completion))
              <> Answered content)
          /\ ActionProcessMessage.run surprise_detector
               (Response 200 (Ok empty_completion)) surprised_tracker remote_world
             = (Raise KeyError, after_draw remote_world)
          /\ messages (after_draw remote_world) = messages remote_world)).
Proof.
  exact (unrecognized_emotion_needs_the_remote_answer surprise_detector
           (Response 200 (Ok empty_completion)) surprised_tracker remote_world
           _ eq_refl eq_refl eq_refl).
Defined.
